(** * EidiCard generator: a shallow embedding of the Python sources

    The development follows the layout of the repository:

    - [Py]            the fragment of the Python runtime the code relies on
                      (exceptions, [str] methods, [repr], [int(s, 16)],
                      [random]);
    - [World]         the outside world: environment variables, HTTP, the
                      text-generation service, PIL, FPDF and the file system,
                      as an oracle record, together with the log of calls
                      the program makes and a state-and-exception monad;
    - [Tools]         [tools.py];
    - [Agents]        [agents.py];
    - [ImageUtils]    [utils/image_utils.py];
    - [Utils]         [utils/__init__.py];
    - [PdfGenerator]  [utils/pdf_generator.py];
    - [FontUtils]     [utils/font_utils.py];
    - [Main]          [create_pdf_card], [create_card] and
                      [refresh_background] of [main.py];
    - [Runner]        [runner.py];
    - [Scenarios]     concrete worlds for the examples.

    The vocabulary in which the properties are stated comes next, then the
    properties themselves, component by component.

    A Python [str] is represented by the [string] of its UTF-8 bytes;
    operations that work on characters go through [Py.chars].  Numbers that
    Python computes in floating point (lengths on the page) are rationals
    here; rounding is not modelled. *)

From Stdlib Require Import ZArith NArith QArith Qround Lia String Ascii List
  DecimalString.
From stdpp Require Import base option strings list gmap.

Local Open Scope string_scope.
Local Open Scope Z_scope.

(* ===================================================================== *)
(** * The Python runtime fragment                                          *)
(* ===================================================================== *)

Module Py.

(** ** Exceptions *)

(** The exception classes that occur in the sources or that the modelled
    builtins raise.  [RequestException] is
    [requests.exceptions.RequestException] (itself a subclass of
    [IOError]); [OtherError] stands for any further subclass of
    [Exception]. *)
Inductive exn_class : Type :=
  | ValueError | KeyError | IndexError | AttributeError | TypeError
  | ZeroDivisionError | UnboundLocalError
  | RequestException | IOError | OtherError.

Record exn : Type := Exn { exn_cls : exn_class; exn_str : string }.

#[global] Instance exn_class_eq_dec : EqDecision exn_class.
Proof. solve_decision. Defined.

(** [isinstance(e, requests.exceptions.RequestException)] *)
Definition is_RequestException (e : exn) : bool :=
  bool_decide (exn_cls e = RequestException).

(** [isinstance(e, IOError)]: [RequestException] derives from [IOError]. *)
Definition is_IOError (e : exn) : bool :=
  bool_decide (exn_cls e = IOError) || is_RequestException e.

Inductive result (A : Type) : Type :=
  | Ok (a : A)
  | Raise (e : exn).
Arguments Ok {A} a.
Arguments Raise {A} e.

Definition rbind {A B} (r : result A) (k : A -> result B) : result B :=
  match r with
  | Ok a => k a
  | Raise e => Raise e
  end.

(** ** Truthiness *)

(** [bool(s)] for an optional string: [None] and [''] are falsy. *)
Definition truthy (o : option string) : bool :=
  match o with
  | Some s => negb (String.eqb s "")
  | None => false
  end.

(** [a or b] on optional strings. *)
Definition or_else (a b : option string) : option string :=
  if truthy a then a else b.

(** ** Characters of a [str] *)

Definition nl : string := String (ascii_of_nat 10) EmptyString.
Definition dq : string := String (ascii_of_nat 34) EmptyString.

Definition concat_strs (l : list string) : string :=
  foldr String.append EmptyString l.

(** Number of bytes of the UTF-8 sequence that starts with byte [c]. *)
Definition utf8_len (c : ascii) : nat :=
  let n := N_of_ascii c in
  if (n <? 192)%N then 1%nat
  else if (n <? 224)%N then 2%nat
  else if (n <? 240)%N then 3%nat
  else 4%nat.

Fixpoint chars_aux (need : nat) (cur : string) (s : string) : list string :=
  match s with
  | EmptyString => match cur with EmptyString => [] | _ => [cur] end
  | String c s' =>
      match need with
      | O =>
          let rest := chars_aux (utf8_len c - 1) (String c EmptyString) s' in
          match cur with EmptyString => rest | _ => cur :: rest end
      | S k => chars_aux k (cur +:+ String c EmptyString) s'
      end
  end.

(** The characters (code points) of a [str], each as its own string. *)
Definition chars (s : string) : list string := chars_aux 0 EmptyString s.

(** [ord(ch)] for a one-character string. *)
Definition ord (ch : string) : N :=
  match map N_of_ascii (list_ascii_of_string ch) with
  | [a] => a
  | [a; b] => ((a mod 32) * 64 + b mod 64)%N
  | [a; b; c] => ((a mod 16) * 4096 + (b mod 64) * 64 + c mod 64)%N
  | [a; b; c; d] =>
      ((a mod 8) * 262144 + (b mod 64) * 4096 + (c mod 64) * 64 + d mod 64)%N
  | _ => 0%N
  end.

Definition in_range (lo hi x : N) : bool := ((lo <=? x) && (x <=? hi))%N.

(** [ch.isspace()] *)
Definition isspace (ch : string) : bool :=
  let c := ord ch in
  in_range 9 13 c || in_range 28 32 c || (c =? 133)%N || (c =? 160)%N
  || (c =? 5760)%N || in_range 8192 8202 c || (c =? 8232)%N
  || (c =? 8233)%N || (c =? 8239)%N || (c =? 8287)%N || (c =? 12288)%N.

Fixpoint drop_while {A} (p : A -> bool) (l : list A) : list A :=
  match l with
  | [] => []
  | x :: l' => if p x then drop_while p l' else l
  end.

(** [s.strip()] *)
Definition strip (s : string) : string :=
  concat_strs (rev (drop_while isspace (rev (drop_while isspace (chars s))))).

(** [s[i:j]] for literal bounds [0 <= i <= j]. *)
Definition slice (i j : nat) (s : string) : string :=
  concat_strs (take (j - i) (drop i (chars s))).

(** [sep.join(l)] *)
Fixpoint join (sep : string) (l : list string) : string :=
  match l with
  | [] => EmptyString
  | [x] => x
  | x :: l' => x +:+ sep +:+ join sep l'
  end.

(** [s.replace(old, new)] for a one-byte pattern [old]. *)
Fixpoint replace1 (old : ascii) (new : string) (s : string) : string :=
  match s with
  | EmptyString => EmptyString
  | String c s' =>
      if Ascii.eqb c old then new +:+ replace1 old new s'
      else String c (replace1 old new s')
  end.

(** [str(b)] for a [bool], as an f-string prints it. *)
Definition str_of_bool (b : bool) : string := if b then "True" else "False".

(** ** [repr(s)] *)

(** The ranges of code points above U+007F that [str.isprintable] rejects
    (Unicode 14.0, the database of CPython 3.11). *)
Definition non_printable : list (N * N) :=
  [
    (128, 160); (173, 173); (888, 889); (896, 899); (907, 907); (909, 909);
    (930, 930); (1328, 1328); (1367, 1368); (1419, 1420); (1424, 1424);
    (1480, 1487); (1515, 1518); (1525, 1541); (1564, 1564); (1757, 1757);
    (1806, 1807); (1867, 1868); (1970, 1983); (2043, 2044); (2094, 2095);
    (2111, 2111); (2140, 2141); (2143, 2143); (2155, 2159); (2191, 2199);
    (2274, 2274); (2436, 2436); (2445, 2446); (2449, 2450); (2473, 2473);
    (2481, 2481); (2483, 2485); (2490, 2491); (2501, 2502); (2505, 2506);
    (2511, 2518); (2520, 2523); (2526, 2526); (2532, 2533); (2559, 2560);
    (2564, 2564); (2571, 2574); (2577, 2578); (2601, 2601); (2609, 2609);
    (2612, 2612); (2615, 2615); (2618, 2619); (2621, 2621); (2627, 2630);
    (2633, 2634); (2638, 2640); (2642, 2648); (2653, 2653); (2655, 2661);
    (2679, 2688); (2692, 2692); (2702, 2702); (2706, 2706); (2729, 2729);
    (2737, 2737); (2740, 2740); (2746, 2747); (2758, 2758); (2762, 2762);
    (2766, 2767); (2769, 2783); (2788, 2789); (2802, 2808); (2816, 2816);
    (2820, 2820); (2829, 2830); (2833, 2834); (2857, 2857); (2865, 2865);
    (2868, 2868); (2874, 2875); (2885, 2886); (2889, 2890); (2894, 2900);
    (2904, 2907); (2910, 2910); (2916, 2917); (2936, 2945); (2948, 2948);
    (2955, 2957); (2961, 2961); (2966, 2968); (2971, 2971); (2973, 2973);
    (2976, 2978); (2981, 2983); (2987, 2989); (3002, 3005); (3011, 3013);
    (3017, 3017); (3022, 3023); (3025, 3030); (3032, 3045); (3067, 3071);
    (3085, 3085); (3089, 3089); (3113, 3113); (3130, 3131); (3141, 3141);
    (3145, 3145); (3150, 3156); (3159, 3159); (3163, 3164); (3166, 3167);
    (3172, 3173); (3184, 3190); (3213, 3213); (3217, 3217); (3241, 3241);
    (3252, 3252); (3258, 3259); (3269, 3269); (3273, 3273); (3278, 3284);
    (3287, 3292); (3295, 3295); (3300, 3301); (3312, 3312); (3315, 3327);
    (3341, 3341); (3345, 3345); (3397, 3397); (3401, 3401); (3408, 3411);
    (3428, 3429); (3456, 3456); (3460, 3460); (3479, 3481); (3506, 3506);
    (3516, 3516); (3518, 3519); (3527, 3529); (3531, 3534); (3541, 3541);
    (3543, 3543); (3552, 3557); (3568, 3569); (3573, 3584); (3643, 3646);
    (3676, 3712); (3715, 3715); (3717, 3717); (3723, 3723); (3748, 3748);
    (3750, 3750); (3774, 3775); (3781, 3781); (3783, 3783); (3790, 3791);
    (3802, 3803); (3808, 3839); (3912, 3912); (3949, 3952); (3992, 3992);
    (4029, 4029); (4045, 4045); (4059, 4095); (4294, 4294); (4296, 4300);
    (4302, 4303); (4681, 4681); (4686, 4687); (4695, 4695); (4697, 4697);
    (4702, 4703); (4745, 4745); (4750, 4751); (4785, 4785); (4790, 4791);
    (4799, 4799); (4801, 4801); (4806, 4807); (4823, 4823); (4881, 4881);
    (4886, 4887); (4955, 4956); (4989, 4991); (5018, 5023); (5110, 5111);
    (5118, 5119); (5760, 5760); (5789, 5791); (5881, 5887); (5910, 5918);
    (5943, 5951); (5972, 5983); (5997, 5997); (6001, 6001); (6004, 6015);
    (6110, 6111); (6122, 6127); (6138, 6143); (6158, 6158); (6170, 6175);
    (6265, 6271); (6315, 6319); (6390, 6399); (6431, 6431); (6444, 6447);
    (6460, 6463); (6465, 6467); (6510, 6511); (6517, 6527); (6572, 6575);
    (6602, 6607); (6619, 6621); (6684, 6685); (6751, 6751); (6781, 6782);
    (6794, 6799); (6810, 6815); (6830, 6831); (6863, 6911); (6989, 6991);
    (7039, 7039); (7156, 7163); (7224, 7226); (7242, 7244); (7305, 7311);
    (7355, 7356); (7368, 7375); (7419, 7423); (7958, 7959); (7966, 7967);
    (8006, 8007); (8014, 8015); (8024, 8024); (8026, 8026); (8028, 8028);
    (8030, 8030); (8062, 8063); (8117, 8117); (8133, 8133); (8148, 8149);
    (8156, 8156); (8176, 8177); (8181, 8181); (8191, 8207); (8232, 8239);
    (8287, 8303); (8306, 8307); (8335, 8335); (8349, 8351); (8385, 8399);
    (8433, 8447); (8588, 8591); (9255, 9279); (9291, 9311); (11124, 11125);
    (11158, 11158); (11508, 11512); (11558, 11558); (11560, 11564);
    (11566, 11567); (11624, 11630); (11633, 11646); (11671, 11679);
    (11687, 11687); (11695, 11695); (11703, 11703); (11711, 11711);
    (11719, 11719); (11727, 11727); (11735, 11735); (11743, 11743);
    (11870, 11903); (11930, 11930); (12020, 12031); (12246, 12271);
    (12284, 12288); (12352, 12352); (12439, 12440); (12544, 12548);
    (12592, 12592); (12687, 12687); (12772, 12783); (12831, 12831);
    (42125, 42127); (42183, 42191); (42540, 42559); (42744, 42751);
    (42955, 42959); (42962, 42962); (42964, 42964); (42970, 42993);
    (43053, 43055); (43066, 43071); (43128, 43135); (43206, 43213);
    (43226, 43231); (43348, 43358); (43389, 43391); (43470, 43470);
    (43482, 43485); (43519, 43519); (43575, 43583); (43598, 43599);
    (43610, 43611); (43715, 43738); (43767, 43776); (43783, 43784);
    (43791, 43792); (43799, 43807); (43815, 43815); (43823, 43823);
    (43884, 43887); (44014, 44015); (44026, 44031); (55204, 55215);
    (55239, 55242); (55292, 63743); (64110, 64111); (64218, 64255);
    (64263, 64274); (64280, 64284); (64311, 64311); (64317, 64317);
    (64319, 64319); (64322, 64322); (64325, 64325); (64451, 64466);
    (64912, 64913); (64968, 64974); (64976, 65007); (65050, 65055);
    (65107, 65107); (65127, 65127); (65132, 65135); (65141, 65141);
    (65277, 65280); (65471, 65473); (65480, 65481); (65488, 65489);
    (65496, 65497); (65501, 65503); (65511, 65511); (65519, 65531);
    (65534, 65535); (65548, 65548); (65575, 65575); (65595, 65595);
    (65598, 65598); (65614, 65615); (65630, 65663); (65787, 65791);
    (65795, 65798); (65844, 65846); (65935, 65935); (65949, 65951);
    (65953, 65999); (66046, 66175); (66205, 66207); (66257, 66271);
    (66300, 66303); (66340, 66348); (66379, 66383); (66427, 66431);
    (66462, 66462); (66500, 66503); (66518, 66559); (66718, 66719);
    (66730, 66735); (66772, 66775); (66812, 66815); (66856, 66863);
    (66916, 66926); (66939, 66939); (66955, 66955); (66963, 66963);
    (66966, 66966); (66978, 66978); (66994, 66994); (67002, 67002);
    (67005, 67071); (67383, 67391); (67414, 67423); (67432, 67455);
    (67462, 67462); (67505, 67505); (67515, 67583); (67590, 67591);
    (67593, 67593); (67638, 67638); (67641, 67643); (67645, 67646);
    (67670, 67670); (67743, 67750); (67760, 67807); (67827, 67827);
    (67830, 67834); (67868, 67870); (67898, 67902); (67904, 67967);
    (68024, 68027); (68048, 68049); (68100, 68100); (68103, 68107);
    (68116, 68116); (68120, 68120); (68150, 68151); (68155, 68158);
    (68169, 68175); (68185, 68191); (68256, 68287); (68327, 68330);
    (68343, 68351); (68406, 68408); (68438, 68439); (68467, 68471);
    (68498, 68504); (68509, 68520); (68528, 68607); (68681, 68735);
    (68787, 68799); (68851, 68857); (68904, 68911); (68922, 69215);
    (69247, 69247); (69290, 69290); (69294, 69295); (69298, 69375);
    (69416, 69423); (69466, 69487); (69514, 69551); (69580, 69599);
    (69623, 69631); (69710, 69713); (69750, 69758); (69821, 69821);
    (69827, 69839); (69865, 69871); (69882, 69887); (69941, 69941);
    (69960, 69967); (70007, 70015); (70112, 70112); (70133, 70143);
    (70162, 70162); (70207, 70271); (70279, 70279); (70281, 70281);
    (70286, 70286); (70302, 70302); (70314, 70319); (70379, 70383);
    (70394, 70399); (70404, 70404); (70413, 70414); (70417, 70418);
    (70441, 70441); (70449, 70449); (70452, 70452); (70458, 70458);
    (70469, 70470); (70473, 70474); (70478, 70479); (70481, 70486);
    (70488, 70492); (70500, 70501); (70509, 70511); (70517, 70655);
    (70748, 70748); (70754, 70783); (70856, 70863); (70874, 71039);
    (71094, 71095); (71134, 71167); (71237, 71247); (71258, 71263);
    (71277, 71295); (71354, 71359); (71370, 71423); (71451, 71452);
    (71468, 71471); (71495, 71679); (71740, 71839); (71923, 71934);
    (71943, 71944); (71946, 71947); (71956, 71956); (71959, 71959);
    (71990, 71990); (71993, 71994); (72007, 72015); (72026, 72095);
    (72104, 72105); (72152, 72153); (72165, 72191); (72264, 72271);
    (72355, 72367); (72441, 72703); (72713, 72713); (72759, 72759);
    (72774, 72783); (72813, 72815); (72848, 72849); (72872, 72872);
    (72887, 72959); (72967, 72967); (72970, 72970); (73015, 73017);
    (73019, 73019); (73022, 73022); (73032, 73039); (73050, 73055);
    (73062, 73062); (73065, 73065); (73103, 73103); (73106, 73106);
    (73113, 73119); (73130, 73439); (73465, 73647); (73649, 73663);
    (73714, 73726); (74650, 74751); (74863, 74863); (74869, 74879);
    (75076, 77711); (77811, 77823); (78895, 82943); (83527, 92159);
    (92729, 92735); (92767, 92767); (92778, 92781); (92863, 92863);
    (92874, 92879); (92910, 92911); (92918, 92927); (92998, 93007);
    (93018, 93018); (93026, 93026); (93048, 93052); (93072, 93759);
    (93851, 93951); (94027, 94030); (94088, 94094); (94112, 94175);
    (94181, 94191); (94194, 94207); (100344, 100351); (101590, 101631);
    (101641, 110575); (110580, 110580); (110588, 110588); (110591, 110591);
    (110883, 110927); (110931, 110947); (110952, 110959); (111356, 113663);
    (113771, 113775); (113789, 113791); (113801, 113807); (113818, 113819);
    (113824, 118527); (118574, 118575); (118599, 118607); (118724, 118783);
    (119030, 119039); (119079, 119080); (119155, 119162); (119275, 119295);
    (119366, 119519); (119540, 119551); (119639, 119647); (119673, 119807);
    (119893, 119893); (119965, 119965); (119968, 119969); (119971, 119972);
    (119975, 119976); (119981, 119981); (119994, 119994); (119996, 119996);
    (120004, 120004); (120070, 120070); (120075, 120076); (120085, 120085);
    (120093, 120093); (120122, 120122); (120127, 120127); (120133, 120133);
    (120135, 120137); (120145, 120145); (120486, 120487); (120780, 120781);
    (121484, 121498); (121504, 121504); (121520, 122623); (122655, 122879);
    (122887, 122887); (122905, 122906); (122914, 122914); (122917, 122917);
    (122923, 123135); (123181, 123183); (123198, 123199); (123210, 123213);
    (123216, 123535); (123567, 123583); (123642, 123646); (123648, 124895);
    (124903, 124903); (124908, 124908); (124911, 124911); (124927, 124927);
    (125125, 125126); (125143, 125183); (125260, 125263); (125274, 125277);
    (125280, 126064); (126133, 126208); (126270, 126463); (126468, 126468);
    (126496, 126496); (126499, 126499); (126501, 126502); (126504, 126504);
    (126515, 126515); (126520, 126520); (126522, 126522); (126524, 126529);
    (126531, 126534); (126536, 126536); (126538, 126538); (126540, 126540);
    (126544, 126544); (126547, 126547); (126549, 126550); (126552, 126552);
    (126554, 126554); (126556, 126556); (126558, 126558); (126560, 126560);
    (126563, 126563); (126565, 126566); (126571, 126571); (126579, 126579);
    (126584, 126584); (126589, 126589); (126591, 126591); (126602, 126602);
    (126620, 126624); (126628, 126628); (126634, 126634); (126652, 126703);
    (126706, 126975); (127020, 127023); (127124, 127135); (127151, 127152);
    (127168, 127168); (127184, 127184); (127222, 127231); (127406, 127461);
    (127491, 127503); (127548, 127551); (127561, 127567); (127570, 127583);
    (127590, 127743); (128728, 128732); (128749, 128751); (128765, 128767);
    (128884, 128895); (128985, 128991); (129004, 129007); (129009, 129023);
    (129036, 129039); (129096, 129103); (129114, 129119); (129160, 129167);
    (129198, 129199); (129202, 129279); (129620, 129631); (129646, 129647);
    (129653, 129655); (129661, 129663); (129671, 129679); (129709, 129711);
    (129723, 129727); (129734, 129743); (129754, 129759); (129768, 129775);
    (129783, 129791); (129939, 129939); (129995, 130031); (130042, 131071);
    (173792, 173823); (177977, 177983); (178206, 178207); (183970, 183983);
    (191457, 194559); (195102, 196607); (201547, 917759); (918000, 1114111)
  ]%N.

(** [ch.isprintable()] for a character above U+007F. *)
Definition isprintable (ch : string) : bool :=
  negb (existsb (fun r => in_range r.1 r.2 (ord ch)) non_printable).

Definition hex_lower (d : N) : ascii :=
  ascii_of_N (if (d <? 10)%N then 48 + d else 87 + d).

(** [c] written with [n] lower-case hexadecimal digits. *)
Fixpoint hex_fixed (n : nat) (c : N) : string :=
  match n with
  | O => EmptyString
  | S n' =>
      hex_fixed n' (c / 16) +:+ String (hex_lower (c mod 16)) EmptyString
  end.

Definition backslash : string := String (ascii_of_nat 92) EmptyString.

(** One character of [repr(s)]; [quote] is the code point of the
    delimiter. *)
Definition repr_char (quote : N) (ch : string) : string :=
  let c := ord ch in
  if (c =? quote)%N || (c =? 92)%N then backslash +:+ ch
  else if (c =? 9)%N then backslash +:+ "t"
  else if (c =? 10)%N then backslash +:+ "n"
  else if (c =? 13)%N then backslash +:+ "r"
  else if (c <? 32)%N || (c =? 127)%N then
    backslash +:+ "x" +:+ hex_fixed 2 c
  else if (c <? 127)%N then ch
  else if isprintable ch then ch
  else if (c <=? 255)%N then backslash +:+ "x" +:+ hex_fixed 2 c
  else if (c <=? 65535)%N then backslash +:+ "u" +:+ hex_fixed 4 c
  else backslash +:+ "U" +:+ hex_fixed 8 c.

(** [repr(s)]: the delimiter is the double quote when [s] has single
    quotes and no double quote, the single quote otherwise. *)
Definition repr (s : string) : string :=
  let cs := chars s in
  let has := fun c => existsb (fun ch => (ord ch =? c)%N) cs in
  let quote := if has 39%N && negb (has 34%N) then 34%N else 39%N in
  let q := String (ascii_of_N quote) EmptyString in
  q +:+ concat_strs (map (repr_char quote) cs) +:+ q.

(** ** [int(s, 16)] *)

(** The digits zero of the decimal digits above U+007F (Unicode 14.0); the
    digits one to nine follow each of them. *)
Definition decimal_zeros : list N :=
  [
    1632; 1776; 1984; 2406; 2534; 2662; 2790; 2918; 3046; 3174; 3302; 3430;
    3558; 3664; 3792; 3872; 4160; 4240; 6112; 6160; 6470; 6608; 6784; 6800;
    6992; 7088; 7232; 7248; 42528; 43216; 43264; 43472; 43504; 43600; 44016;
    65296; 66720; 68912; 69734; 69872; 69942; 70096; 70384; 70736; 70864;
    71248; 71360; 71472; 71904; 72016; 72784; 73040; 73120; 92768; 92864;
    93008; 120782; 120792; 120802; 120812; 120822; 123200; 123632; 125264;
    130032
  ]%N.

(** [Py_UNICODE_TODECIMAL(c)] for a code point above U+007F. *)
Definition to_decimal (c : N) : option N :=
  (fun z => (c - z)%N)
    <$> List.find (fun z => in_range z (z + 9) c) decimal_zeros.

(** The loop of [_PyUnicode_TransformDecimalAndSpaceToASCII]: a
    character below U+007F is kept, whitespace becomes a space and a
    decimal digit its ASCII digit; the first character that is none of
    these becomes "?" and ends the buffer. *)
Fixpoint transform (cs : list string) : list N :=
  match cs with
  | [] => []
  | ch :: cs' =>
      let c := ord ch in
      if (c <? 127)%N then c :: transform cs'
      else if isspace ch then 32%N :: transform cs'
      else
        match to_decimal c with
        | Some d => (48 + d)%N :: transform cs'
        | None => [63%N]
        end
  end.

(** [_PyUnicode_TransformDecimalAndSpaceToASCII]: a [str] that is ASCII
    is taken as it is. *)
Definition to_ascii (cs : list string) : list N :=
  if forallb (fun ch => (ord ch <? 128)%N) cs then map ord cs
  else transform cs.

(** [Py_ISSPACE(c)] *)
Definition ascii_space (c : N) : bool := in_range 9 13 c || (c =? 32)%N.

Definition hex_digit (c : N) : option Z :=
  if in_range 48 57 c then Some (Z.of_N c - 48)
  else if in_range 97 102 c then Some (Z.of_N c - 87)
  else if in_range 65 70 c then Some (Z.of_N c - 55)
  else None.

(** The digits [PyLong_FromString] reads: hexadecimal digits with single
    underscores between them, up to the first other character; the value
    and what is left.  [prev_us] records that the previous character was
    an underscore. *)
Fixpoint hex_digits (cs : list N) (acc : Z) (prev_us : bool)
    : option (Z * list N) :=
  match cs with
  | [] => if prev_us then None else Some (acc, [])
  | c :: cs' =>
      if (c =? 95)%N then
        if prev_us then None else hex_digits cs' acc true
      else
        match hex_digit c with
        | Some d => hex_digits cs' (acc * 16 + d) false
        | None => if prev_us then None else Some (acc, cs)
        end
  end.

(** After the sign: an optional [0x] with an optional underscore, at
    least one digit, then nothing but whitespace. *)
Definition hex_body (cs : list N) : option Z :=
  let cs :=
    match cs with
    | 48%N :: x :: rest =>
        if (x =? 120)%N || (x =? 88)%N then
          match rest with
          | 95%N :: rest' => rest'
          | _ => rest
          end
        else cs
    | _ => cs
    end in
  match cs with
  | [] => None
  | c :: _ =>
      match hex_digit c, hex_digits cs 0 false with
      | Some _, Some (z, rest) =>
          if forallb ascii_space rest then Some z else None
      | _, _ => None
      end
  end.

(** [int(s, 16)] for a [str]: the text is brought to ASCII; then come
    whitespace, an optional sign, an optional [0x] prefix, hexadecimal
    digits with single underscores between them, whitespace.  The message
    of the [ValueError] shows [repr(s)], cut after 200 characters. *)
Definition int16 (s : string) : result Z :=
  let cs := drop_while ascii_space (to_ascii (chars s)) in
  let parsed :=
    match cs with
    | 43%N :: rest => hex_body rest
    | 45%N :: rest => Z.opp <$> hex_body rest
    | _ => hex_body cs
    end in
  match parsed with
  | Some z => Ok z
  | None =>
      Raise (Exn ValueError
               ("invalid literal for int() with base 16: "
                  +:+ concat_strs (take 200 (chars (repr s)))))
  end.

(** ** [random] *)

(** [random.choice(seq)] is [seq[randbelow(len(seq))]]; [r] is the raw
    random number the generator delivers. *)
Definition choice {A} (r : nat) (l : list A) : result A :=
  match l !! (r mod length l)%nat with
  | Some x => Ok x
  | None => Raise (Exn IndexError "Cannot choose from an empty sequence")
  end.

(** The selection loop of [random.sample] over a pool (the branch CPython
    takes for populations of at most 21 elements): at step [i] of [k],
    [j = randbelow(n - i)], [result[i] = pool[j]],
    [pool[j] = pool[n - i - 1]].  [m] is [n - i], [rnd i] the raw random
    number of step [i]. *)
Fixpoint sample_loop {A} (rnd : nat -> nat) (i : nat) (k : nat)
    (m : nat) (pool : list A) : list A :=
  match k with
  | O => []
  | S k' =>
      let j := (rnd i mod m)%nat in
      match pool !! j, pool !! (m - 1)%nat with
      | Some x, Some y =>
          x :: sample_loop rnd (S i) k' (m - 1)%nat (<[j := y]> pool)
      | _, _ => []
      end
  end.

(** [random.sample(population, k)] *)
Definition sample {A} (rnd : nat -> nat) (population : list A) (k : Z)
    : result (list A) :=
  let n := length population in
  if (0 <=? k) && (k <=? Z.of_nat n) then
    Ok (sample_loop rnd 0 (Z.to_nat k) n population)
  else Raise (Exn ValueError "Sample larger than population or is negative").

(** ** Calls *)

(** A call of the function [name], whose only parameter is the positional
    parameter [param], with the positional arguments [args]. *)
Definition apply1 {A} (name param : string) (f : string -> A)
    (args : list string) : result A :=
  match args with
  | [a] => Ok (f a)
  | [] =>
      Raise (Exn TypeError
               (name +:+ "() missing 1 required positional argument: '"
                  +:+ param +:+ "'"))
  | _ =>
      Raise (Exn TypeError
               (name +:+ "() takes 1 positional argument but "
                  +:+ NilZero.string_of_uint (Nat.to_uint (length args))
                  +:+ " were given"))
  end.

(** ** More [str] methods *)

(** [s.startswith(p)], with what follows the prefix. *)
Fixpoint strip_prefix (p s : string) : option string :=
  match p, s with
  | EmptyString, _ => Some s
  | String a p', String b s' =>
      if Ascii.eqb a b then strip_prefix p' s' else None
  | String _ _, EmptyString => None
  end.

(** [s.replace(old, new)] for a non-empty [old]: the occurrences of [old]
    are replaced from left to right, without overlap.  [skip] counts the
    bytes of the occurrence just replaced that are still to be passed. *)
Fixpoint replace_from (old new : string) (skip : nat) (s : string) : string :=
  match s with
  | EmptyString => EmptyString
  | String c s' =>
      match skip with
      | S k => replace_from old new k s'
      | O =>
          match strip_prefix old s with
          | Some _ =>
              new +:+ replace_from old new (String.length old - 1) s'
          | None => String c (replace_from old new 0 s')
          end
      end
  end.

Definition replace (old new s : string) : string := replace_from old new 0 s.

(** [s.split(sep)] for a one-byte separator. *)
Fixpoint split (sep : ascii) (s : string) : list string :=
  match s with
  | EmptyString => [EmptyString]
  | String c s' =>
      if Ascii.eqb c sep then EmptyString :: split sep s'
      else
        match split sep s' with
        | x :: l => String c x :: l
        | [] => [String c EmptyString]
        end
  end.

(** [s.split('\n')] *)
Definition splitlines (s : string) : list string := split (ascii_of_nat 10) s.

End Py.


(* ===================================================================== *)
(** * The outside world                                                    *)
(* ===================================================================== *)

Module World.
Import Py.

(** ** Values exchanged with the libraries *)

(** A PIL image: mode, size and a symbolic description of its pixels. *)
Inductive pixels : Type :=
  | Solid (color : list Z)
  | Decoded (data : string)
  | Converted (mode : string) (p : pixels)
  | AlphaComposite (below above : pixels).

Record image : Type :=
  Image { img_mode : string; img_size : Z * Z; img_pixels : pixels }.

(** A photo record of the photo-search service. *)
Record photo : Type :=
  Photo { width : Z; height : Z; src : gmap string string }.

(** The JSON body of a search response; a key may be absent. *)
Record search_data : Type :=
  SearchData { total_results : option Z; photos : option (list photo) }.

(** A [requests] response: what [raise_for_status()] raises, what
    [json()] gives, the chunks [iter_content()] yields and the exception
    that ends the stream, if any. *)
Record response : Type :=
  Response {
    status_error : option exn;
    json : result search_data;
    body_chunks : list string;
    stream_error : option exn }.

(** The calls on an [FPDF] object; lengths are in millimetres. *)
Inductive pdf_op : Type :=
  | OpInit (format : string)
  | OpSetMargins (left top right : Q)
  | OpSetAutoPageBreak (auto : bool) (margin : Q)
  | OpAddFont (family style : string) (fname : option string) (uni : bool)
  | OpAddPage
  | OpSetFont (family style : string) (size : Q)
  | OpSetTextColor (r g b : Z)
  | OpSetX (x : Q)
  | OpSetY (y : Q)
  | OpCell (w h : Q) (txt : string) (border ln : Z) (align : string)
  | OpMultiCell (w h : Q) (txt : string) (border : Z) (align : string)
  | OpLn (h : Q)
  | OpImage (name : string) (x y w h : Q)
  | OpOutput (name : string).

(** ** The log of calls *)

Inductive event : Type :=
  | EvRequestsGet (url : string) (headers params : list (string * string))
      (timeout : option Z) (stream : bool)
  | EvSleep (seconds : Z)
  | EvLogError (msg : string)
  | EvLogWarning (msg : string)
  | EvStWarning (msg : string)
  | EvPrint (msg : string)
  | EvCompletion (model : string) (messages : list (string * string))
      (max_tokens : Z) (temperature : Q) (headers : list (string * string))
  | EvImageNew (mode : string) (size : Z * Z) (color : list Z)
  | EvMkdir (path : string)
  | EvUrlretrieve (url path : string)
  | EvNamedTemporaryFile (suffix : string)
  | EvImageSave (img : image) (path format : string)
  | EvUnlink (path : string)
  | EvPdf (obj : nat) (op : pdf_op).

(** ** The oracle

    What the world answers.  An answer may depend on the calls made so
    far, so that a service can fail once and succeed later. *)
Record env : Type :=
  Env {
    (** [os.getenv] *)
    getenv : string -> option string;
    (** [requests.get] / [Session.get]: url, headers, params *)
    requests_get :
      list event -> string -> list (string * string) ->
      list (string * string) -> result response;
    (** [PIL.Image.open(BytesIO(data))] *)
    image_open : string -> result image;
    (** [litellm.completion]: the [message.content] of each choice *)
    completion :
      list event -> list (string * string) -> result (list (option string));
    (** the raw output of the random generator, by draw number *)
    random_raw : nat -> nat;
    (** [str.lower] *)
    str_lower : string -> string;
    (** the directory [FONTS_DIR] *)
    fonts_dir : string;
    (** [Path.mkdir(exist_ok=True)] *)
    mkdir : list event -> string -> option exn;
    (** [Path.exists] *)
    path_exists : list event -> string -> bool;
    (** [urllib.request.urlretrieve] *)
    urlretrieve : list event -> string -> string -> option exn;
    (** [tempfile.NamedTemporaryFile(delete=False, suffix=...)]: its name *)
    mktemp : list event -> string -> result string;
    (** [Image.save] *)
    image_save : list event -> image -> string -> option exn;
    (** [os.unlink] *)
    unlink : list event -> string -> option exn;
    (** whether a call on FPDF object [obj] raises *)
    pdf_raises : list event -> nat -> pdf_op -> option exn;
    (** how many automatic page breaks FPDF makes while it lays out a
        cell *)
    overflows : list event -> nat -> pdf_op -> nat;
    (** [FPDF.get_string_width] *)
    string_width : list event -> nat -> string -> Q;
    (** [textwrap.wrap(text, width)] for [width > 0] *)
    wrap_lines : string -> Z -> list string }.

(** ** State *)

Record world : Type :=
  World { log : list event; draws : nat; objects : nat }.

Definition M (A : Type) : Type := world -> result A * world.

Definition ret {A} (a : A) : M A := fun w => (Ok a, w).

Definition raise {A} (e : exn) : M A := fun w => (Raise e, w).

Definition bind {A B} (m : M A) (k : A -> M B) : M B :=
  fun w =>
    match m w with
    | (Ok a, w') => k a w'
    | (Raise e, w') => (Raise e, w')
    end.

(** [try: body  except <matching>: handler]; [matches e] tells whether
    the [except] clause catches [e]. *)
Definition try_except {A} (body : M A) (matches : exn -> bool)
    (handler : exn -> M A) : M A :=
  fun w =>
    match body w with
    | (Ok a, w') => (Ok a, w')
    | (Raise e, w') => if matches e then handler e w' else (Raise e, w')
    end.

Definition lift {A} (r : result A) : M A := fun w => (r, w).

(** Record a call in the log. *)
Definition emit (ev : event) : M unit :=
  fun w => (Ok tt, World (log w ++ [ev]) (draws w) (objects w)).

(** Record a call whose outcome the oracle decides from the log so far. *)
Definition call {A} (ev : event) (answer : list event -> result A) : M A :=
  fun w => (answer (log w), World (log w ++ [ev]) (draws w) (objects w)).

(** Record a call that returns nothing but may raise. *)
Definition call_ (ev : event) (fails : list event -> option exn) : M unit :=
  call ev (fun h => match fails h with Some e => Raise e | None => Ok tt end).

(** Ask the oracle something that leaves no trace. *)
Definition query {A} (answer : list event -> A) : M A :=
  fun w => (Ok (answer (log w)), w).

(** Take [n] raw random numbers. *)
Definition random_draws (E : env) (n : nat) : M (nat -> nat) :=
  fun w =>
    (Ok (fun i => random_raw E (draws w + i)%nat),
     World (log w) (draws w + n)%nat (objects w)).

(** Allocate an object identity. *)
Definition new_object : M nat :=
  fun w => (Ok (objects w), World (log w) (draws w) (S (objects w))).

Definition world0 : world := World [] 0%nat 0%nat.

End World.

Declare Scope py_scope.
Delimit Scope py_scope with py.
Notation "x <- m ;; k" := (World.bind m (fun x => k))
  (at level 100, m at next level, right associativity) : py_scope.
Notation "m ;; k" := (World.bind m (fun _ => k))
  (at level 100, right associativity) : py_scope.

(* ===================================================================== *)
(** * tools.py                                                             *)
(* ===================================================================== *)

Module Tools.
Import Py World.

Definition themes : gmap string (gmap string string) :=
  list_to_map
    [ ("Classic",
        list_to_map
          [ ("font_family", "'Playfair Display', serif");
            ("color", "#1a1a1a");
            ("background", "#ffffff") ]);
      ("Modern",
        list_to_map
          [ ("font_family", "'Roboto', sans-serif");
            ("color", "#333333");
            ("background", "#f5f5f5") ]);
      ("Elegant",
        list_to_map
          [ ("font_family", "'Cormorant Garamond', serif");
            ("color", "#2c3e50");
            ("background", "#ecf0f1") ]) ].

(** [style_card(theme)]: [themes.get(theme, themes["Classic"])] *)
Definition style_card (theme : string) : gmap string string :=
  default (themes !!! "Classic") (themes !! theme).

Definition get_available_themes : list string :=
  ["Classic"; "Modern"; "Elegant"].

Definition heading_fonts : list string :=
  ["Playfair Display"; "Cormorant Garamond"; "Lora"; "Merriweather"].

Definition body_fonts : list string :=
  ["Source Sans Pro"; "Open Sans"; "Roboto"; "Lato"].

(** [get_random_font_combination()]: the heading font is chosen first. *)
Definition get_random_font_combination (E : env) : M (string * string) :=
  bind (random_draws E 1) (fun rnd =>
  bind (lift (choice (rnd 0%nat) heading_fonts)) (fun heading =>
  bind (random_draws E 1) (fun rnd =>
  bind (lift (choice (rnd 0%nat) body_fonts)) (fun body =>
  ret (heading, body))))).

End Tools.

(* ===================================================================== *)
(** * agents.py                                                            *)
(* ===================================================================== *)

Module Agents.
Import Py World.
Local Open Scope py_scope.

Definition DEFAULT_MESSAGE : string :=
  join nl
    [ "";
      "May this Eid bring you joy, peace, and prosperity! 🌙✨";
      "Wishing you and your family a blessed celebration filled with love, laughter, and cherished moments together.";
      "May Allah accept our prayers and grant us His infinite mercy. ";
      "عید مبارک";
      "" ].

Definition EMOJI_SETS : gmap string (list string) :=
  list_to_map
    [ ("funny",
        ["😄"; "🎉"; "🎊"; "🥳"; "😊"; "😃"; "🤗"; "🌟"; "✨"; "💫"]);
      ("emotional",
        ["❤️"; "🤗"; "💝"; "💖"; "🌟"; "💕"; "💗"; "✨"; "💫"; "💓"]);
      ("religious",
        ["🕌"; "☪️"; "🌙"; "✨"; "🤲"; "📿"; "🌟"; "💫"; "🌺"; "🌸"]);
      ("formal",
        ["🌺"; "🎀"; "✨"; "💫"; "🌸"; "🌹"; "🌷"; "🎗️"; "🌟"; "💐"]) ].

(** The preferences dictionary; [None] is an absent key. *)
Record preferences : Type :=
  Preferences {
    pref_include_hadith : option bool;
    pref_include_urdu : option bool;
    pref_include_emojis : option bool;
    pref_emoji_count : option Z;
    pref_sender : option string }.

Record EidAgent : Type :=
  { api_key : string; model : string }.

(** [EidAgent.__init__]; the assignment to [litellm.api_key], which
    configures the library, leaves no trace here. *)
Definition EidAgent_init (key : string) : EidAgent :=
  {| api_key := key; model := "openrouter/mistral-7b-instruct" |}.

Definition system_content : string :=
  join nl
    [ "You are an expert at crafting personalized Eid greetings. ";
      "                    Your task is to generate warm, culturally appropriate Eid messages.";
      "                    Always include warm wishes, blessings, and maintain the specified tone.";
      "                    Make messages personal and heartfelt." ].

Definition completion_headers : list (string * string) :=
  [ ("HTTP-Referer", "https://localhost:8501");
    ("X-Title", "EidiCard Generator") ].

Definition greeting_prompt (recipient tone : string)
    (include_hadith include_urdu : bool) (sender : string) : string :=
  join nl
    [ "";
      "        Generate a heartfelt Eid greeting message for " +:+ recipient +:+ ".";
      "        ";
      "        Requirements:";
      "        - Tone should be: " +:+ tone;
      "        - Include Hadith: " +:+ str_of_bool include_hadith;
      "        - Include Urdu: " +:+ str_of_bool include_urdu;
      "        - Sender name: "
        +:+ (if truthy (Some sender) then sender else "Not specified");
      "        ";
      "        Guidelines:";
      "        - Make it personal and warm";
      "        - Keep it appropriate for the specified tone";
      "        - If including Hadith, use a relevant one about Eid, celebration, or giving";
      "        - If including Urdu, add 'Eid Mubarak' in Urdu script (عید مبارک)";
      "        - Length should be 2-3 paragraphs";
      "        - Add appropriate line breaks for readability";
      "        - Do not include any emojis in the response";
      "        " ].

Definition theme_prompt (tone message : string) : string :=
  join nl
    [ "";
      "        Based on the following message tone and content, suggest the most appropriate theme";
      "        from these options: classic, modern, elegant";
      "        ";
      "        Tone: " +:+ tone;
      "        Message: " +:+ message;
      "        ";
      "        Reply with just the theme name in lowercase.";
      "        " ].

Section WithEnv.
Variable E : env.

(** [EidAgent._get_completion] *)
Definition _get_completion (self : EidAgent) (prompt : string) : M string :=
  try_except
    (let messages := [("system", system_content); ("user", prompt)] in
     choices <-
       call (EvCompletion (model self) messages 500 (7 # 10)
               completion_headers)
            (fun h => completion E h messages) ;;
     match choices with
     | [] => raise (Exn IndexError "list index out of range")
     | None :: _ =>
         raise (Exn AttributeError
                  "'NoneType' object has no attribute 'strip'")
     | Some content :: _ => ret (strip content)
     end)
    (fun _ => true)
    (fun e =>
       emit (EvLogError ("Error getting completion: " +:+ exn_str e)) ;;
       ret DEFAULT_MESSAGE).

(** [EidAgent.generate_greeting] *)
Definition generate_greeting (self : EidAgent) (recipient tone : string)
    (include_hadith include_urdu : bool) (emoji_count : Z)
    (sender : string) : M string :=
  let prompt :=
    greeting_prompt recipient tone include_hadith include_urdu sender in
  response <- _get_completion self prompt ;;
  if 0 <? emoji_count then
    match EMOJI_SETS !! tone with
    | Some set =>
        let k := Z.min emoji_count (Z.of_nat (length set)) in
        rnd <- random_draws E (Z.to_nat k) ;;
        emojis <- lift (sample rnd set k) ;;
        let emoji_str := join " " emojis in
        ret (emoji_str +:+ nl +:+ response +:+ nl +:+ emoji_str)
    | None => ret response
    end
  else ret response.

(** [EidAgent.suggest_theme] *)
Definition suggest_theme (self : EidAgent) (tone message : string)
    : M string :=
  let prompt := theme_prompt tone message in
  completion_text <- _get_completion self prompt ;;
  let theme := str_lower E (strip completion_text) in
  ret (if bool_decide (theme ∈ ["classic"; "modern"; "elegant"])
       then theme else "classic").

(** [MessageCraftAgent.craft_message] *)
Definition craft_message (eid_agent : EidAgent) (recipient tone : string)
    (prefs : preferences) : M string :=
  generate_greeting eid_agent recipient tone
    (default false (pref_include_hadith prefs))
    (default false (pref_include_urdu prefs))
    (if default true (pref_include_emojis prefs)
     then default 2 (pref_emoji_count prefs) else 0)
    (default "" (pref_sender prefs)).

(** [StyleAgent.get_theme] *)
Definition get_theme (eid_agent : EidAgent) (tone message : string)
    : M string :=
  suggest_theme eid_agent tone message.

(** [generate_eid_message] *)
Definition generate_eid_message (recipient tone sender : string)
    (include_hadith include_urdu include_emojis : bool) : M string :=
  let key := getenv E "OPENROUTER_API_KEY" in
  if negb (truthy key) then ret DEFAULT_MESSAGE
  else
    let eid_agent := EidAgent_init (default "" key) in
    let prefs :=
      {| pref_include_hadith := Some include_hadith;
         pref_include_urdu := Some include_urdu;
         pref_include_emojis := Some include_emojis;
         pref_emoji_count := Some (if include_emojis then 2 else 0);
         pref_sender := Some sender |} in
    craft_message eid_agent recipient tone prefs.

Definition enhance_prompt (message tone : string) : string :=
  join nl
    [ "";
      "        Enhance this Eid greeting message with appropriate emojis and formatting.";
      "        Keep the tone " +:+ tone +:+ ".";
      "        Add emojis tastefully without overwhelming the message.";
      "        ";
      "        Message: " +:+ message;
      "        ";
      "        Return the enhanced message with emojis placed naturally.";
      "        " ].

(** [EidAgent.enhance_message] *)
Definition enhance_message (self : EidAgent) (message tone : string)
    : M string :=
  let prompt := enhance_prompt message tone in
  enhanced <- _get_completion self prompt ;;
  ret (if negb (String.eqb enhanced DEFAULT_MESSAGE) then enhanced
       else message).

End WithEnv.

End Agents.

(* ===================================================================== *)
(** * utils/image_utils.py                                                 *)
(* ===================================================================== *)

Module ImageUtils.
Import Py World.
Local Open Scope py_scope.

Definition BACKGROUND_CATEGORIES : list string :=
  [ "Eid Moon & Stars"; "Mosque Architecture"; "Islamic Patterns";
    "Eid Celebration"; "Lanterns & Lights"; "Calligraphy Art";
    "Geometric Patterns"; "Nature & Flowers" ].

Definition SEARCH_TERMS : gmap string (list string) :=
  list_to_map
    [ ("Eid Moon & Stars",
        ["crescent moon night"; "eid moon"; "ramadan moon stars"; "night sky mosque"]);
      ("Mosque Architecture",
        ["grand mosque"; "islamic architecture"; "beautiful mosque"; "mosque interior"]);
      ("Islamic Patterns",
        ["islamic pattern"; "arabic pattern"; "islamic geometric"; "islamic art"]);
      ("Eid Celebration",
        ["eid celebration"; "eid decoration"; "eid festival"; "eid lights"]);
      ("Lanterns & Lights",
        ["ramadan lanterns"; "islamic lanterns"; "moroccan lamps"; "oriental lights"]);
      ("Calligraphy Art",
        ["islamic calligraphy"; "arabic calligraphy"; "islamic art"; "arabic script art"]);
      ("Geometric Patterns",
        ["geometric pattern"; "moroccan pattern"; "islamic geometry"; "arabesque pattern"]);
      ("Nature & Flowers",
        ["islamic garden"; "arabic floral"; "islamic floral"; "moroccan garden"]) ].

Definition search_url : string := "https://api.pexels.com/v1/search".

(** The [params] dictionary of a request for [search_term]. *)
Definition search_params (search_term : string) : list (string * string) :=
  [ ("query", search_term); ("orientation", "landscape"); ("size", "large");
    ("per_page", "20"); ("min_width", "1200"); ("min_height", "800") ].

Definition fallback_categories : list string :=
  ["Islamic Patterns"; "Geometric Patterns"; "Nature & Flowers"].

(** [chosen_photo["src"]["large2x"]] *)
Definition large2x (p : photo) : result string :=
  match src p !! "large2x" with
  | Some url => Ok url
  | None => Raise (Exn KeyError "'large2x'")
  end.

(** The filter of the primary search. *)
Definition quality (p : photo) : Prop := 1200 <= width p /\ 800 <= height p.

#[global] Instance quality_dec p : Decision (quality p).
Proof. unfold quality. apply _. Defined.

Section WithEnv.
Variable E : env.

(** [requests.get(...)], [response.raise_for_status()],
    [response.json()] *)
Definition search (headers : list (string * string))
    (search_term : string) : M search_data :=
  let params := search_params search_term in
  response <-
    call (EvRequestsGet search_url headers params None false)
         (fun h => requests_get E h search_url headers params) ;;
  match status_error response with
  | Some e => raise e
  | None => lift (json response)
  end.

(** [random.choice(l)["src"]["large2x"]] *)
Definition choose_url (l : list photo) : M string :=
  rnd <- random_draws E 1 ;;
  chosen_photo <- lift (choice (rnd 0%nat) l) ;;
  lift (large2x chosen_photo).

(** The loop over the search terms of the category; [Some url] is a
    [return url] from inside the loop, [None] its normal end. *)
Fixpoint primary_loop (headers : list (string * string))
    (search_terms : list string) : M (option string) :=
  match search_terms with
  | [] => ret None
  | search_term :: rest =>
      data <- search headers search_term ;;
      if 0 <? default 0 (total_results data) then
        match default [] (photos data) with
        | [] => primary_loop headers rest
        | ps =>
            match filter quality ps with
            | [] => primary_loop headers rest
            | quality_photos =>
                url <- choose_url quality_photos ;; ret (Some url)
            end
        end
      else primary_loop headers rest
  end.

(** The inner loop of the fallback search, over the terms of one
    fallback category. *)
Fixpoint fallback_terms_loop (headers : list (string * string))
    (search_terms : list string) : M (option string) :=
  match search_terms with
  | [] => ret None
  | search_term :: rest =>
      data <- search headers search_term ;;
      if 0 <? default 0 (total_results data) then
        match default [] (photos data) with
        | [] => fallback_terms_loop headers rest
        | ps => url <- choose_url ps ;; ret (Some url)
        end
      else fallback_terms_loop headers rest
  end.

(** The outer loop of the fallback search. *)
Fixpoint fallback_loop (headers : list (string * string))
    (categories : list string) : M (option string) :=
  match categories with
  | [] => ret None
  | category :: rest =>
      match SEARCH_TERMS !! category with
      | None => raise (Exn KeyError category)
      | Some search_terms =>
          found <- fallback_terms_loop headers search_terms ;;
          match found with
          | Some url => ret (Some url)
          | None => fallback_loop headers rest
          end
      end
  end.

(** The body of the [try] of [get_pexels_image]. *)
Definition get_pexels_image_body (category : string) : M (option string) :=
  let key := getenv E "PEXELS_API_KEY" in
  if negb (truthy key) then
    emit (EvLogError "PEXELS_API_KEY not found in environment variables") ;;
    ret None
  else
    let headers := [("Authorization", default "" key)] in
    let search_terms :=
      default (SEARCH_TERMS !!! "Islamic Patterns")
              (SEARCH_TERMS !! category) in
    found <- primary_loop headers search_terms ;;
    match found with
    | Some url => ret (Some url)
    | None =>
        found <- fallback_loop headers fallback_categories ;;
        match found with
        | Some url => ret (Some url)
        | None =>
            emit (EvLogWarning
                    "No images found on Pexels for any search terms") ;;
            ret None
        end
    end.

(** [get_pexels_image(category)] *)
Definition get_pexels_image (category : string) : M (option string) :=
  try_except (get_pexels_image_body category)
    (fun _ => true)
    (fun e =>
       emit (EvLogError
               ("Error fetching image from Pexels: " +:+ exn_str e)) ;;
       ret None).

End WithEnv.

End ImageUtils.

(* ===================================================================== *)
(** * utils/__init__.py                                                    *)
(* ===================================================================== *)

Module Utils.
Import Py World.
Local Open Scope py_scope.

Definition BACKGROUND_CATEGORIES : list string :=
  [ "islamic architecture"; "mosque"; "islamic patterns"; "ramadan";
    "eid celebration"; "lanterns"; "crescent moon"; "islamic art" ].

Definition base_url : string := "https://api.pexels.com/v1/search".

Definition search_params (query : string) : list (string * string) :=
  [ ("query", query); ("per_page", "20"); ("orientation", "landscape") ].

(** [range(n)] *)
Definition range (n : Z) : list Z := map Z.of_nat (seq 0 (Z.to_nat n)).

Section WithEnv.
Variable E : env.

(** The body of the [try] inside the retry loop; [Some url] and [None]
    are the two [return] statements. *)
Definition request_once (headers : list (string * string))
    (query : string) : M (option string) :=
  let params := search_params query in
  response <-
    call (EvRequestsGet base_url headers params None false)
         (fun h => requests_get E h base_url headers params) ;;
  match status_error response with
  | Some e => raise e
  | None =>
      data <- lift (json response) ;;
      match default [] (photos data) with
      | [] => ret None
      | ps =>
          rnd <- random_draws E 1 ;;
          photo <- lift (choice (rnd 0%nat) ps) ;;
          url <- lift (ImageUtils.large2x photo) ;;
          ret (Some url)
      end
  end.

(** [for attempt in range(max_retries): ...] followed by the final
    [return None]. *)
Fixpoint retry_loop (max_retries : Z) (headers : list (string * string))
    (query : string) (attempts : list Z) : M (option string) :=
  match attempts with
  | [] => ret None
  | attempt :: rest =>
      try_except (request_once headers query)
        is_RequestException
        (fun e =>
           if attempt =? max_retries - 1 then raise e
           else
             emit (EvSleep 1) ;;
             retry_loop max_retries headers query rest)
  end.

(** [get_pexels_image(query, api_key=None, max_retries=3)] *)
Definition get_pexels_image (query : string) (api_key : option string)
    (max_retries : Z) : M (option string) :=
  let api_key := or_else api_key (getenv E "PEXELS_API_KEY") in
  if negb (truthy api_key) then
    raise (Exn ValueError
             "Pexels API key not found. Please set PEXELS_API_KEY in your .env file")
  else
    let headers := [("Authorization", default "" api_key)] in
    retry_loop max_retries headers query (range max_retries).

(** The call of [main.py]: [get_pexels_image(category)]. *)
Definition get_pexels_image_default (query : string) : M (option string) :=
  get_pexels_image query None 3.

End WithEnv.

End Utils.

(* ===================================================================== *)
(** * utils/pdf_generator.py                                               *)
(* ===================================================================== *)

Module PdfGenerator.
Import Py World.
Local Open Scope py_scope.

Definition qz (z : Z) : Q := inject_Z z.

(** [int(x)] for a number [x]: truncation towards zero. *)
Definition trunc (x : Q) : Z :=
  if Qle_bool (qz 0) x then Qfloor x else Qceiling x.

(** [font_urls]; the styles of a font are iterated in this order. *)
Definition font_urls : list (string * list (string * string)) :=
  [ ("roboto",
      [ ("", "https://github.com/googlefonts/roboto/raw/main/src/hinted/Roboto-Regular.ttf");
        ("B", "https://github.com/googlefonts/roboto/raw/main/src/hinted/Roboto-Bold.ttf");
        ("I", "https://github.com/googlefonts/roboto/raw/main/src/hinted/Roboto-Italic.ttf") ]) ].

Fixpoint assoc {A} (k : string) (l : list (string * A)) : option A :=
  match l with
  | [] => None
  | (k', v) :: l' => if String.eqb k k' then Some v else assoc k l'
  end.

(** [dir / name] on paths. *)
Definition path_join (dir name : string) : string := dir +:+ "/" +:+ name.

Definition emoji_pattern (ch : string) : bool :=
  let c := ord ch in
  in_range 128512 128591 c      (* U+1F600 - U+1F64F *)
  || in_range 127744 128511 c   (* U+1F300 - U+1F5FF *)
  || in_range 128640 128767 c   (* U+1F680 - U+1F6FF *)
  || in_range 127456 127487 c   (* U+1F1E0 - U+1F1FF *)
  || in_range 9986 10160 c      (* U+2702 - U+27B0 *)
  || in_range 9410 127569 c.    (* U+24C2 - U+1F251 *)

(** [remove_emojis(text)]: every run of characters of the pattern is
    replaced by the empty string. *)
Definition remove_emojis (text : string) : string :=
  concat_strs (List.filter (fun ch => negb (emoji_pattern ch)) (chars text)).

(** [(int(c[1:3], 16), int(c[3:5], 16), int(c[5:7], 16))] *)
Definition hex_rgb (c : string) : result (Z * Z * Z) :=
  rbind (int16 (slice 1 3 c)) (fun r =>
  rbind (int16 (slice 3 5 c)) (fun g =>
  rbind (int16 (slice 5 7 c)) (fun b =>
  Ok (r, g, b)))).

(** The arguments of [set_text_color] in [EidCard.header]. *)
Definition title_color_rgb (theme : gmap string string) : result (Z * Z * Z) :=
  hex_rgb (default "#4a4a4a" (theme !! "title_color")).

(** The arguments of [set_text_color] in [create_pdf]. *)
Definition text_color_rgb (theme : gmap string string) : result (Z * Z * Z) :=
  hex_rgb (default "#000000" (theme !! "text_color")).

(** FPDF's width of an A4 page in millimetres, [595.28 / (72 / 25.4)]. *)
Definition page_w : Q := ((59528 # 100) / ((72 # 1) / (254 # 10)))%Q.

Record EidCard : Type :=
  { obj : nat; theme_of : gmap string string; default_font : string }.

Definition fallback_text : string :=
  "May this Eid bring you joy and happiness." +:+ nl
    +:+ "Best wishes to you and your family.".

Section WithEnv.
Variable E : env.

(** [download_font(style)] inside [get_font_path] *)
Definition download_font (font_dir font_base : string)
    (styles : list (string * string)) (style : string) : M string :=
  let font_path := path_join font_dir (font_base +:+ style +:+ ".ttf") in
  present <- query (fun h => path_exists E h font_path) ;;
  if negb present then
    match assoc style styles with
    | None => raise (Exn KeyError style)
    | Some url =>
        try_except
          (call_ (EvUrlretrieve url font_path)
                 (fun h => urlretrieve E h url font_path) ;;
           ret font_path)
          (fun _ => true)
          (fun e =>
             emit (EvPrint ("Error downloading font: " +:+ exn_str e)) ;;
             ret "")
    end
  else ret font_path.

Fixpoint download_all (font_dir font_base : string)
    (styles : list (string * string)) (todo : list (string * string))
    : M unit :=
  match todo with
  | [] => ret tt
  | (style, _) :: rest =>
      download_font font_dir font_base styles style ;;
      download_all font_dir font_base styles rest
  end.

(** [get_font_path(font_name)] *)
Definition get_font_path (font_name : string) : M string :=
  let font_base := str_lower E font_name in
  match assoc font_base font_urls with
  | None => ret ""
  | Some styles =>
      let font_dir := path_join (fonts_dir E) font_base in
      call_ (EvMkdir font_dir) (fun h => mkdir E h font_dir) ;;
      download_all font_dir font_base styles styles ;;
      ret (path_join font_dir (font_base +:+ ".ttf"))
  end.

Definition pdf_call (pdf : nat) (op : pdf_op) : M unit :=
  call_ (EvPdf pdf op) (fun h => pdf_raises E h pdf op).

Definition get_string_width (pdf : nat) (s : string) : M Q :=
  query (fun h => string_width E h pdf s).

(** [EidCard.__init__] *)
Definition EidCard_init (theme : gmap string string) : M EidCard :=
  pdf <- new_object ;;
  pdf_call pdf (OpInit "A4") ;;
  pdf_call pdf (OpSetMargins (qz 20) (qz 20) (qz 20)) ;;
  pdf_call pdf (OpSetAutoPageBreak true (qz 20)) ;;
  font_path <- get_font_path "roboto" ;;
  if truthy (Some font_path) then
    pdf_call pdf (OpAddFont "Roboto" "" (Some font_path) true) ;;
    pdf_call pdf
      (OpAddFont "Roboto" "B"
         (Some (path_join (path_join (fonts_dir E) "roboto") "robotoB.ttf"))
         true) ;;
    pdf_call pdf
      (OpAddFont "Roboto" "I"
         (Some (path_join (path_join (fonts_dir E) "roboto") "robotoI.ttf"))
         true) ;;
    ret {| obj := pdf; theme_of := theme; default_font := "Roboto" |}
  else
    pdf_call pdf (OpAddFont "Helvetica" "" None true) ;;
    ret {| obj := pdf; theme_of := theme; default_font := "Helvetica" |}.

(** [EidCard.header] *)
Definition header (self : EidCard) : M unit :=
  pdf_call (obj self) (OpSetFont (default_font self) "B" (qz 24)) ;;
  rgb <- lift (title_color_rgb (theme_of self)) ;;
  pdf_call (obj self) (OpSetTextColor rgb.1.1 rgb.1.2 rgb.2) ;;
  let title := "Eid Mubarak" in
  title_w <- get_string_width (obj self) title ;;
  pdf_call (obj self) (OpSetX ((qz 210 - title_w) / qz 2)%Q) ;;
  pdf_call (obj self) (OpCell title_w (qz 20) title 0 1 "C") ;;
  pdf_call (obj self) (OpLn (qz 10)).

(** [EidCard.footer] *)
Definition footer (self : EidCard) : M unit :=
  pdf_call (obj self) (OpSetY (qz (-15))) ;;
  pdf_call (obj self) (OpSetFont (default_font self) "I" (qz 8)) ;;
  pdf_call (obj self) (OpSetTextColor 128 128 128) ;;
  pdf_call (obj self)
    (OpCell (qz 0) (qz 10) "Created with EidiCard Generator" 0 0 "C").

(** [pdf.add_page()] on a document without pages: FPDF starts the page
    and calls [header()]. *)
Definition add_page (self : EidCard) : M unit :=
  pdf_call (obj self) OpAddPage ;;
  header self.

(** [pdf.output(name)]: FPDF closes the document, which calls
    [footer()] on the last page, and writes the file. *)
Definition output (self : EidCard) (name : string) : M unit :=
  footer self ;;
  pdf_call (obj self) (OpOutput name).

(** [n] automatic page breaks: FPDF ends the page, which calls
    [footer()], and starts the next one, which calls [header()]. *)
Fixpoint page_breaks (self : EidCard) (n : nat) : M unit :=
  match n with
  | O => ret tt
  | S n' => footer self ;; header self ;; page_breaks self n'
  end.

(** [pdf.cell(...)] or [pdf.multi_cell(...)] in the body of a page:
    while FPDF lays the text out it breaks the page as often as the
    text overflows. *)
Definition lay_out (self : EidCard) (op : pdf_op) : M unit :=
  pdf_call (obj self) op ;;
  n <- query (fun h => overflows E h (obj self) op) ;;
  page_breaks self n.

(** [for line in lines: pdf.multi_cell(...); pdf.ln(2)] *)
Fixpoint write_lines (pdf : EidCard) (effective_width : Q)
    (lines : list string) : M unit :=
  match lines with
  | [] => ret tt
  | line :: rest =>
      lay_out pdf (OpMultiCell effective_width (qz 8) line 0 "L") ;;
      pdf_call (obj pdf) (OpLn (qz 2)) ;;
      write_lines pdf effective_width rest
  end.

(** [textwrap.wrap(text, width=width)]; the message of the [ValueError]
    shows [repr(width)]. *)
Definition textwrap_wrap (text : string) (width : Z) : M (list string) :=
  if width <=? 0 then
    raise (Exn ValueError
             ("invalid width " +:+ NilZero.string_of_int (Z.to_int width)
                +:+ " (must be > 0)"))
  else ret (wrap_lines E text width).

(** The handler of the [except Exception] of [create_pdf]. *)
Definition simpler_version (theme : gmap string string)
    (output_path : string) : M unit :=
  pdf <- EidCard_init theme ;;
  add_page pdf ;;
  pdf_call (obj pdf) (OpSetFont (default_font pdf) "B" (qz 24)) ;;
  lay_out pdf (OpCell (qz 0) (qz 20) "Eid Mubarak" 0 1 "C") ;;
  pdf_call (obj pdf) (OpLn (qz 10)) ;;
  pdf_call (obj pdf) (OpSetFont (default_font pdf) "" (qz 12)) ;;
  lay_out pdf (OpMultiCell (qz 0) (qz 10) fallback_text 0 "J") ;;
  output pdf output_path.

(** The statements of [create_pdf] before the [try]; they return the
    document and the output path. *)
Definition create_pdf_document (message recipient : string)
    (theme : gmap string string) (output_path : option string)
    : M (EidCard * string) :=
  pdf <- EidCard_init theme ;;
  add_page pdf ;;
  rgb <- lift (text_color_rgb theme) ;;
  pdf_call (obj pdf) (OpSetTextColor rgb.1.1 rgb.1.2 rgb.2) ;;
  let clean_message := remove_emojis message in
  let clean_recipient := remove_emojis recipient in
  pdf_call (obj pdf) (OpSetFont (default_font pdf) "B" (qz 16)) ;;
  let recipient_text := "Dear " +:+ clean_recipient +:+ "," in
  recipient_w <- get_string_width (obj pdf) recipient_text ;;
  lay_out pdf (OpCell recipient_w (qz 10) recipient_text 0 1 "L") ;;
  pdf_call (obj pdf) (OpLn (qz 10)) ;;
  pdf_call (obj pdf) (OpSetFont (default_font pdf) "" (qz 12)) ;;
  let effective_width := (page_w - qz 20 - qz 20)%Q in
  x_w <- get_string_width (obj pdf) "x" ;;
  let divisor := (x_w * (11 # 10))%Q in
  chars_per_line <-
    (if Qeq_bool divisor (qz 0) then
       raise (Exn ZeroDivisionError "float division by zero")
     else ret (trunc (effective_width / divisor)%Q)) ;;
  lines <- textwrap_wrap clean_message chars_per_line ;;
  write_lines pdf effective_width lines ;;
  output_path <-
    (if negb (truthy output_path) then
       call (EvNamedTemporaryFile ".pdf") (fun h => mktemp E h ".pdf")
     else ret (default "" output_path)) ;;
  ret (pdf, output_path).

(** [create_pdf(message, recipient, theme, output_path=None)] *)
Definition create_pdf (message recipient : string)
    (theme : gmap string string) (output_path : option string)
    : M string :=
  doc <- create_pdf_document message recipient theme output_path ;;
  let '(pdf, output_path) := doc in
  try_except (output pdf output_path)
    (fun _ => true)
    (fun e => simpler_version theme output_path) ;;
  ret output_path.

End WithEnv.

(** [create_preview(message, recipient, theme)] *)
Definition create_preview (message recipient : string)
    (theme : gmap string string) : string :=
  let message_html := replace1 (ascii_of_nat 10) "<br>" message in
  join nl
      [ "";
        concat_strs ["    <link href="; dq; "https://fonts.googleapis.com/css2?family=Roboto:wght@400;700&display=swap"; dq; " rel="; dq; "stylesheet"; dq; ">"];
        concat_strs ["    <div style="; dq];
        "        max-width: 600px;";
        "        margin: 20px auto;";
        "        padding: 20px;";
        "        border-radius: 10px;";
        concat_strs ["        background-color: "; default "#ffffff" (theme !! "bg_color"); ";"];
        concat_strs ["        color: "; default "#000000" (theme !! "text_color"); ";"];
        "        font-family: 'Roboto', sans-serif;";
        "        box-shadow: 0 4px 6px rgba(0, 0, 0, 0.1);";
        concat_strs ["    "; dq; ">"];
        concat_strs ["        <h1 style="; dq];
        "            text-align: center;";
        concat_strs ["            color: "; default "#4a4a4a" (theme !! "title_color"); ";"];
        "            font-family: 'Roboto', sans-serif;";
        "            font-weight: 700;";
        concat_strs ["        "; dq; ">"];
        "            Eid Mubarak";
        "        </h1>";
        concat_strs ["        <h2 style="; dq];
        "            margin-top: 20px;";
        "            font-family: 'Roboto', sans-serif;";
        "            font-weight: 700;";
        concat_strs ["        "; dq; ">Dear "; recipient; ",</h2>"];
        concat_strs ["        <div style="; dq];
        "            white-space: pre-wrap;";
        "            line-height: 1.6;";
        "            margin-top: 20px;";
        "            font-family: 'Roboto', sans-serif;";
        "            font-weight: 400;";
        concat_strs ["        "; dq; ">"];
        concat_strs ["            "; message_html];
        "        </div>";
        "    </div>";
        "    " ].

End PdfGenerator.

(* ===================================================================== *)
(** * utils/font_utils.py                                                  *)
(* ===================================================================== *)

Module FontUtils.
Import Py World.
Local Open Scope py_scope.

(** The dictionary [FONT_COMBINATIONS], in the order of its entries. *)
Definition FONT_COMBINATIONS : list (string * gmap string string) :=
  [ ("Classic",
      list_to_map
        [ ("title", "Playfair Display");
          ("body", "Source Sans Pro");
          ("url", "https://fonts.googleapis.com/css2?family=Playfair+Display:wght@400;700&family=Source+Sans+Pro:wght@400;600&display=swap") ]);
    ("Modern",
      list_to_map
        [ ("title", "Roboto");
          ("body", "Open Sans");
          ("url", "https://fonts.googleapis.com/css2?family=Roboto:wght@400;700&family=Open+Sans:wght@400;600&display=swap") ]);
    ("Elegant",
      list_to_map
        [ ("title", "Cormorant Garamond");
          ("body", "Lato");
          ("url", "https://fonts.googleapis.com/css2?family=Cormorant+Garamond:wght@400;700&family=Lato:wght@400;700&display=swap") ]) ].

Definition ADDITIONAL_COMBINATIONS : list (gmap string string) :=
  [ list_to_map
      [ ("title", "Merriweather");
        ("body", "Roboto");
        ("url", "https://fonts.googleapis.com/css2?family=Merriweather:wght@400;700&family=Roboto:wght@400;500&display=swap") ];
    list_to_map
      [ ("title", "Lora");
        ("body", "Open Sans");
        ("url", "https://fonts.googleapis.com/css2?family=Lora:wght@400;700&family=Open+Sans:wght@400;600&display=swap") ] ].

(** [list(FONT_COMBINATIONS.values()) + ADDITIONAL_COMBINATIONS] *)
Definition all_combinations : list (gmap string string) :=
  FONT_COMBINATIONS.*2 ++ ADDITIONAL_COMBINATIONS.

(** [download_google_fonts(theme=None)] *)
Definition download_google_fonts (E : env) (theme : option string)
    : M (gmap string string) :=
  let known :=
    if truthy theme
    then PdfGenerator.assoc (default "" theme) FONT_COMBINATIONS
    else None in
  match known with
  | Some fonts => ret fonts
  | None =>
      rnd <- random_draws E 1 ;;
      lift (choice (rnd 0%nat) all_combinations)
  end.

(** [get_available_fonts()] *)
Definition get_available_fonts : list (gmap string string) :=
  all_combinations.

End FontUtils.

(* ===================================================================== *)
(** * main.py                                                              *)
(* ===================================================================== *)

Module Main.
Import Py World.
Local Open Scope py_scope.

(** The card dictionary built by [create_card]. *)
Record card : Type :=
  Card {
    recipient : string;
    sender : string;
    message : string;
    background_url : string;
    style : gmap string string;
    fonts : gmap string string }.

Definition max_retries : Z := 3.
Definition retry_delay : Z := 1.

(** How one iteration of the retry loop ends: [break] with the image, or
    on to the next iteration with the current binding of [bg_image]. *)
Inductive loop_exit : Type :=
  | Break (bg_image : image)
  | Next (bg_image : option image).

(** [Image.new(mode, size, color)] *)
Definition Image_new (mode : string) (size : Z * Z) (color : list Z)
    : M image :=
  emit (EvImageNew mode size color) ;;
  ret (Image mode size (Solid color)).

(** [img.convert(mode)] *)
Definition convert (img : image) (mode : string) : image :=
  Image mode (img_size img) (Converted mode (img_pixels img)).

(** [Image.alpha_composite(im1, im2)] *)
Definition alpha_composite (im1 im2 : image) : image :=
  Image (img_mode im1) (img_size im1)
    (AlphaComposite (img_pixels im1) (img_pixels im2)).

Definition solid_background : image :=
  Image "RGB" (2100, 2970) (Solid [255; 255; 255]).

Definition warning_text (e : exn) : string :=
  "Could not load background image. Using solid background instead. Error: "
    +:+ exn_str e.

(** The exceptions of [except (requests.exceptions.RequestException,
    IOError)]. *)
Definition caught (e : exn) : bool := is_RequestException e || is_IOError e.

Section WithEnv.
Variable E : env.

Definition download_headers : list (string * string) :=
  [("User-Agent", "Mozilla/5.0")].

(** The body of the [try]: the request, [raise_for_status()], the
    chunks of [iter_content()] and [Image.open].  One call of
    [session.get] is one request; what the mounted transport adapter
    retries inside that call is the library's business. *)
Definition download (c : card) : M image :=
  response <-
    call (EvRequestsGet (background_url c) download_headers []
            (Some 30) true)
         (fun h =>
            requests_get E h (background_url c) download_headers []) ;;
  match status_error response with
  | Some e => raise e
  | None =>
      let chunks :=
        List.filter (fun chunk => negb (String.eqb chunk ""))
                    (body_chunks response) in
      match stream_error response with
      | Some e => raise e
      | None =>
          let image_data := concat_strs chunks in
          lift (image_open E image_data)
      end
  end.

(** [for attempt in range(max_retries): ...] *)
Fixpoint retry_loop (c : card) (attempts : list Z)
    (bg_image : option image) : M (option image) :=
  match attempts with
  | [] => ret bg_image
  | attempt :: rest =>
      exit <-
        try_except
          (img <- download c ;; ret (Break img))
          caught
          (fun e =>
             if attempt =? max_retries - 1 then
               img <- Image_new "RGB" (2100, 2970) [255; 255; 255] ;;
               emit (EvStWarning (warning_text e)) ;;
               ret (Next (Some img))
             else
               emit (EvSleep retry_delay) ;;
               ret (Next bg_image)) ;;
      match exit with
      | Break img => ret (Some img)
      | Next bg => retry_loop c rest bg
      end
  end.

(** Lines 147-181 of [create_pdf_card]: the binding of [bg_image] when
    the loop is left. *)
Definition acquire_background (c : card) : M (option image) :=
  retry_loop c (Utils.range max_retries) None.

(** Lines 183-194 of [create_pdf_card], for the FPDF object [pdf]: the
    white overlay on [bg_image] and the embedding of the result. *)
Definition embed_background (pdf : nat) (bg_image : image) : M unit :=
  overlay <- Image_new "RGBA" (img_size bg_image) [255; 255; 255; 80] ;;
  let bg_image :=
    if negb (String.eqb (img_mode bg_image) "RGBA")
    then convert bg_image "RGBA" else bg_image in
  let bg_with_overlay := alpha_composite bg_image overlay in
  let bg_with_overlay := convert bg_with_overlay "RGB" in
  temp_bg <-
    call (EvNamedTemporaryFile ".png") (fun h => mktemp E h ".png") ;;
  call_ (EvImageSave bg_with_overlay temp_bg "PNG")
        (fun h => image_save E h bg_with_overlay temp_bg) ;;
  let op :=
    OpImage temp_bg (inject_Z 0) (inject_Z 0) (inject_Z 210)
      (inject_Z 297) in
  call_ (EvPdf pdf op) (fun h => pdf_raises E h pdf op) ;;
  call_ (EvUnlink temp_bg) (fun h => unlink E h temp_bg).

(** Lines 147-194 of [create_pdf_card]: the retry loop, then the
    overlay on whatever [bg_image] is bound to. *)
Definition create_pdf_card_background (pdf : nat) (c : card) : M unit :=
  bound <- acquire_background c ;;
  match bound with
  | None =>
      raise (Exn UnboundLocalError
               "local variable 'bg_image' referenced before assignment")
  | Some bg_image => embed_background pdf bg_image
  end.

End WithEnv.

(** ** The text of the document: lines 206-211 of [create_pdf_card] *)

(** [is_emoji(char)]: [char in emoji.EMOJI_DATA], for the table
    [EMOJI_DATA] of the [emoji] package. *)
Definition is_emoji (EMOJI_DATA : string -> bool) (char : string) : bool :=
  EMOJI_DATA char.

(** The message as [create_pdf_card] hands it to [multi_cell]. *)
Definition clean_for_pdf (EMOJI_DATA : string -> bool) (message : string)
    : string :=
  let message := replace "[No Hadith included per your request]" "" message in
  let message :=
    replace "Note: Do not include any signature, HTML tags, or styling code."
      "" message in
  let message :=
    replace
      "Note: No signature, HTML tags, or styling code is included in this message."
      "" message in
  let message :=
    join nl
      (map strip
         (List.filter (fun line => truthy (Some (strip line)))
            (splitlines message))) in
  concat_strs
    (List.filter (fun char => negb (is_emoji EMOJI_DATA char))
       (chars message)).

(** ** [create_card] and [refresh_background] *)

(** Lines 268-270 of [create_card]: the clean-up of the message. *)
Definition clean_for_card (message : string) : string :=
  let message :=
    replace "[No Hadith included, as per your requirements]" "" message in
  let message :=
    replace
      "Note: No signature, HTML tags, or styling code is included in this message."
      "" message in
  join nl
    (List.filter (fun line => truthy (Some (strip line)))
       (splitlines message)).

Definition theme_map : list (string * string) :=
  [ ("formal", "Classic"); ("emotional", "Elegant"); ("funny", "Modern");
    ("religious", "Classic") ].

Definition default_background : string :=
  "https://images.pexels.com/photos/1939485/pexels-photo-1939485.jpeg".

(** What [st.markdown] and [st.error] put on the page; [st.warning] is
    recorded in the log of calls, as in [create_pdf_card]. *)
Inductive element : Type :=
  | StMarkdown (body : string)
  | StError (body : string).

(** The Streamlit session: the three entries of [st.session_state] and
    the elements put on the page. *)
Record session : Type :=
  Session {
    cards : list card;
    current_background : option string;
    background_category : string;
    page : list element }.

(** The state of a fresh session (lines 128-133). *)
Definition session0 : session := Session [] None "islamic patterns" [].

(** Computations on the session and the world: an exception leaves both
    as they are when it is raised. *)
Definition UI (A : Type) : Type := session -> world -> result A * session * world.

Definition ui_ret {A} (a : A) : UI A := fun s w => (Ok a, s, w).

Definition ui_bind {A B} (m : UI A) (k : A -> UI B) : UI B :=
  fun s w =>
    match m s w with
    | (Ok a, s', w') => k a s' w'
    | (Raise e, s', w') => (Raise e, s', w')
    end.

(** [try: body  except Exception as e: handler] *)
Definition ui_try {A} (body : UI A) (handler : exn -> UI A) : UI A :=
  fun s w =>
    match body s w with
    | (Ok a, s', w') => (Ok a, s', w')
    | (Raise e, s', w') => handler e s' w'
    end.

(** A computation that does not touch the session. *)
Definition ui_lift {A} (m : M A) : UI A :=
  fun s w => let (r, w') := m w in (r, s, w').

Definition ui_get {A} (f : session -> A) : UI A := fun s w => (Ok (f s), s, w).

Definition ui_set (f : session -> session) : UI unit :=
  fun s w => (Ok tt, f s, w).

Definition st_show (el : element) : UI unit :=
  ui_set (fun s =>
    Session (cards s) (current_background s) (background_category s)
      (page s ++ [el])).

Definition set_current_background (url : option string) : UI unit :=
  ui_set (fun s =>
    Session (cards s) url (background_category s) (page s)).

Definition insert_card (c : card) : UI unit :=
  ui_set (fun s =>
    Session (c :: cards s) (current_background s) (background_category s)
      (page s)).

Declare Scope ui_scope.
Delimit Scope ui_scope with ui.
Notation "x <- m ;; k" := (ui_bind m (fun x => k))
  (at level 100, m at next level, right associativity) : ui_scope.
Notation "m ;; k" := (ui_bind m (fun _ => k))
  (at level 100, right associativity) : ui_scope.

Section WithSession.
Variable E : env.

(** [refresh_background()] *)
Definition refresh_background : UI unit :=
  (category <- ui_get background_category ;;
   found <- ui_lift (Utils.get_pexels_image_default E category) ;;
   set_current_background found)%ui.

(** Lines 248-256 of [create_card]: the background of the new card is
    the current one, or that of a new search, or the default picture. *)
Definition card_background : UI string :=
  (background_url <- ui_get current_background ;;
   if negb (truthy background_url) then
     category <- ui_get background_category ;;
     background_url <-
       ui_lift (Utils.get_pexels_image_default E category) ;;
     if truthy background_url then
       set_current_background background_url ;;
       ui_ret (default "" background_url)
     else
       ui_lift
         (emit (EvStWarning
                  "Could not load background image. Using default background.")) ;;
       ui_ret default_background
   else ui_ret (default "" background_url))%ui.

(** The body of the [try] of [create_card]. *)
Definition create_card_body (recipient_name sender_name tone : string)
    (include_hadith include_emojis : bool) : UI bool :=
  (fonts <- ui_lift (FontUtils.download_google_fonts E None) ;;
   font_url <-
     ui_lift
       (lift (match fonts !! "url" with
              | Some url => Ok url
              | None => Raise (Exn KeyError "'url'")
              end)) ;;
   st_show
     (StMarkdown
        (concat_strs ["<link href="; dq; font_url; dq; " rel="; dq;
                      "stylesheet"; dq; ">"])) ;;
   background_url <- card_background ;;
   message <-
     ui_lift
       (Agents.generate_eid_message E recipient_name tone sender_name
          include_hadith false include_emojis) ;;
   let message := clean_for_card message in
   let style :=
     Tools.style_card (default "Classic" (PdfGenerator.assoc tone theme_map)) in
   let card :=
     {| recipient := recipient_name;
        sender := sender_name;
        message := message;
        background_url := background_url;
        style := style;
        fonts := fonts |} in
   insert_card card ;;
   ui_ret true)%ui.

(** [create_card(recipient_name, sender_name, tone, include_hadith,
    include_emojis)] *)
Definition create_card (recipient_name sender_name tone : string)
    (include_hadith include_emojis : bool) : UI bool :=
  ui_try
    (create_card_body recipient_name sender_name tone include_hadith
       include_emojis)
    (fun e =>
       st_show (StError ("Error creating card: " +:+ exn_str e)) ;;
       ui_ret false)%ui.

End WithSession.

End Main.

(* ===================================================================== *)
(** * runner.py                                                            *)
(* ===================================================================== *)

Module Runner.
Import Py World.
Local Open Scope py_scope.

(** An [EidCardRunner]; its message agent and its style agent wrap the
    one [eid_agent]. *)
Record EidCardRunner : Type :=
  { api_key : string; eid_agent : Agents.EidAgent }.

Section WithEnv.
Variable E : env.

(** [EidCardRunner.__init__] *)
Definition EidCardRunner_init (key : option string) : M EidCardRunner :=
  let key := or_else key (getenv E "OPENROUTER_API_KEY") in
  if negb (truthy key) then
    raise (Exn ValueError "OpenRouter API key is required")
  else
    ret {| api_key := default "" key;
           eid_agent := Agents.EidAgent_init (default "" key) |}.

(** [EidCardRunner.generate_card]; [colors] is the entry "colors" of the
    preferences, when there is one. *)
Definition generate_card (self : EidCardRunner) (recipient tone : string)
    (preferences : Agents.preferences) (colors : option (gmap string string))
    (shape : string) (output_path : option string)
    : M (string * string * string) :=
  message <-
    Agents.craft_message E (eid_agent self) recipient tone preferences ;;
  theme_name <- Agents.get_theme E (eid_agent self) tone message ;;
  theme <-
    lift (apply1 "style_card" "theme" Tools.style_card [theme_name; shape]) ;;
  let theme :=
    match colors with
    | Some overrides => overrides ∪ theme
    | None => theme
    end in
  let preview_html := PdfGenerator.create_preview message recipient theme in
  pdf_path <-
    PdfGenerator.create_pdf E message recipient theme output_path ;;
  ret (message, preview_html, pdf_path).

End WithEnv.

End Runner.

(* ===================================================================== *)
(** * Concrete worlds used by the examples                                 *)
(* ===================================================================== *)

Module Scenarios.
Import Py World.

(** A world in which no credential is configured, every request times
    out, the text-generation service is down and every library call
    succeeds. *)
Definition offline : env :=
  {| getenv := fun _ => None;
     requests_get := fun _ _ _ _ => Raise (Exn RequestException "timed out");
     image_open := fun data => Ok (Image "RGB" (640, 480) (Decoded data));
     completion := fun _ _ => Raise (Exn OtherError "service unavailable");
     random_raw := fun i => i;
     str_lower := fun s => s;
     fonts_dir := "/app/fonts";
     mkdir := fun _ _ => None;
     path_exists := fun _ _ => true;
     urlretrieve := fun _ _ _ => None;
     mktemp := fun _ suffix => Ok ("/tmp/tmpcard" +:+ suffix);
     image_save := fun _ _ _ => None;
     unlink := fun _ _ => None;
     pdf_raises := fun _ _ _ => None;
     overflows := fun _ _ op =>
       match op with
       | OpMultiCell _ _ _ _ _ => 1%nat
       | _ => 0%nat
       end;
     string_width := fun _ _ s => inject_Z (2 * Z.of_nat (String.length s));
     wrap_lines := fun s _ => [s] |}.

(** The same world with both credentials configured. *)
Definition configured : env :=
  {| getenv := fun _ => Some "secret";
     requests_get := requests_get offline;
     image_open := image_open offline;
     completion := completion offline;
     random_raw := random_raw offline;
     str_lower := str_lower offline;
     fonts_dir := fonts_dir offline;
     mkdir := mkdir offline;
     path_exists := path_exists offline;
     urlretrieve := urlretrieve offline;
     mktemp := mktemp offline;
     image_save := image_save offline;
     unlink := unlink offline;
     pdf_raises := pdf_raises offline;
     overflows := overflows offline;
     string_width := string_width offline;
     wrap_lines := wrap_lines offline |}.

End Scenarios.


(* ===================================================================== *)
(** * Vocabulary of the specification                                      *)
(* ===================================================================== *)

Import Py World.
Local Open Scope list_scope.

(** ** The theme catalog *)

(** The bundles the specification records for the three themes. *)
Definition classic_bundle : gmap string string :=
  list_to_map
    [ ("font_family", "'Playfair Display', serif");
      ("color", "#1a1a1a"); ("background", "#ffffff") ].

Definition modern_bundle : gmap string string :=
  list_to_map
    [ ("font_family", "'Roboto', sans-serif");
      ("color", "#333333"); ("background", "#f5f5f5") ].

Definition elegant_bundle : gmap string string :=
  list_to_map
    [ ("font_family", "'Cormorant Garamond', serif");
      ("color", "#2c3e50"); ("background", "#ecf0f1") ].

(** The theme in which the three colours the renderers read are spelled
    out with the renderers' own defaults. *)
Definition renderer_defaults : gmap string string :=
  list_to_map
    [ ("bg_color", "#ffffff"); ("text_color", "#000000");
      ("title_color", "#4a4a4a") ].

(** ** The message composer *)

(** [True] when the string contains a line feed. *)
Fixpoint has_newline (s : string) : bool :=
  match s with
  | EmptyString => false
  | String c s' => Ascii.eqb c (ascii_of_nat 10) || has_newline s'
  end.

(** The text with the emoji line before and after it. *)
Definition emoji_frame (emojis : list string) (text : string) : string :=
  join " " emojis +:+ nl +:+ text +:+ nl +:+ join " " emojis.

(** The remote call of [_get_completion] fails when the log is [h]: the
    service raises, or its response has no first choice or no content. *)
Definition remote_call_fails (E : env) (h : list event) (prompt : string)
    : Prop :=
  match completion E h [("system", Agents.system_content); ("user", prompt)] with
  | Ok (Some _ :: _) => False
  | _ => True
  end.

(** ** Vocabulary for the background resolver *)

(** The world after the calls [evs], with [n] more random numbers drawn. *)
Definition extend (w : world) (evs : list event) (n : nat) : world :=
  World (log w ++ evs) (draws w + n)%nat (objects w).

(** The request of the resolver for [term]. *)
Definition search_event (headers : list (string * string)) (term : string)
    : event :=
  EvRequestsGet ImageUtils.search_url headers (ImageUtils.search_params term)
    None false.

(** What the search for [term] gives when the log is [h]: the decoded body,
    or the exception of the request, of [raise_for_status()] or of
    [json()]. *)
Definition search_answer (E : env) (headers : list (string * string))
    (h : list event) (term : string) : result search_data :=
  match requests_get E h ImageUtils.search_url headers
          (ImageUtils.search_params term) with
  | Ok response =>
      match status_error response with
      | Some e => Raise e
      | None => json response
      end
  | Raise e => Raise e
  end.

(** The [Authorization] header built from the configured credential. *)
Definition auth_headers (E : env) : list (string * string) :=
  [("Authorization", default "" (getenv E "PEXELS_API_KEY"))].

(** The keywords of the category, with the default for an unrecognized
    category. *)
Definition primary_terms (category : string) : list string :=
  default (ImageUtils.SEARCH_TERMS !!! "Islamic Patterns")
          (ImageUtils.SEARCH_TERMS !! category).

(** The keywords of the fallback categories, in the order they are tried. *)
Definition fallback_terms : list string :=
  concat (map (fun c => ImageUtils.SEARCH_TERMS !!! c)
              ImageUtils.fallback_categories).

(** The searches in the order the specification describes them: every
    keyword of the category with the dimension filter ([true]), then every
    keyword of every fallback category without it ([false]). *)
Definition search_plan (category : string) : list (bool * string) :=
  map (pair true) (primary_terms category) ++ map (pair false) fallback_terms.

(** The photos a search may return a URL of. *)
Definition candidates (strict : bool) (d : search_data) : list photo :=
  if strict then filter ImageUtils.quality (default [] (photos d))
  else default [] (photos d).

(** A search yields a usable photo: it reports results and has a
    candidate. *)
Definition usable (strict : bool) (d : search_data) : bool :=
  (0 <? default 0 (total_results d))
  && negb (bool_decide (candidates strict d = [])).

(** The log when the search number [i] of the plan is issued, all earlier
    ones having been issued. *)
Definition log_before (headers : list (string * string)) (h : list event)
    (plan : list (bool * string)) (i : nat) : list event :=
  h ++ map (search_event headers) (take i plan).*2.

(** The first [n] searches of the plan answer and yield no usable photo. *)
Definition all_unusable (E : env) (headers : list (string * string))
    (h : list event) (plan : list (bool * string)) (n : nat) : Prop :=
  forall j strict term,
    (j < n)%nat -> plan !! j = Some (strict, term) ->
    exists d,
      search_answer E headers (log_before headers h plan j) term = Ok d
      /\ usable strict d = false.

(** The two loops of the resolver as one scan of a plan. *)
Fixpoint scan (E : env) (headers : list (string * string))
    (plan : list (bool * string)) : M (option string) :=
  match plan with
  | [] => World.ret None
  | (strict, term) :: rest =>
      World.bind (ImageUtils.search E headers term) (fun data =>
        if usable strict data then
          World.bind (ImageUtils.choose_url E (candidates strict data))
                     (fun url => World.ret (Some url))
        else scan E headers rest)
  end.

(** The URL [choose_url] returns for the candidates [l] when the next raw
    random number is [r]. *)
Definition chosen_url (r : nat) (l : list photo) : result string :=
  rbind (choice r l) ImageUtils.large2x.

(** [return url] of a chosen URL; an exception of the choice passes. *)
Definition found (r : result string) : result (option string) :=
  rbind r (fun url => Ok (Some url)).

(** ** Vocabulary for [utils.get_pexels_image] *)

(** The one request the function issues, possibly several times. *)
Definition query_event (headers : list (string * string)) (query : string)
    : event :=
  EvRequestsGet Utils.base_url headers (Utils.search_params query) None false.

(** What that request gives when the log is [h]. *)
Definition query_answer (E : env) (headers : list (string * string))
    (h : list event) (query : string) : result search_data :=
  match requests_get E h Utils.base_url headers (Utils.search_params query) with
  | Ok response =>
      match status_error response with
      | Some e => Raise e
      | None => json response
      end
  | Raise e => Raise e
  end.

(** The attempt made when the log is [h] fails with a transport error. *)
Definition transport_error (E : env) (headers : list (string * string))
    (h : list event) (query : string) : Prop :=
  exists e, query_answer E headers h query = Raise e
            /\ is_RequestException e = true.

(** The attempt made when the log is [h] gets a successful response
    without photos. *)
Definition no_photos (E : env) (headers : list (string * string))
    (h : list event) (query : string) : Prop :=
  exists d, query_answer E headers h query = Ok d
            /\ default [] (photos d) = [].

(** A world whose photo search always answers with one small photo. *)
Definition thumbnail : photo :=
  Photo 320 200 {[ "large2x" := "https://images.pexels.com/photos/1/small.jpeg" ]}.

(** A world whose photo search always answers with one large photo. *)
Definition landscape : photo :=
  Photo 1920 1280
    {[ "large2x" := "https://images.pexels.com/photos/2/large.jpeg" ]}.

Definition answering (ps : list photo) : response :=
  Response None (Ok (SearchData (Some (Z.of_nat (length ps))) (Some ps))) [] None.

(** The credentials are configured and every search finds [ps]. *)
Definition stocked (ps : list photo) : env :=
  {| getenv := fun _ => Some "secret";
     requests_get := fun _ _ _ _ => Ok (answering ps);
     image_open := image_open Scenarios.offline;
     completion := completion Scenarios.offline;
     random_raw := random_raw Scenarios.offline;
     str_lower := str_lower Scenarios.offline;
     fonts_dir := fonts_dir Scenarios.offline;
     mkdir := mkdir Scenarios.offline;
     path_exists := path_exists Scenarios.offline;
     urlretrieve := urlretrieve Scenarios.offline;
     mktemp := mktemp Scenarios.offline;
     image_save := image_save Scenarios.offline;
     unlink := unlink Scenarios.offline;
     pdf_raises := pdf_raises Scenarios.offline;
     overflows := overflows Scenarios.offline;
     string_width := string_width Scenarios.offline;
     wrap_lines := wrap_lines Scenarios.offline |}.

(** Every search would find [ps], but no credential is configured. *)
Definition stocked_without_key (ps : list photo) : env :=
  {| getenv := fun _ => None;
     requests_get := requests_get (stocked ps);
     image_open := image_open Scenarios.offline;
     completion := completion Scenarios.offline;
     random_raw := random_raw Scenarios.offline;
     str_lower := str_lower Scenarios.offline;
     fonts_dir := fonts_dir Scenarios.offline;
     mkdir := mkdir Scenarios.offline;
     path_exists := path_exists Scenarios.offline;
     urlretrieve := urlretrieve Scenarios.offline;
     mktemp := mktemp Scenarios.offline;
     image_save := image_save Scenarios.offline;
     unlink := unlink Scenarios.offline;
     pdf_raises := pdf_raises Scenarios.offline;
     overflows := overflows Scenarios.offline;
     string_width := string_width Scenarios.offline;
     wrap_lines := wrap_lines Scenarios.offline |}.

(** The first request times out; every later search finds [ps]. *)
Definition flaky (ps : list photo) : env :=
  {| getenv := fun _ => Some "secret";
     requests_get := fun h _ _ _ =>
       match h with
       | [] => Raise (Exn RequestException "timed out")
       | _ => Ok (answering ps)
       end;
     image_open := image_open Scenarios.offline;
     completion := completion Scenarios.offline;
     random_raw := random_raw Scenarios.offline;
     str_lower := str_lower Scenarios.offline;
     fonts_dir := fonts_dir Scenarios.offline;
     mkdir := mkdir Scenarios.offline;
     path_exists := path_exists Scenarios.offline;
     urlretrieve := urlretrieve Scenarios.offline;
     mktemp := mktemp Scenarios.offline;
     image_save := image_save Scenarios.offline;
     unlink := unlink Scenarios.offline;
     pdf_raises := pdf_raises Scenarios.offline;
     overflows := overflows Scenarios.offline;
     string_width := string_width Scenarios.offline;
     wrap_lines := wrap_lines Scenarios.offline |}.

(** The first request finds [ps]; every later one times out. *)
Definition first_only (ps : list photo) : env :=
  {| getenv := fun _ => Some "secret";
     requests_get := fun h _ _ _ =>
       match h with
       | [] => Ok (answering ps)
       | _ => Raise (Exn RequestException "timed out")
       end;
     image_open := image_open Scenarios.offline;
     completion := completion Scenarios.offline;
     random_raw := random_raw Scenarios.offline;
     str_lower := str_lower Scenarios.offline;
     fonts_dir := fonts_dir Scenarios.offline;
     mkdir := mkdir Scenarios.offline;
     path_exists := path_exists Scenarios.offline;
     urlretrieve := urlretrieve Scenarios.offline;
     mktemp := mktemp Scenarios.offline;
     image_save := image_save Scenarios.offline;
     unlink := unlink Scenarios.offline;
     pdf_raises := pdf_raises Scenarios.offline;
     overflows := overflows Scenarios.offline;
     string_width := string_width Scenarios.offline;
     wrap_lines := wrap_lines Scenarios.offline |}.

(** How an attempt that got the body [d] ends, [evs] being the calls made
    since the world [w]: [None] without photos, otherwise the URL of a
    photo chosen among all of them. *)
Definition served (E : env) (w : world) (evs : list event) (d : search_data)
    : result (option string) * world :=
  match default [] (photos d) with
  | [] => (Ok None, extend w evs 0)
  | ps => (found (chosen_url (random_raw E (draws w)) ps), extend w evs 1)
  end.

Definition missing_key_error : exn :=
  Exn ValueError
    "Pexels API key not found. Please set PEXELS_API_KEY in your .env file".

(** The HTTP requests among the calls [evs]. *)
Definition is_request (ev : event) : bool :=
  match ev with
  | EvRequestsGet _ _ _ _ _ => true
  | _ => false
  end.

Definition requests (evs : list event) : nat :=
  length (List.filter is_request evs).

(** ** Vocabulary for the background download *)

(** The request of one download attempt. *)
Definition download_event (c : Main.card) : event :=
  EvRequestsGet (Main.background_url c) Main.download_headers [] (Some 30) true.

(** What a download attempt gives when the log is [h]: the decoded image,
    or the exception of the request, of [raise_for_status()], of the
    stream or of [Image.open]. *)
Definition download_answer (E : env) (c : Main.card) (h : list event)
    : result image :=
  match requests_get E h (Main.background_url c) Main.download_headers [] with
  | Raise e => Raise e
  | Ok response =>
      match status_error response with
      | Some e => Raise e
      | None =>
          match stream_error response with
          | Some e => Raise e
          | None =>
              image_open E
                (concat_strs
                   (List.filter (fun chunk => negb (String.eqb chunk ""))
                                (body_chunks response)))
          end
      end
  end.

(** The attempt made when the log is [h] fails with an exception the retry
    loop catches. *)
Definition attempt_fails (E : env) (c : Main.card) (h : list event) : Prop :=
  exists e, download_answer E c h = Raise e /\ Main.caught e = true.

(** The creation of the solid background and the warning. *)
Definition canvas_event : event := EvImageNew "RGB" (2100, 2970) [255; 255; 255].

Definition degradation (e : exn) : list event :=
  [canvas_event; EvStWarning (Main.warning_text e)].

(** [k] failed attempts, each followed by the sleep. *)
Definition retries (c : Main.card) (k : nat) : list event :=
  concat (replicate k [download_event c; EvSleep 1]).

Definition sample_card : Main.card :=
  Main.Card "Ali" "Sara" "Eid Mubarak!"
    "https://images.pexels.com/photos/1939485/pexels-photo-1939485.jpeg"
    (Tools.style_card "Classic") ∅.

(** ** Vocabulary for the document renderer *)

(** The computation [m], started in [w], returns [a] after the calls [evs]
    and the creation of [k] objects. *)
Definition runs {A} (m : M A) (w : world) (a : A) (evs : list event) (k : nat)
    : Prop :=
  m w = (Ok a, World (log w ++ evs) (draws w) (objects w + k)).

Definition is_output (op : pdf_op) : bool :=
  match op with
  | OpOutput _ => true
  | _ => false
  end.

(** What a rendering leaves behind: the texts put on the pages of an FPDF
    object, and the files an FPDF object was asked to write. *)
Inductive mark : Type :=
  | Text (obj : nat) (txt : string)
  | Output (obj : nat) (name : string).

Definition marks (ev : event) : list mark :=
  match ev with
  | EvPdf o (OpCell _ _ txt _ _ _) => [Text o txt]
  | EvPdf o (OpMultiCell _ _ txt _ _) => [Text o txt]
  | EvPdf o (OpOutput name) => [Output o name]
  | _ => []
  end.

(** The computation [m], started in [w], returns after creating [k]
    objects, and its result [a] and the marks [L] of its calls satisfy
    [Q a L]. *)
Definition does {A} (m : M A) (w : world) (k : nat)
    (Q : A -> list mark -> Prop) : Prop :=
  exists a evs, runs m w a evs k /\ Q a (flat_map marks evs).

(** The marks of [n] automatic page breaks: footer of the page that ends,
    header of the page that starts. *)
Definition page_turns (obj : nat) (n : nat) : list mark :=
  concat (replicate n [ Text obj "Created with EidiCard Generator";
                        Text obj "Eid Mubarak" ]).

(** A text laid out in the body of a page, with the [n] page breaks it
    caused. *)
Definition body_text (obj : nat) (txt : string) (n : nat) : list mark :=
  Text obj txt :: page_turns obj n.

(** The marks of the document [create_pdf] lays out on object [obj] for a
    line length [cpl], up to the call of [output]: the header, the
    salutation, the wrapped lines, the footer.  [b] and [bs] count the page
    breaks after the salutation and after each line. *)
Definition card_marks (E : env) (obj : nat) (message recipient : string)
    (cpl : Z) (path : string) (b : nat) (bs : list nat) : list mark :=
  Text obj "Eid Mubarak"
  :: body_text obj
       ("Dear " +:+ PdfGenerator.remove_emojis recipient +:+ ",") b
  ++ concat (zip_with (body_text obj)
               (wrap_lines E (PdfGenerator.remove_emojis message) cpl) bs)
  ++ [ Text obj "Created with EidiCard Generator"; Output obj path ].

(** The marks of the minimal document: the header, the heading, the
    well-wish and the footer, then the call of [output]. *)
Definition fallback_marks (obj : nat) (path : string) (b1 b2 : nat)
    : list mark :=
  Text obj "Eid Mubarak"
  :: body_text obj "Eid Mubarak" b1
  ++ body_text obj PdfGenerator.fallback_text b2
  ++ [ Text obj "Created with EidiCard Generator"; Output obj path ].

(** [chars_per_line] for the width [x_w] of the glyph "x". *)
Definition chars_per_line (x_w : Q) : Z :=
  PdfGenerator.trunc
    ((PdfGenerator.page_w - PdfGenerator.qz 20 - PdfGenerator.qz 20)
     / (x_w * (11 # 10)))%Q.

(** The libraries cooperate with a rendering that starts when [first]
    objects exist: the font directory can be created, a temporary file can
    be made, the glyph "x" has a width that gives a positive line length,
    and no FPDF call raises, except possibly [output] on the first
    document. *)
Record cooperative (E : env) (first : nat) : Prop :=
  { coop_mkdir : forall h d, mkdir E h d = None;
    coop_mktemp : forall h, exists p, mktemp E h ".pdf" = Ok p;
    coop_width : forall h obj,
      Qeq_bool (string_width E h obj "x" * (11 # 10))%Q (PdfGenerator.qz 0)
        = false
      /\ 0 < chars_per_line (string_width E h obj "x");
    coop_pdf : forall h obj op,
      is_output op = false -> pdf_raises E h obj op = None;
    coop_fallback_output : forall h obj op,
      obj <> first -> pdf_raises E h obj op = None }.

(** No FPDF call raises but [output], which always does: a read-only
    output directory. *)
Definition read_only : env :=
  {| getenv := getenv Scenarios.offline;
     requests_get := requests_get Scenarios.offline;
     image_open := image_open Scenarios.offline;
     completion := completion Scenarios.offline;
     random_raw := random_raw Scenarios.offline;
     str_lower := str_lower Scenarios.offline;
     fonts_dir := fonts_dir Scenarios.offline;
     mkdir := mkdir Scenarios.offline;
     path_exists := path_exists Scenarios.offline;
     urlretrieve := urlretrieve Scenarios.offline;
     mktemp := mktemp Scenarios.offline;
     image_save := image_save Scenarios.offline;
     unlink := unlink Scenarios.offline;
     pdf_raises := fun _ _ op =>
       if is_output op then Some (Exn IOError "Permission denied") else None;
     overflows := overflows Scenarios.offline;
     string_width := string_width Scenarios.offline;
     wrap_lines := wrap_lines Scenarios.offline |}.

(** The first [output] fails on a character it cannot encode; everything
    else succeeds. *)
Definition unencodable : env :=
  {| getenv := getenv Scenarios.offline;
     requests_get := requests_get Scenarios.offline;
     image_open := image_open Scenarios.offline;
     completion := completion Scenarios.offline;
     random_raw := random_raw Scenarios.offline;
     str_lower := str_lower Scenarios.offline;
     fonts_dir := fonts_dir Scenarios.offline;
     mkdir := mkdir Scenarios.offline;
     path_exists := path_exists Scenarios.offline;
     urlretrieve := urlretrieve Scenarios.offline;
     mktemp := mktemp Scenarios.offline;
     image_save := image_save Scenarios.offline;
     unlink := unlink Scenarios.offline;
     pdf_raises := fun _ obj op =>
       if is_output op && Nat.eqb obj 0
       then Some (Exn OtherError "character cannot be encoded") else None;
     overflows := overflows Scenarios.offline;
     string_width := string_width Scenarios.offline;
     wrap_lines := wrap_lines Scenarios.offline |}.

(** A step that leaves no mark. *)
Definition quiet {A} (a : A) (L : list mark) : Prop := L = [].

(** A step on [ev] alone. *)
Definition marked {A} (ev : event) (a : A) (L : list mark) : Prop :=
  L = marks ev.

(** ** Vocabulary for the characters of a string *)

(** A piece of a UTF-8 string that [chars] delivers as one character: a
    leading byte and at most the continuation bytes it announces. *)
Definition unit_ok (x : string) : Prop :=
  match x with
  | EmptyString => False
  | String b r => (String.length r <= utf8_len b - 1)%nat
  end.

(** The piece has all the bytes its leading byte announces. *)
Definition complete (x : string) : Prop :=
  match x with
  | EmptyString => False
  | String b r => String.length r = (utf8_len b - 1)%nat
  end.

(** A list of characters as [chars] delivers it: every piece is complete,
    except possibly the last one when the string is cut short. *)
Fixpoint segmented (l : list string) : Prop :=
  match l with
  | [] => True
  | x :: l' =>
      match l' with
      | [] => unit_ok x
      | _ => complete x /\ segmented l'
      end
  end.

(** What [chars_aux] has read of the current character after [need] more
    bytes were announced. *)
Definition pending (need : nat) (cur : string) : Prop :=
  match cur with
  | EmptyString => need = 0%nat
  | String b r => (String.length r + need = utf8_len b - 1)%nat
  end.

(** The three intervals of code points that the six ranges of
    [emoji_pattern] cover: U+24C2 to U+1F251, U+1F300 to U+1F64F and
    U+1F680 to U+1F6FF. *)
Definition emoji_block (ch : string) : bool :=
  in_range 9410 127569 (ord ch)
  || in_range 127744 128591 (ord ch)
  || in_range 128640 128767 (ord ch).

(** ** Vocabulary for the colours of a theme *)

(** The hexadecimal digit of value [d], in upper or lower case. *)
Definition hex_char (upper : bool) (d : Z) : ascii :=
  ascii_of_nat
    (Z.to_nat (if d <? 10 then 48 + d else (if upper then 55 else 87) + d)).

(** The two digits of a colour channel. *)
Definition hex_pair (upper : bool) (v : Z) : string :=
  String (hex_char upper (v / 16)) (String (hex_char upper (v mod 16)) "").

(** The colour "#rrggbb" of the channels [r], [g], [b]. *)
Definition css_hex (upper : bool) (r g b : Z) : string :=
  "#" +:+ hex_pair upper r +:+ hex_pair upper g +:+ hex_pair upper b.

(** A colour whose red channel starts with the control character U+001C:
    [str.strip] would drop it, [int] does not accept it. *)
Definition separator_colour : string :=
  "#" +:+ String (ascii_of_nat 28) "f0000".

(** The message of [int] for the red channel of that colour. *)
Definition separator_message : string :=
  "invalid literal for int() with base 16: '" +:+ backslash +:+ "x1cf'".

(** [int(s, 16)] gives [v]. *)
Definition parses_to (s : string) (v : Z) : bool :=
  match int16 s with
  | Ok z => z =? v
  | Raise _ => false
  end.

(** The bytes of the string are all below 192: each is a character of its
    own. *)
Definition single_bytes (s : string) : Prop :=
  Forall (fun c => utf8_len c = 1%nat) (list_ascii_of_string s).

(** ** More vocabulary for [utils.get_pexels_image] *)

(** The credential the function uses: the argument when it is a non-empty
    string, otherwise the environment's. *)
Definition effective_key (E : env) (api_key : option string) : option string :=
  or_else api_key (getenv E "PEXELS_API_KEY").

Definition key_headers (E : env) (api_key : option string)
    : list (string * string) :=
  [("Authorization", default "" (effective_key E api_key))].

(** [k] attempts that failed and were followed by the sleep, then one
    more attempt. *)
Definition attempts_then_last (ev : event) (k : nat) : list event :=
  concat (replicate k [ev; EvSleep 1]) ++ [ev].

(** The world [E] with another photo-search service. *)
Definition with_requests (E : env)
    (service : list event -> string -> list (string * string) ->
               list (string * string) -> result response) : env :=
  {| getenv := getenv E;
     requests_get := service;
     image_open := image_open E;
     completion := completion E;
     random_raw := random_raw E;
     str_lower := str_lower E;
     fonts_dir := fonts_dir E;
     mkdir := mkdir E;
     path_exists := path_exists E;
     urlretrieve := urlretrieve E;
     mktemp := mktemp E;
     image_save := image_save E;
     unlink := unlink E;
     pdf_raises := pdf_raises E;
     overflows := overflows E;
     string_width := string_width E;
     wrap_lines := wrap_lines E |}.

(** A service whose body cannot be decoded. *)
Definition garbled : env :=
  with_requests Scenarios.configured
    (fun _ _ _ _ =>
       Ok (Response None (Raise (Exn ValueError "Expecting value")) [] None)).

(** A photo record without the "large2x" variant. *)
Definition bare_photo : photo := Photo 1920 1280 ∅.

(** ** More vocabulary for the message composer *)

(** The call of the text-generation service for [prompt]. *)
Definition completion_event (self : Agents.EidAgent) (prompt : string)
    : event :=
  EvCompletion (Agents.model self)
    [("system", Agents.system_content); ("user", prompt)] 500 (7 # 10)
    Agents.completion_headers.

(** The answer of the service to [prompt] when the log is [h]. *)
Definition completion_answer (E : env) (h : list event) (prompt : string)
    : result (list (option string)) :=
  completion E h [("system", Agents.system_content); ("user", prompt)].

(** The world [E] with another text-generation service and the
    credential for it. *)
Definition with_completion (E : env)
    (service : list event -> list (string * string) ->
               result (list (option string))) : env :=
  {| getenv := fun _ => Some "secret";
     requests_get := requests_get E;
     image_open := image_open E;
     completion := service;
     random_raw := random_raw E;
     str_lower := str_lower E;
     fonts_dir := fonts_dir E;
     mkdir := mkdir E;
     path_exists := path_exists E;
     urlretrieve := urlretrieve E;
     mktemp := mktemp E;
     image_save := image_save E;
     unlink := unlink E;
     pdf_raises := pdf_raises E;
     overflows := overflows E;
     string_width := string_width E;
     wrap_lines := wrap_lines E |}.

(** A service that answers every prompt with the same text. *)
Definition eloquent (content : string) : env :=
  with_completion Scenarios.offline (fun _ _ => Ok [Some content]).

(** ** Vocabulary for the fonts and the runner *)

(** The names under which [FONT_COMBINATIONS] records a combination. *)
Definition font_themes : list string := ["Classic"; "Modern"; "Elegant"].

(** A font combination has the three entries the UI reads. *)
Definition font_entries (fonts : gmap string string) : Prop :=
  is_Some (fonts !! "title") /\ is_Some (fonts !! "body")
  /\ is_Some (fonts !! "url").

#[global] Instance font_entries_dec fonts : Decision (font_entries fonts).
Proof. unfold font_entries. apply _. Defined.

(** The calls of the message composer: the remote call and the log line
    of its failure. *)
Definition is_completion (ev : event) : bool :=
  match ev with
  | EvCompletion _ _ _ _ _ => true
  | _ => false
  end.

Definition composer_call (ev : event) : Prop :=
  match ev with
  | EvCompletion _ _ _ _ _ | EvLogError _ => True
  | _ => False
  end.

(** The calls of one use of [_get_completion]: one remote call, and
    nothing else but log lines. *)
Definition one_completion (evs : list event) : Prop :=
  Forall composer_call evs
  /\ length (List.filter is_completion evs) = 1%nat.


(** ** Vocabulary for the font cache *)

(** The calls [download_font] makes: the download, and the message
    printed when it fails. *)
Definition font_call (ev : event) : Prop :=
  match ev with
  | EvUrlretrieve _ _ | EvPrint _ => True
  | _ => False
  end.

Definition is_urlretrieve (ev : event) : bool :=
  match ev with
  | EvUrlretrieve _ _ => true
  | _ => false
  end.

Definition downloads (evs : list event) : nat :=
  length (List.filter is_urlretrieve evs).

(** The directory of the Roboto files and the path [get_font_path]
    returns for them. *)
Definition roboto_dir (E : env) : string :=
  PdfGenerator.path_join (fonts_dir E) "roboto".

Definition roboto_path (E : env) : string :=
  PdfGenerator.path_join (roboto_dir E) "roboto.ttf".

(** A world without network in which the font files are missing. *)
Definition fontless : env :=
  {| getenv := getenv Scenarios.offline;
     requests_get := requests_get Scenarios.offline;
     image_open := image_open Scenarios.offline;
     completion := completion Scenarios.offline;
     random_raw := random_raw Scenarios.offline;
     str_lower := str_lower Scenarios.offline;
     fonts_dir := fonts_dir Scenarios.offline;
     mkdir := mkdir Scenarios.offline;
     path_exists := fun _ _ => false;
     urlretrieve := fun _ _ _ => Some (Exn IOError "Network is unreachable");
     mktemp := mktemp Scenarios.offline;
     image_save := image_save Scenarios.offline;
     unlink := unlink Scenarios.offline;
     pdf_raises := pdf_raises Scenarios.offline;
     overflows := overflows Scenarios.offline;
     string_width := string_width Scenarios.offline;
     wrap_lines := wrap_lines Scenarios.offline |}.

(** The same world, in which FPDF cannot register a font file that is
    not there. *)
Definition missing_fonts : env :=
  {| getenv := getenv fontless;
     requests_get := requests_get fontless;
     image_open := image_open fontless;
     completion := completion fontless;
     random_raw := random_raw fontless;
     str_lower := str_lower fontless;
     fonts_dir := fonts_dir fontless;
     mkdir := mkdir fontless;
     path_exists := path_exists fontless;
     urlretrieve := urlretrieve fontless;
     mktemp := mktemp fontless;
     image_save := image_save fontless;
     unlink := unlink fontless;
     pdf_raises := fun _ _ op =>
       match op with
       | OpAddFont _ _ (Some fname) _ =>
           Some (Exn IOError ("TTF Font file not found: " +:+ fname))
       | _ => None
       end;
     overflows := overflows fontless;
     string_width := string_width fontless;
     wrap_lines := wrap_lines fontless |}.

(** The calls of [EidCard.__init__] on the new FPDF object before the
    fonts are looked for. *)
Definition setup_ops : list pdf_op :=
  [ OpInit "A4";
    OpSetMargins (PdfGenerator.qz 20) (PdfGenerator.qz 20)
      (PdfGenerator.qz 20);
    OpSetAutoPageBreak true (PdfGenerator.qz 20) ].

(** The registration of the regular, the bold and the italic Roboto. *)
Definition roboto_ops (E : env) : list pdf_op :=
  [ OpAddFont "Roboto" "" (Some (roboto_path E)) true;
    OpAddFont "Roboto" "B"
      (Some (PdfGenerator.path_join (roboto_dir E) "robotoB.ttf")) true;
    OpAddFont "Roboto" "I"
      (Some (PdfGenerator.path_join (roboto_dir E) "robotoI.ttf")) true ].

(** The FPDF calls [ops], made in turn on the object [pdf] from the log
    [h], all return. *)
Fixpoint pdf_calls_return (E : env) (h : list event) (pdf : nat)
    (ops : list pdf_op) : Prop :=
  match ops with
  | [] => True
  | op :: rest =>
      pdf_raises E h pdf op = None
      /\ pdf_calls_return E (h ++ [EvPdf pdf op]) pdf rest
  end.

(** The call registers a font of the family [family]. *)
Definition adds_font (family : string) (ev : event) : bool :=
  match ev with
  | EvPdf _ (OpAddFont f _ _ _) => String.eqb f family
  | _ => false
  end.

(** ** Vocabulary for the background of the document *)

(** The picture that is embedded for the background [bg]: [bg] in mode
    RGBA under the translucent white layer, flattened to RGB. *)
Definition flattened (bg : image) : image :=
  let overlay := Image "RGBA" (img_size bg) (Solid [255; 255; 255; 80]) in
  let rgba :=
    if String.eqb (img_mode bg) "RGBA" then bg else Main.convert bg "RGBA" in
  Main.convert (Main.alpha_composite rgba overlay) "RGB".

Definition overlay_event (bg : image) : event :=
  EvImageNew "RGBA" (img_size bg) [255; 255; 255; 80].

Definition save_event (bg : image) (path : string) : event :=
  EvImageSave (flattened bg) path "PNG".

Definition embed_op (path : string) : pdf_op :=
  OpImage path (inject_Z 0) (inject_Z 0) (inject_Z 210) (inject_Z 297).

(** A world in which FPDF cannot read the picture it is given. *)
Definition unreadable_picture : env :=
  {| getenv := getenv Scenarios.offline;
     requests_get := requests_get Scenarios.offline;
     image_open := image_open Scenarios.offline;
     completion := completion Scenarios.offline;
     random_raw := random_raw Scenarios.offline;
     str_lower := str_lower Scenarios.offline;
     fonts_dir := fonts_dir Scenarios.offline;
     mkdir := mkdir Scenarios.offline;
     path_exists := path_exists Scenarios.offline;
     urlretrieve := urlretrieve Scenarios.offline;
     mktemp := mktemp Scenarios.offline;
     image_save := image_save Scenarios.offline;
     unlink := unlink Scenarios.offline;
     pdf_raises := fun _ _ op =>
       match op with
       | OpImage _ _ _ _ _ => Some (Exn OtherError "Unsupported image")
       | _ => None
       end;
     overflows := overflows Scenarios.offline;
     string_width := string_width Scenarios.offline;
     wrap_lines := wrap_lines Scenarios.offline |}.

(** Pillow's [DecompressionBombError], which derives from [Exception]
    and is neither a [RequestException] nor an [IOError]. *)
Definition decompression_bomb : exn :=
  Exn OtherError
    ("Image size (200000000 pixels) exceeds limit of 178956970 pixels, "
       +:+ "could be decompression bomb DOS attack.").

(** A world in which the picture is served but is larger than Pillow
    agrees to open. *)
Definition oversized : env :=
  {| getenv := getenv Scenarios.offline;
     requests_get := fun _ _ _ _ =>
       Ok (Response None (Raise (Exn ValueError "Expecting value"))
             ["PNG"] None);
     image_open := fun _ => Raise decompression_bomb;
     completion := completion Scenarios.offline;
     random_raw := random_raw Scenarios.offline;
     str_lower := str_lower Scenarios.offline;
     fonts_dir := fonts_dir Scenarios.offline;
     mkdir := mkdir Scenarios.offline;
     path_exists := path_exists Scenarios.offline;
     urlretrieve := urlretrieve Scenarios.offline;
     mktemp := mktemp Scenarios.offline;
     image_save := image_save Scenarios.offline;
     unlink := unlink Scenarios.offline;
     pdf_raises := pdf_raises Scenarios.offline;
     overflows := overflows Scenarios.offline;
     string_width := string_width Scenarios.offline;
     wrap_lines := wrap_lines Scenarios.offline |}.

(** ** Vocabulary for the clean-up of the message *)

(** A line that [line.strip()] does not make empty. *)
Definition nonblank (line : string) : bool := truthy (Some (strip line)).

(** The message of a card after the two phrases [create_card] deletes
    were deleted. *)
Definition without_card_phrases (message : string) : string :=
  replace
    "Note: No signature, HTML tags, or styling code is included in this message."
    ""
    (replace "[No Hadith included, as per your requirements]" "" message).

(** The message after the three phrases [create_pdf_card] deletes were
    deleted. *)
Definition without_pdf_phrases (message : string) : string :=
  replace
    "Note: No signature, HTML tags, or styling code is included in this message."
    ""
    (replace
       "Note: Do not include any signature, HTML tags, or styling code." ""
       (replace "[No Hadith included per your request]" "" message)).

(** ** Vocabulary for the session *)

(** The element that loads the fonts of a card. *)
Definition font_link (url : string) : Main.element :=
  Main.StMarkdown
    (concat_strs ["<link href="; dq; url; dq; " rel="; dq; "stylesheet"; dq;
                  ">"]).

(** The message [create_card] shows when it fails. *)
Definition card_error (e : exn) : Main.element :=
  Main.StError ("Error creating card: " +:+ exn_str e).

(** The session with more elements on the page, another background, one
    more card. *)
Definition shown (s : Main.session) (els : list Main.element) : Main.session :=
  Main.Session (Main.cards s) (Main.current_background s)
    (Main.background_category s) (Main.page s ++ els).

Definition with_background (s : Main.session) (url : option string)
    : Main.session :=
  Main.Session (Main.cards s) url (Main.background_category s) (Main.page s).

Definition with_card (s : Main.session) (c : Main.card) : Main.session :=
  Main.Session (c :: Main.cards s) (Main.current_background s)
    (Main.background_category s) (Main.page s).

(** The theme of a card for a tone. *)
Definition card_theme (tone : string) : gmap string string :=
  Tools.style_card
    (default "Classic" (PdfGenerator.assoc tone Main.theme_map)).

(** The card [create_card] builds from the composed [text]. *)
Definition new_card (recipient_name sender_name tone text background : string)
    (fonts : gmap string string) : Main.card :=
  Main.Card recipient_name sender_name (Main.clean_for_card text) background
    (card_theme tone) fonts.

Definition default_background_warning : event :=
  EvStWarning "Could not load background image. Using default background.".

(* ===================================================================== *)
(** * Theme catalog                                                        *)
(* ===================================================================== *)

(** Membership of a literal string in a literal list. *)
Ltac not_in_literals :=
  let H := fresh "Hin" in
  let Heq := fresh "Heq" in
  intros H;
  repeat (apply elem_of_cons in H as [Heq | H]; [discriminate Heq|]);
  by apply elem_of_nil in H.

Section ThemeCatalog.
Import Tools.

Lemma style_card_unrecognized theme :
  theme ∉ get_available_themes -> style_card theme = classic_bundle.
Proof.
  intros Hnot. unfold style_card, themes.
  rewrite (not_elem_of_list_to_map_1 (M := gmap string)); [reflexivity|].
  exact Hnot.
Qed.

Lemma style_card_cases theme :
  style_card theme = classic_bundle
  \/ style_card theme = modern_bundle
  \/ style_card theme = elegant_bundle.
Proof.
  destruct (decide (theme ∈ get_available_themes)) as [Hin | Hnot].
  - unfold get_available_themes in Hin.
    repeat (apply elem_of_cons in Hin as [-> | Hin]);
      [ left | right; left | right; right | by apply elem_of_nil in Hin ];
      reflexivity.
  - left. by apply style_card_unrecognized.
Qed.

Lemma get_completion_total E self prompt w :
  exists text w', Agents._get_completion E self prompt w = (Ok text, w').
Proof.
  unfold Agents._get_completion, try_except, bind, call, emit, raise, ret.
  destruct (completion E (log w) _) as [[|[content|] choices]|e];
    simpl; eauto.
Qed.

Lemma suggest_theme_range E self tone message w :
  exists name w',
    Agents.suggest_theme E self tone message w = (Ok name, w')
    /\ name ∈ ["classic"; "modern"; "elegant"].
Proof.
  unfold Agents.suggest_theme, bind.
  destruct (get_completion_total E self (Agents.theme_prompt tone message) w)
    as (text & w' & ->).
  unfold ret. case_bool_decide as Hin; eauto.
  eexists _, _. split; [reflexivity|]. set_solver.
Qed.

End ThemeCatalog.

(** C8. [style_card] returns the recorded bundle for each of the names
    "Classic", "Modern" and "Elegant"; for every other name it returns the
    "Classic" bundle, and so it does for whatever name the theme-suggestion
    agent produces, which is always one of the lowercase names "classic",
    "modern", "elegant". *)
Theorem style_card_catalog :
  Tools.style_card "Classic" = classic_bundle
  /\ Tools.style_card "Modern" = modern_bundle
  /\ Tools.style_card "Elegant" = elegant_bundle
  /\ (forall theme,
        theme ∉ ["Classic"; "Modern"; "Elegant"] ->
        Tools.style_card theme = classic_bundle)
  /\ (forall E self tone message w,
        exists name w',
          Agents.suggest_theme E self tone message w = (Ok name, w')
          /\ name ∈ ["classic"; "modern"; "elegant"]
          /\ Tools.style_card name = classic_bundle).
Proof.
  split; [reflexivity|]. split; [reflexivity|]. split; [reflexivity|].
  split.
  - intros theme Hnot. by apply style_card_unrecognized.
  - intros E self tone message w.
    destruct (suggest_theme_range E self tone message w)
      as (name & w' & Hrun & Hin).
    exists name, w'. split; [exact Hrun|]. split; [exact Hin|].
    apply style_card_unrecognized. unfold Tools.get_available_themes.
    repeat (apply elem_of_cons in Hin as [-> | Hin]);
      [ | | | by apply elem_of_nil in Hin ];
      not_in_literals.
Qed.

Lemma style_card_catalog_witness :
  ("Vintage" ∉ ["Classic"; "Modern"; "Elegant"])
  /\ Tools.style_card "Vintage" = classic_bundle.
Proof.
  split.
  - not_in_literals.
  - apply style_card_catalog. not_in_literals.
Defined.

(* ===================================================================== *)
(** * Message composer                                                     *)
(* ===================================================================== *)

(** C3. Without a text-generation credential, [generate_eid_message]
    returns [DEFAULT_MESSAGE] unchanged, whatever the other arguments, and
    calls nothing. *)
Theorem generate_eid_message_without_credential :
  forall E recipient tone sender include_hadith include_urdu include_emojis w,
    truthy (getenv E "OPENROUTER_API_KEY") = false ->
    Agents.generate_eid_message E recipient tone sender
      include_hadith include_urdu include_emojis w
    = (Ok Agents.DEFAULT_MESSAGE, w).
Proof.
  intros E recipient tone sender include_hadith include_urdu include_emojis w
    Hkey.
  unfold Agents.generate_eid_message. rewrite Hkey. reflexivity.
Qed.

Lemma generate_eid_message_without_credential_witness :
  truthy (getenv Scenarios.offline "OPENROUTER_API_KEY") = false
  /\ Agents.generate_eid_message Scenarios.offline "Ali" "formal" "Sara"
       false false true world0
     = (Ok Agents.DEFAULT_MESSAGE, world0).
Proof.
  split; [reflexivity|].
  apply generate_eid_message_without_credential. reflexivity.
Defined.

(** ** [random.sample] selects distinct elements of the population *)

Section Sample.
Context {A : Type}.

Lemma insert_swap_perm (l : list A) j x y :
  l !! j = Some x -> x :: <[j := y]> l ≡ₚ y :: l.
Proof.
  revert j. induction l as [|a l IH]; intros [|j] Hj; simplify_eq/=.
  - apply perm_swap.
  - rewrite perm_swap. rewrite (IH j Hj). apply perm_swap.
Qed.

Lemma sample_step_perm (pool : list A) j m x y :
  (j < S m)%nat -> (S m <= length pool)%nat ->
  pool !! j = Some x -> pool !! m = Some y ->
  x :: take m (<[j := y]> pool) ≡ₚ take (S m) pool.
Proof.
  intros Hj Hlen Hx Hy.
  rewrite (take_S_r pool m y Hy).
  destruct (decide (j = m)) as [-> | Hne].
  - rewrite take_insert_ge by lia. simplify_eq.
    apply Permutation_cons_append.
  - rewrite take_insert_lt by lia.
    rewrite insert_swap_perm by (rewrite lookup_take_lt by lia; exact Hx).
    apply Permutation_cons_append.
Qed.

Lemma sample_loop_spec (rnd : nat -> nat) :
  forall (k i m : nat) (pool : list A),
    (k <= m)%nat -> (m <= length pool)%nat -> NoDup (take m pool) ->
    length (sample_loop rnd i k m pool) = k
    /\ NoDup (sample_loop rnd i k m pool)
    /\ (forall x, x ∈ sample_loop rnd i k m pool -> x ∈ take m pool).
Proof.
  induction k as [|k IH]; intros i m pool Hk Hm Hnd.
  { simpl. split; [reflexivity|]. split; [constructor|].
    intros x Hx. by apply elem_of_nil in Hx. }
  destruct m as [|m]; [lia|].
  cbn [sample_loop]. replace (S m - 1)%nat with m by lia.
  set (j := (rnd i mod S m)%nat).
  assert (Hj : (j < S m)%nat) by (apply Nat.mod_upper_bound; lia).
  destruct (lookup_lt_is_Some_2 pool j) as [x Hx]; [lia|].
  destruct (lookup_lt_is_Some_2 pool m) as [y Hy]; [lia|].
  rewrite Hx, Hy.
  pose proof (sample_step_perm pool j m x y Hj Hm Hx Hy) as Hperm.
  assert (Hnd' : NoDup (x :: take m (<[j := y]> pool)))
    by (by rewrite Hperm).
  apply NoDup_cons in Hnd' as [Hfresh Hnd'].
  destruct (IH (S i) m (<[j := y]> pool)) as (Hlen & Hnd'' & Hsub);
    [lia | rewrite length_insert; lia | exact Hnd' |].
  split; [simpl; by rewrite Hlen|].
  split.
  - apply NoDup_cons. split; [|exact Hnd''].
    intros Hin. apply Hfresh. by apply Hsub.
  - intros z Hz. rewrite <- Hperm.
    apply elem_of_cons in Hz as [-> | Hz]; [by left|].
    right. by apply Hsub.
Qed.

Lemma sample_spec (rnd : nat -> nat) (population : list A) (k : Z) :
  0 <= k <= Z.of_nat (length population) -> NoDup population ->
  exists selected,
    sample rnd population k = Ok selected
    /\ Z.of_nat (length selected) = k
    /\ NoDup selected
    /\ (forall x, x ∈ selected -> x ∈ population).
Proof.
  intros Hk Hnd. unfold sample.
  replace ((0 <=? k) && (k <=? Z.of_nat (length population))) with true
    by (symmetry; apply andb_true_intro; split; apply Z.leb_le; lia).
  destruct (sample_loop_spec rnd (Z.to_nat k) 0 (length population) population)
    as (Hlen & Hnd' & Hsub); [lia | lia | by rewrite firstn_all |].
  eexists. split; [reflexivity|]. split; [rewrite Hlen; lia|].
  split; [exact Hnd'|].
  intros x Hx. apply Hsub in Hx. by rewrite firstn_all in Hx.
Qed.

End Sample.

(** ** The emoji sets *)

Lemma EMOJI_SETS_tones tone :
  tone ∈ ["funny"; "emotional"; "religious"; "formal"] ->
  exists set,
    Agents.EMOJI_SETS !! tone = Some set
    /\ length set = 10%nat /\ NoDup set
    /\ Forall (fun e => has_newline e = false) set.
Proof.
  intros Hin.
  repeat (apply elem_of_cons in Hin as [-> | Hin]);
    [ | | | | by apply elem_of_nil in Hin ];
    (eexists; split; [reflexivity|]; split; [reflexivity|]; split;
     [ apply (bool_decide_unpack _); vm_compute; exact I
     | repeat constructor ]).
Qed.

Lemma EMOJI_SETS_lookup tone set :
  Agents.EMOJI_SETS !! tone = Some set ->
  tone ∈ ["funny"; "emotional"; "religious"; "formal"].
Proof.
  intros Hlook. unfold Agents.EMOJI_SETS in Hlook.
  apply (elem_of_list_to_map_2 (M := gmap string)) in Hlook.
  repeat (apply elem_of_cons in Hlook as [Heq | Hlook];
          [injection Heq as -> _; set_solver|]).
  by apply elem_of_nil in Hlook.
Qed.

Lemma has_newline_app s t :
  has_newline (s +:+ t) = has_newline s || has_newline t.
Proof.
  induction s as [|c s IH]; simpl; [reflexivity|].
  rewrite IH. by destruct (Ascii.eqb c _).
Qed.

Lemma join_space_one_line (l : list string) :
  Forall (fun e => has_newline e = false) l ->
  has_newline (join " " l) = false.
Proof.
  induction 1 as [|e l He Hl IH]; [reflexivity|].
  destruct l as [|e' l]; [exact He|].
  change (join " " (e :: e' :: l)) with (e +:+ " " +:+ join " " (e' :: l)).
  rewrite !has_newline_app, He, IH. reflexivity.
Qed.

(** ** [generate_greeting] *)

Section Greeting.
Variable E : env.
Variable self : Agents.EidAgent.
Variables recipient tone sender : string.
Variables include_hadith include_urdu : bool.

Let prompt : string :=
  Agents.greeting_prompt recipient tone include_hadith include_urdu sender.

Lemma generate_greeting_plain (n : Z) w text w1 :
  Agents._get_completion E self prompt w = (Ok text, w1) ->
  n <= 0 \/ Agents.EMOJI_SETS !! tone = None ->
  Agents.generate_greeting E self recipient tone include_hadith include_urdu
    n sender w = (Ok text, w1).
Proof.
  intros Hrun Hcase. unfold Agents.generate_greeting, bind.
  fold prompt. rewrite Hrun.
  destruct (0 <? n) eqn:Hn; [|reflexivity].
  apply Z.ltb_lt in Hn. destruct Hcase as [Hle | ->]; [lia|reflexivity].
Qed.

Lemma generate_greeting_decorated (n : Z) w text w1 set :
  Agents._get_completion E self prompt w = (Ok text, w1) ->
  0 < n -> Agents.EMOJI_SETS !! tone = Some set ->
  exists emojis w2,
    Agents.generate_greeting E self recipient tone include_hadith
      include_urdu n sender w
    = (Ok (emoji_frame emojis text), w2)
    /\ Z.of_nat (length emojis) = Z.min n (Z.of_nat (length set))
    /\ NoDup emojis
    /\ (forall e, e ∈ emojis -> e ∈ set)
    /\ has_newline (join " " emojis) = false.
Proof.
  intros Hrun Hn Hset.
  destruct (EMOJI_SETS_tones tone (EMOJI_SETS_lookup _ _ Hset))
    as (set' & Hset' & Hlen & Hnd & Hnl).
  rewrite Hset in Hset'. injection Hset' as <-.
  unfold Agents.generate_greeting, bind. fold prompt. rewrite Hrun.
  replace (0 <? n) with true by (symmetry; by apply Z.ltb_lt).
  rewrite Hset. unfold random_draws, lift.
  match goal with
  | |- context [sample ?rnd set ?k] =>
      destruct (sample_spec rnd set k) as (emojis & -> & Hk & Hnd' & Hsub);
        [rewrite Hlen; lia | exact Hnd |]
  end.
  exists emojis. eexists. split; [reflexivity|].
  split; [exact Hk|]. split; [exact Hnd'|]. split; [exact Hsub|].
  apply join_space_one_line. apply Forall_forall. intros e He.
  rewrite Forall_forall in Hnl. apply Hnl. by apply Hsub.
Qed.

End Greeting.

(** C5. For each of the four tones and every requested count [0 < n],
    [generate_greeting] returns the generated text with one line before and
    one line after it; the line holds [min(n, size of the tone's set)]
    emojis of the tone's set, without duplicates, separated by spaces.  For
    [n = 0], or a tone without a set, the generated text is returned as it
    is. *)
Theorem generate_greeting_emoji_lines :
  forall E self recipient tone include_hadith include_urdu (n : Z) sender w,
  exists text w1,
    Agents._get_completion E self
      (Agents.greeting_prompt recipient tone include_hadith include_urdu sender)
      w = (Ok text, w1)
    /\ (0 < n -> tone ∈ ["funny"; "emotional"; "religious"; "formal"] ->
        exists set emojis w2,
          Agents.EMOJI_SETS !! tone = Some set
          /\ Agents.generate_greeting E self recipient tone include_hadith
               include_urdu n sender w
             = (Ok (join " " emojis +:+ nl +:+ text +:+ nl +:+ join " " emojis),
                w2)
          /\ Z.of_nat (length emojis) = Z.min n (Z.of_nat (length set))
          /\ NoDup emojis
          /\ (forall e, e ∈ emojis -> e ∈ set)
          /\ has_newline (join " " emojis) = false)
    /\ (n = 0 \/ Agents.EMOJI_SETS !! tone = None ->
        Agents.generate_greeting E self recipient tone include_hadith
          include_urdu n sender w = (Ok text, w1)).
Proof.
  intros E self recipient tone include_hadith include_urdu n sender w.
  destruct (get_completion_total E self
              (Agents.greeting_prompt recipient tone include_hadith
                 include_urdu sender) w) as (text & w1 & Hrun).
  exists text, w1. split; [exact Hrun|]. split.
  - intros Hn Htone.
    destruct (EMOJI_SETS_tones tone Htone) as (set & Hset & _).
    destruct (generate_greeting_decorated E self recipient tone sender
                include_hadith include_urdu n w text w1 set Hrun Hn Hset)
      as (emojis & w2 & Hres).
    exists set, emojis, w2. split; [exact Hset|]. exact Hres.
  - intros Hcase.
    apply generate_greeting_plain; [exact Hrun|].
    destruct Hcase as [-> | Hnone]; [left; lia | by right].
Qed.

Lemma generate_greeting_emoji_lines_witness :
  (exists text set emojis w2,
     Agents.EMOJI_SETS !! "funny" = Some set
     /\ Agents.generate_greeting Scenarios.configured
          (Agents.EidAgent_init "secret") "Ali" "funny" false false 3 "Sara"
          world0
        = (Ok (join " " emojis +:+ nl +:+ text +:+ nl +:+ join " " emojis), w2)
     /\ Z.of_nat (length emojis) = Z.min 3 (Z.of_nat (length set))
     /\ NoDup emojis)
  /\ (exists text w1,
        Agents.generate_greeting Scenarios.configured
          (Agents.EidAgent_init "secret") "Ali" "funny" false false 0 "Sara"
          world0 = (Ok text, w1)).
Proof.
  split.
  - destruct (generate_greeting_emoji_lines Scenarios.configured
                (Agents.EidAgent_init "secret") "Ali" "funny" false false 3
                "Sara" world0) as (text & w1 & _ & Hdecorated & _).
    destruct Hdecorated as (set & emojis & w2 & Hset & Hres & Hlen & Hnd & _);
      [lia | left |].
    exists text, set, emojis, w2. tauto.
  - destruct (generate_greeting_emoji_lines Scenarios.configured
                (Agents.EidAgent_init "secret") "Ali" "funny" false false 0
                "Sara" world0) as (text & w1 & _ & _ & Hplain).
    exists text, w1. apply Hplain. by left.
Defined.

Lemma get_completion_failure E self prompt w :
  remote_call_fails E (log w) prompt ->
  exists w1, Agents._get_completion E self prompt w
             = (Ok Agents.DEFAULT_MESSAGE, w1).
Proof.
  unfold remote_call_fails, Agents._get_completion, try_except, bind, call,
    emit, raise, ret.
  destruct (completion E (log w) _) as [[|[content|] choices]|e]; simpl;
    intros Hfail; try contradiction; eauto.
Qed.

(** C4, as the code has it. When the remote call fails (it raises, or its
    response is malformed), [_get_completion] catches the exception and
    returns [DEFAULT_MESSAGE]; no exception reaches the caller of the
    composer.  [generate_greeting] returns [DEFAULT_MESSAGE] itself when no
    emojis are requested or the tone has no emoji set, and otherwise
    [DEFAULT_MESSAGE] between two emoji lines; so does
    [generate_eid_message], which requests 2 emojis when [include_emojis]
    is set and none otherwise. *)
Theorem remote_failure_falls_back_to_default :
  forall E self recipient tone include_hadith include_urdu (n : Z) sender w,
    remote_call_fails E (log w)
      (Agents.greeting_prompt recipient tone include_hadith include_urdu
         sender) ->
    (exists w1,
       Agents._get_completion E self
         (Agents.greeting_prompt recipient tone include_hadith include_urdu
            sender) w
       = (Ok Agents.DEFAULT_MESSAGE, w1))
    /\ (exists s w2,
          Agents.generate_greeting E self recipient tone include_hadith
            include_urdu n sender w = (Ok s, w2)
          /\ (n <= 0 \/ Agents.EMOJI_SETS !! tone = None ->
              s = Agents.DEFAULT_MESSAGE)
          /\ (0 < n -> forall set, Agents.EMOJI_SETS !! tone = Some set ->
              exists emojis,
                s = emoji_frame emojis Agents.DEFAULT_MESSAGE
                /\ Z.of_nat (length emojis) = Z.min n (Z.of_nat (length set))
                /\ (forall e, e ∈ emojis -> e ∈ set)))
    /\ (truthy (getenv E "OPENROUTER_API_KEY") = true ->
        self = Agents.EidAgent_init (default "" (getenv E "OPENROUTER_API_KEY")) ->
        forall include_emojis,
        exists s w2,
          Agents.generate_eid_message E recipient tone sender include_hadith
            include_urdu include_emojis w = (Ok s, w2)
          /\ (include_emojis = false \/ Agents.EMOJI_SETS !! tone = None ->
              s = Agents.DEFAULT_MESSAGE)
          /\ (include_emojis = true ->
              forall set, Agents.EMOJI_SETS !! tone = Some set ->
              exists emojis,
                s = emoji_frame emojis Agents.DEFAULT_MESSAGE
                /\ length emojis = 2%nat
                /\ (forall e, e ∈ emojis -> e ∈ set))).
Proof.
  intros E self recipient tone include_hadith include_urdu n sender w Hfail.
  destruct (get_completion_failure E self _ w Hfail) as (w1 & Hrun).
  assert (Hgreet : forall self' m,
    self' = self ->
    exists s w2,
      Agents.generate_greeting E self' recipient tone include_hadith
        include_urdu m sender w = (Ok s, w2)
      /\ (m <= 0 \/ Agents.EMOJI_SETS !! tone = None ->
          s = Agents.DEFAULT_MESSAGE)
      /\ (0 < m -> forall set, Agents.EMOJI_SETS !! tone = Some set ->
          exists emojis,
            s = emoji_frame emojis Agents.DEFAULT_MESSAGE
            /\ Z.of_nat (length emojis) = Z.min m (Z.of_nat (length set))
            /\ (forall e, e ∈ emojis -> e ∈ set))).
  { intros self' m ->.
    destruct (decide (0 < m)) as [Hm | Hm];
      [destruct (Agents.EMOJI_SETS !! tone) as [set|] eqn:Hset|].
    - destruct (generate_greeting_decorated E self recipient tone sender
                  include_hadith include_urdu m w _ w1 set Hrun Hm Hset)
        as (emojis & w2 & Hres & Hlen & _ & Hsub & _).
      eexists _, w2. split; [exact Hres|]. split.
      + intros [Hle | Hnone]; [lia | discriminate Hnone].
      + intros _ set' [= <-]. exists emojis. auto.
    - eexists _, w1. split.
      + apply generate_greeting_plain; [exact Hrun | by right].
      + split; [reflexivity|]. intros _ set [=].
    - eexists _, w1. split.
      + apply generate_greeting_plain; [exact Hrun | left; lia].
      + split; [reflexivity|]. intros Hpos. lia. }
  split; [by exists w1|]. split; [by apply Hgreet|].
  intros Hkey Hself include_emojis.
  unfold Agents.generate_eid_message, Agents.craft_message.
  rewrite Hkey. cbn [negb default Agents.pref_include_hadith
    Agents.pref_include_urdu Agents.pref_include_emojis
    Agents.pref_emoji_count Agents.pref_sender].
  destruct (Hgreet (Agents.EidAgent_init
                      (default "" (getenv E "OPENROUTER_API_KEY")))
                   (if include_emojis then if include_emojis then 2 else 0
                    else 0) (eq_sym Hself))
    as (s & w2 & Hres & Hplain & Hframe).
  exists s, w2. split; [exact Hres|]. split.
  - intros [-> | Hnone]; apply Hplain; [left; lia | by right].
  - intros -> set Hset.
    destruct (Hframe ltac:(lia) set Hset) as (emojis & Hs & Hlen & Hsub).
    exists emojis. split; [exact Hs|]. split; [|exact Hsub].
    destruct (EMOJI_SETS_tones tone (EMOJI_SETS_lookup _ _ Hset))
      as (set' & Hset' & Hlen' & _).
    rewrite Hset in Hset'. injection Hset' as <-. lia.
Qed.

Lemma remote_failure_falls_back_to_default_witness :
  remote_call_fails Scenarios.configured (log world0)
    (Agents.greeting_prompt "Ali" "formal" false false "Sara")
  /\ (exists w1,
        Agents._get_completion Scenarios.configured
          (Agents.EidAgent_init "secret")
          (Agents.greeting_prompt "Ali" "formal" false false "Sara") world0
        = (Ok Agents.DEFAULT_MESSAGE, w1))
  /\ (exists w2,
        Agents.generate_eid_message Scenarios.configured "Ali" "formal" "Sara"
          false false false world0 = (Ok Agents.DEFAULT_MESSAGE, w2)).
Proof.
  split; [exact I|].
  destruct (remote_failure_falls_back_to_default Scenarios.configured
              (Agents.EidAgent_init "secret") "Ali" "formal" false false 2
              "Sara" world0 I) as (Hcompletion & _ & Hmessage).
  split; [exact Hcompletion|].
  destruct (Hmessage eq_refl eq_refl false) as (s & w2 & Hrun & Hplain & _).
  exists w2. rewrite Hrun, Hplain; [reflexivity | by left].
Defined.

(** C4 as stated fails: the credential is configured, the remote call
    raises, emojis are requested (the default), and the caller of the
    composer receives [DEFAULT_MESSAGE] between two emoji lines, not
    [DEFAULT_MESSAGE]. *)
Lemma remote_failure_result_is_decorated :
  remote_call_fails Scenarios.configured (log world0)
    (Agents.greeting_prompt "Ali" "formal" false false "Sara")
  /\ (Agents.generate_eid_message Scenarios.configured "Ali" "formal" "Sara"
        false false true world0).1
     = Ok (emoji_frame ["🌺"; "🎀"] Agents.DEFAULT_MESSAGE)
  /\ (Agents.generate_eid_message Scenarios.configured "Ali" "formal" "Sara"
        false false true world0).1
     <> Ok Agents.DEFAULT_MESSAGE.
Proof.
  split; [exact I|]. split; [vm_compute; reflexivity|].
  vm_compute. discriminate.
Qed.

(* ===================================================================== *)
(** * Background resolver                                                  *)
(* ===================================================================== *)

Lemma choice_elem {A} (r : nat) (l : list A) :
  l <> [] -> exists x, choice r l = Ok x /\ x ∈ l.
Proof.
  intros Hne. unfold choice.
  destruct (lookup_lt_is_Some_2 l (r mod length l)) as [x Hx].
  { apply Nat.mod_upper_bound. destruct l; [done | simpl; lia]. }
  rewrite Hx. exists x. split; [reflexivity|].
  by apply list_elem_of_lookup_2 in Hx.
Qed.

Lemma extend_extend w evs1 n1 evs2 n2 :
  extend (extend w evs1 n1) evs2 n2 = extend w (evs1 ++ evs2) (n1 + n2).
Proof. unfold extend. simpl. by rewrite app_assoc, Nat.add_assoc. Qed.

Section Resolver.
Variable E : env.
Variable headers : list (string * string).

Lemma search_run term w :
  ImageUtils.search E headers term w
  = (search_answer E headers (log w) term,
     extend w [search_event headers term] 0).
Proof.
  unfold ImageUtils.search, search_answer, bind, call, extend, search_event.
  rewrite Nat.add_0_r.
  destruct (requests_get E (log w) _ _ _) as [response|e]; [|reflexivity].
  destruct (status_error response); reflexivity.
Qed.

Lemma choose_url_run l w :
  ImageUtils.choose_url E l w
  = (chosen_url (random_raw E (draws w)) l, extend w [] 1).
Proof.
  unfold ImageUtils.choose_url, chosen_url, bind, random_draws, lift, extend.
  rewrite Nat.add_0_r, app_nil_r.
  destruct (choice _ l) as [p|e]; [|reflexivity].
  simpl. destruct (ImageUtils.large2x p); reflexivity.
Qed.

(** One step of the scan. *)
Lemma scan_cons strict term rest w :
  scan E headers ((strict, term) :: rest) w
  = match search_answer E headers (log w) term with
    | Raise e => (Raise e, extend w [search_event headers term] 0)
    | Ok d =>
        if usable strict d then
          (found (chosen_url (random_raw E (draws w)) (candidates strict d)),
           extend w [search_event headers term] 1)
        else scan E headers rest (extend w [search_event headers term] 0)
    end.
Proof.
  cbn [scan]. unfold bind at 1. rewrite search_run.
  destruct (search_answer E headers (log w) term) as [d|e]; [|reflexivity].
  destruct (usable strict d); [|reflexivity].
  unfold bind. rewrite choose_url_run, extend_extend. unfold found.
  cbn [extend draws app Nat.add]. rewrite Nat.add_0_r.
  destruct (chosen_url _ _); reflexivity.
Qed.

(** The loops of the source are scans. *)
Lemma primary_loop_scan terms w :
  ImageUtils.primary_loop E headers terms w
  = scan E headers (map (pair true) terms) w.
Proof.
  revert w. induction terms as [|term rest IH]; intros w; [reflexivity|].
  cbn [map]. rewrite scan_cons. cbn [ImageUtils.primary_loop].
  unfold bind at 1. rewrite search_run.
  destruct (search_answer E headers (log w) term) as [d|e]; [|reflexivity].
  unfold usable, candidates.
  destruct (0 <? default 0 (total_results d)); simpl; [|apply IH].
  destruct (default [] (photos d)) as [|p ps] eqn:Hps; [apply IH|].
  destruct (filter ImageUtils.quality (p :: ps)) as [|q qs] eqn:Hq;
    [apply IH|].
  simpl. unfold bind. rewrite choose_url_run, extend_extend. unfold found.
  cbn [extend draws app Nat.add]. rewrite Nat.add_0_r.
  destruct (chosen_url _ _); reflexivity.
Qed.

Lemma fallback_terms_loop_scan terms w :
  ImageUtils.fallback_terms_loop E headers terms w
  = scan E headers (map (pair false) terms) w.
Proof.
  revert w. induction terms as [|term rest IH]; intros w; [reflexivity|].
  cbn [map]. rewrite scan_cons. cbn [ImageUtils.fallback_terms_loop].
  unfold bind at 1. rewrite search_run.
  destruct (search_answer E headers (log w) term) as [d|e]; [|reflexivity].
  unfold usable, candidates.
  destruct (0 <? default 0 (total_results d)); simpl; [|apply IH].
  destruct (default [] (photos d)) as [|p ps] eqn:Hps; [apply IH|].
  simpl. unfold bind. rewrite choose_url_run, extend_extend. unfold found.
  cbn [extend draws app Nat.add]. rewrite Nat.add_0_r.
  destruct (chosen_url _ _); reflexivity.
Qed.

(** A scan of two plans in a row. *)
Lemma scan_app plan1 plan2 w :
  scan E headers (plan1 ++ plan2) w
  = match scan E headers plan1 w with
    | (Ok None, w') => scan E headers plan2 w'
    | other => other
    end.
Proof.
  revert w. induction plan1 as [|[strict term] rest IH]; intros w;
    [reflexivity|].
  rewrite <- app_comm_cons, !scan_cons.
  destruct (search_answer E headers (log w) term) as [d|e]; [|reflexivity].
  destruct (usable strict d); [|apply IH].
  unfold found. destruct (chosen_url _ _); reflexivity.
Qed.

Lemma fallback_loop_scan w :
  ImageUtils.fallback_loop E headers ImageUtils.fallback_categories w
  = scan E headers (map (pair false) fallback_terms) w.
Proof.
  unfold fallback_terms, ImageUtils.fallback_categories.
  cbn [map concat]. rewrite app_nil_r, !map_app, !scan_app.
  cbn [ImageUtils.fallback_loop].
  change (ImageUtils.SEARCH_TERMS !! "Islamic Patterns")
    with (Some (ImageUtils.SEARCH_TERMS !!! "Islamic Patterns")).
  change (ImageUtils.SEARCH_TERMS !! "Geometric Patterns")
    with (Some (ImageUtils.SEARCH_TERMS !!! "Geometric Patterns")).
  change (ImageUtils.SEARCH_TERMS !! "Nature & Flowers")
    with (Some (ImageUtils.SEARCH_TERMS !!! "Nature & Flowers")).
  set (t1 := ImageUtils.SEARCH_TERMS !!! "Islamic Patterns").
  set (t2 := ImageUtils.SEARCH_TERMS !!! "Geometric Patterns").
  set (t3 := ImageUtils.SEARCH_TERMS !!! "Nature & Flowers").
  cbv beta iota. unfold bind. rewrite !fallback_terms_loop_scan.
  destruct (scan E headers (map (pair false) t1) w)
    as [[[url1|]|e1] w1]; try reflexivity.
  rewrite ?scan_app, ?fallback_terms_loop_scan.
  destruct (scan E headers (map (pair false) t2) w1)
    as [[[url2|]|e2] w2]; try reflexivity.
  rewrite ?scan_app, ?fallback_terms_loop_scan.
  destruct (scan E headers (map (pair false) t3) w2)
    as [[[url3|]|e3] w3]; reflexivity.
Qed.

(** ** What a scan does *)

Lemma all_unusable_nil h n : all_unusable E headers h [] n.
Proof. intros j strict term _ Hj. by rewrite lookup_nil in Hj. Qed.

Lemma log_before_cons h strict term rest j :
  log_before headers h ((strict, term) :: rest) (S j)
  = log_before headers (h ++ [search_event headers term]) rest j.
Proof. unfold log_before. simpl. by rewrite <- app_assoc. Qed.

Lemma all_unusable_cons h strict term rest n :
  all_unusable E headers h ((strict, term) :: rest) (S n)
  <-> (exists d, search_answer E headers h term = Ok d
                 /\ usable strict d = false)
      /\ all_unusable E headers (h ++ [search_event headers term]) rest n.
Proof.
  split.
  - intros Hall. split.
    + destruct (Hall 0%nat strict term) as (d & Hd & Hu);
        [lia | reflexivity |].
      unfold log_before in Hd. simpl in Hd. rewrite app_nil_r in Hd. eauto.
    + intros j s t Hj Hlook.
      destruct (Hall (S j) s t) as (d & Hd & Hu); [lia | exact Hlook |].
      rewrite log_before_cons in Hd. eauto.
  - intros [(d & Hd & Hu) Hrest] [|j] s t Hj Hlook.
    + simpl in Hlook. injection Hlook as <- <-.
      exists d. unfold log_before. simpl. rewrite app_nil_r. auto.
    + rewrite log_before_cons. apply Hrest; [lia | exact Hlook].
Qed.

(** Every search answers and yields nothing: the scan ends with [None]
    after all requests. *)
Lemma scan_exhausted plan w :
  all_unusable E headers (log w) plan (length plan) ->
  scan E headers plan w
  = (Ok None, extend w (map (search_event headers) plan.*2) 0).
Proof.
  revert w. induction plan as [|[strict term] rest IH]; intros w Hall.
  - unfold extend. simpl. rewrite app_nil_r, Nat.add_0_r. by destruct w.
  - apply all_unusable_cons in Hall as [(d & Hd & Hu) Hrest].
    rewrite scan_cons, Hd, Hu.
    rewrite (IH (extend w [search_event headers term] 0) Hrest).
    by rewrite extend_extend.
Qed.

(** Search [i] raises after the earlier ones yielded nothing: the scan
    raises the same exception. *)
Lemma scan_raises plan w i strict term e :
  plan !! i = Some (strict, term) ->
  all_unusable E headers (log w) plan i ->
  search_answer E headers (log_before headers (log w) plan i) term = Raise e ->
  scan E headers plan w
  = (Raise e, extend w (map (search_event headers) (take (S i) plan).*2) 0).
Proof.
  revert w i. induction plan as [|[s t] rest IH]; intros w i Hlook Hall Hans;
    [by rewrite lookup_nil in Hlook|].
  rewrite scan_cons. destruct i as [|i].
  - simpl in Hlook. injection Hlook as -> ->.
    unfold log_before in Hans. simpl in Hans. rewrite app_nil_r in Hans.
    rewrite Hans. reflexivity.
  - apply all_unusable_cons in Hall as [(d & Hd & Hu) Hrest].
    rewrite log_before_cons in Hans. rewrite Hd, Hu.
    rewrite (IH (extend w [search_event headers t] 0) i Hlook Hrest Hans).
    by rewrite extend_extend.
Qed.

(** Search [i] is the first to yield a usable photo: the scan returns the
    URL chosen among its candidates. *)
Lemma scan_found plan w i strict term d :
  plan !! i = Some (strict, term) ->
  all_unusable E headers (log w) plan i ->
  search_answer E headers (log_before headers (log w) plan i) term = Ok d ->
  usable strict d = true ->
  scan E headers plan w
  = (found (chosen_url (random_raw E (draws w)) (candidates strict d)),
     extend w (map (search_event headers) (take (S i) plan).*2) 1).
Proof.
  revert w i. induction plan as [|[s t] rest IH];
    intros w i Hlook Hall Hans Hu;
    [by rewrite lookup_nil in Hlook|].
  rewrite scan_cons. destruct i as [|i].
  - simpl in Hlook. injection Hlook as -> ->.
    unfold log_before in Hans. simpl in Hans. rewrite app_nil_r in Hans.
    rewrite Hans, Hu. reflexivity.
  - apply all_unusable_cons in Hall as [(d' & Hd' & Hu') Hrest].
    rewrite log_before_cons in Hans. rewrite Hd', Hu'.
    rewrite (IH (extend w [search_event headers t] 0) i Hlook Hrest Hans Hu).
    rewrite extend_extend. cbn [draws extend]. by rewrite Nat.add_0_r.
Qed.

(** One of the three happens. *)
Lemma scan_trichotomy plan h :
  all_unusable E headers h plan (length plan)
  \/ (exists i strict term e,
        plan !! i = Some (strict, term)
        /\ all_unusable E headers h plan i
        /\ search_answer E headers (log_before headers h plan i) term
           = Raise e)
  \/ (exists i strict term d,
        plan !! i = Some (strict, term)
        /\ all_unusable E headers h plan i
        /\ search_answer E headers (log_before headers h plan i) term = Ok d
        /\ usable strict d = true).
Proof.
  revert h. induction plan as [|[s t] rest IH]; intros h.
  { left. apply all_unusable_nil. }
  assert (Hzero : all_unusable E headers h ((s, t) :: rest) 0)
    by (intros j ? ? Hj; lia).
  assert (Hlog : log_before headers h ((s, t) :: rest) 0 = h)
    by (unfold log_before; simpl; by rewrite app_nil_r).
  destruct (search_answer E headers h t) as [d|e] eqn:Hans.
  2:{ right. left. exists 0%nat, s, t, e. by rewrite Hlog. }
  destruct (usable s d) eqn:Hu.
  { right. right. exists 0%nat, s, t, d. by rewrite Hlog. }
  assert (Hhead : exists d, search_answer E headers h t = Ok d
                            /\ usable s d = false) by eauto.
  destruct (IH (h ++ [search_event headers t])%list)
    as [Hall | [(i & s' & t' & e & Hlook & Hall & Hi)
               | (i & s' & t' & d' & Hlook & Hall & Hi & Hu')]].
  - left. simpl. by apply all_unusable_cons.
  - right. left. exists (S i), s', t', e. split; [exact Hlook|].
    split; [by apply all_unusable_cons|]. by rewrite log_before_cons.
  - right. right. exists (S i), s', t', d'. split; [exact Hlook|].
    split; [by apply all_unusable_cons|]. by rewrite log_before_cons.
Qed.

End Resolver.

Section ResolverResult.
Variable E : env.
Variable category : string.

Let plan : list (bool * string) := search_plan category.

Lemma get_pexels_image_body_scan w :
  truthy (getenv E "PEXELS_API_KEY") = true ->
  ImageUtils.get_pexels_image_body E category w
  = match scan E (auth_headers E) plan w with
    | (Ok None, w') =>
        (Ok None,
         extend w'
           [EvLogWarning "No images found on Pexels for any search terms"] 0)
    | other => other
    end.
Proof.
  intros Hkey. unfold ImageUtils.get_pexels_image_body. rewrite Hkey.
  cbn [negb]. fold (auth_headers E). fold (primary_terms category).
  unfold bind at 1. rewrite primary_loop_scan.
  unfold plan, search_plan. rewrite scan_app.
  destruct (scan E (auth_headers E) (map (pair true) _) w)
    as [[[url|]|e] w1]; try reflexivity.
  unfold bind at 1. rewrite fallback_loop_scan.
  destruct (scan E (auth_headers E) (map (pair false) _) w1)
    as [[[url|]|e] w2]; try reflexivity.
  unfold bind, emit, ret, extend. by rewrite Nat.add_0_r.
Qed.

Lemma get_pexels_image_scan w :
  truthy (getenv E "PEXELS_API_KEY") = true ->
  ImageUtils.get_pexels_image E category w
  = match scan E (auth_headers E) plan w with
    | (Ok (Some url), w') => (Ok (Some url), w')
    | (Ok None, w') =>
        (Ok None,
         extend w'
           [EvLogWarning "No images found on Pexels for any search terms"] 0)
    | (Raise e, w') =>
        (Ok None,
         extend w'
           [EvLogError ("Error fetching image from Pexels: " +:+ exn_str e)]
           0)
    end.
Proof.
  intros Hkey. unfold ImageUtils.get_pexels_image, try_except.
  rewrite get_pexels_image_body_scan by exact Hkey.
  destruct (scan E (auth_headers E) plan w) as [[[url|]|e] w1];
    try reflexivity.
  unfold bind, emit, ret, extend. by rewrite Nat.add_0_r.
Qed.

Lemma get_pexels_image_no_key w :
  truthy (getenv E "PEXELS_API_KEY") = false ->
  ImageUtils.get_pexels_image E category w
  = (Ok None,
     extend w
       [EvLogError "PEXELS_API_KEY not found in environment variables"] 0).
Proof.
  intros Hkey.
  unfold ImageUtils.get_pexels_image, ImageUtils.get_pexels_image_body,
    try_except.
  rewrite Hkey. unfold bind, emit, ret, extend. by rewrite Nat.add_0_r.
Qed.

End ResolverResult.

(** C7. The resolver never raises.  Without a credential it logs the error
    "PEXELS_API_KEY not found in environment variables" and returns [None]
    at once, without a request; this differs from the no-results outcome,
    which comes after every search of the plan and logs the warning "No
    images found on Pexels for any search terms".  An exception raised by a
    search is caught: it is logged as an error and turned into [None]. *)
Theorem resolver_reports_failures :
  forall E category w,
    let headers := auth_headers E in
    let plan := search_plan category in
    (exists r w', ImageUtils.get_pexels_image E category w = (Ok r, w'))
    /\ (truthy (getenv E "PEXELS_API_KEY") = false ->
        ImageUtils.get_pexels_image E category w
        = (Ok None,
           extend w
             [EvLogError "PEXELS_API_KEY not found in environment variables"]
             0))
    /\ (truthy (getenv E "PEXELS_API_KEY") = true ->
        all_unusable E headers (log w) plan (length plan) ->
        ImageUtils.get_pexels_image E category w
        = (Ok None,
           extend w
             (map (search_event headers) plan.*2
              ++ [EvLogWarning
                    "No images found on Pexels for any search terms"])
             0))
    /\ (truthy (getenv E "PEXELS_API_KEY") = true ->
        forall i strict term e,
          plan !! i = Some (strict, term) ->
          all_unusable E headers (log w) plan i ->
          search_answer E headers (log_before headers (log w) plan i) term
            = Raise e ->
          ImageUtils.get_pexels_image E category w
          = (Ok None,
             extend w
               (map (search_event headers) (take (S i) plan).*2
                ++ [EvLogError
                      ("Error fetching image from Pexels: " +:+ exn_str e)])
               0)).
Proof.
  intros E category w headers plan. subst headers plan.
  split; [|split; [|split]].
  - destruct (truthy (getenv E "PEXELS_API_KEY")) eqn:Hkey.
    + rewrite get_pexels_image_scan by exact Hkey.
      destruct (scan _ _ _ w) as [[[url|]|e] w1]; eauto.
    + rewrite get_pexels_image_no_key by exact Hkey. eauto.
  - apply get_pexels_image_no_key.
  - intros Hkey Hall. rewrite get_pexels_image_scan by exact Hkey.
    rewrite (scan_exhausted E _ _ w Hall).
    by rewrite extend_extend.
  - intros Hkey i strict term e Hlook Hall Hans.
    rewrite get_pexels_image_scan by exact Hkey.
    rewrite (scan_raises E _ _ w i strict term e Hlook Hall Hans).
    by rewrite extend_extend.
Qed.

Lemma resolver_reports_failures_witness :
  (truthy (getenv Scenarios.offline "PEXELS_API_KEY") = false
   /\ ImageUtils.get_pexels_image Scenarios.offline "Mosque Architecture"
        world0
      = (Ok None,
         extend world0
           [EvLogError "PEXELS_API_KEY not found in environment variables"]
           0))
  /\ (ImageUtils.get_pexels_image (stocked []) "Mosque Architecture" world0).1
     = Ok None
  /\ (ImageUtils.get_pexels_image Scenarios.configured "Mosque Architecture"
        world0).1
     = Ok None.
Proof.
  split; [|split].
  - split; [reflexivity|].
    apply (resolver_reports_failures Scenarios.offline "Mosque Architecture"
             world0).
    reflexivity.
  - destruct (resolver_reports_failures (stocked []) "Mosque Architecture"
                world0) as (_ & _ & Hnone & _).
    rewrite Hnone; [reflexivity | reflexivity |].
    intros j strict term _ _. eexists. split; [reflexivity|].
    by destruct strict.
  - destruct (resolver_reports_failures Scenarios.configured
                "Mosque Architecture" world0) as (_ & _ & _ & Hraise).
    rewrite (Hraise eq_refl 0%nat true "grand mosque"
               (Exn RequestException "timed out"));
      [reflexivity | reflexivity | | reflexivity].
    intros j strict term Hj. lia.
Defined.

Lemma candidates_photos strict d p :
  p ∈ candidates strict d ->
  p ∈ default [] (photos d) /\ (strict = true -> ImageUtils.quality p).
Proof.
  unfold candidates. destruct strict.
  - intros [Hq Hin]%list_elem_of_filter. auto.
  - intros Hin. split; [exact Hin | discriminate].
Qed.

Lemma search_plan_strict category i strict term :
  search_plan category !! i = Some (strict, term) ->
  (strict = true <-> (i < length (primary_terms category))%nat).
Proof.
  unfold search_plan. intros Hlook.
  destruct (decide (i < length (primary_terms category))%nat) as [Hlt | Hge].
  - rewrite lookup_app_l in Hlook by (by rewrite length_map).
    apply list_lookup_fmap_Some in Hlook as (t & Heq & _).
    injection Heq as -> _. split; [intros _; exact Hlt | reflexivity].
  - rewrite lookup_app_r in Hlook by (rewrite length_map; lia).
    apply list_lookup_fmap_Some in Hlook as (t & Heq & _).
    injection Heq as -> _. split; [discriminate | contradiction].
Qed.

(** C2, as the code has it.  Without the credential the resolver returns
    [None] and makes no request.  With it, the searches of the plan are
    issued in order until one raises or yields a usable photo.  A returned
    URL is the "large2x" URL of the photo chosen among the candidates of
    the first search that reports results and has a candidate, and no
    search is issued after that one; while the keywords of the category
    are searched, a candidate is a photo of width >= 1200 and height >=
    800; only in the searches of the fallback categories, which come after
    them in the fixed order, is every photo a candidate.  [None] is
    returned exactly when no search of the plan yields a usable photo, or
    a search that is issued raises, or the photo chosen has no "large2x"
    URL; in the first case every search was issued and the warning is
    logged, in the other two the searches stop there and the error is
    logged. *)
Theorem resolver_result :
  forall E category w,
    let headers := auth_headers E in
    let plan := search_plan category in
    let answer := fun i term =>
      search_answer E headers (log_before headers (log w) plan i) term in
    let chosen := fun strict d =>
      choice (random_raw E (draws w)) (candidates strict d) in
    let searches := fun n => map (search_event headers) (take n plan).*2 in
    (truthy (getenv E "PEXELS_API_KEY") = false ->
     ImageUtils.get_pexels_image E category w
     = (Ok None,
        extend w
          [EvLogError "PEXELS_API_KEY not found in environment variables"]
          0))
    /\ (truthy (getenv E "PEXELS_API_KEY") = true ->
        exists r w',
          ImageUtils.get_pexels_image E category w = (Ok r, w')
          /\ (forall url, r = Some url ->
              exists i strict term d p,
                plan !! i = Some (strict, term)
                /\ all_unusable E headers (log w) plan i
                /\ answer i term = Ok d
                /\ 0 < default 0 (total_results d)
                /\ chosen strict d = Ok p
                /\ p ∈ default [] (photos d)
                /\ src p !! "large2x" = Some url
                /\ (strict = true
                    <-> (i < length (primary_terms category))%nat)
                /\ (strict = true -> 1200 <= width p /\ 800 <= height p)
                /\ w' = extend w (searches (S i)) 1)
          /\ (r = None <->
              all_unusable E headers (log w) plan (length plan)
              \/ (exists i strict term e,
                    plan !! i = Some (strict, term)
                    /\ all_unusable E headers (log w) plan i
                    /\ answer i term = Raise e)
              \/ (exists i strict term d p,
                    plan !! i = Some (strict, term)
                    /\ all_unusable E headers (log w) plan i
                    /\ answer i term = Ok d
                    /\ usable strict d = true
                    /\ chosen strict d = Ok p
                    /\ src p !! "large2x" = None))
          /\ (all_unusable E headers (log w) plan (length plan) ->
              w' = extend w
                     (searches (length plan)
                      ++ [EvLogWarning
                            "No images found on Pexels for any search terms"])
                     0)
          /\ (forall i strict term e,
                plan !! i = Some (strict, term) ->
                all_unusable E headers (log w) plan i ->
                answer i term = Raise e ->
                w' = extend w
                       (searches (S i)
                        ++ [EvLogError
                              ("Error fetching image from Pexels: "
                                 +:+ exn_str e)])
                       0)
          /\ (forall i strict term d p,
                plan !! i = Some (strict, term) ->
                all_unusable E headers (log w) plan i ->
                answer i term = Ok d ->
                usable strict d = true ->
                chosen strict d = Ok p ->
                src p !! "large2x" = None ->
                w' = extend w
                       (searches (S i)
                        ++ [EvLogError
                              "Error fetching image from Pexels: 'large2x'"])
                       1)).
Proof.
  intros E category w headers plan answer chosen searches.
  split; [apply get_pexels_image_no_key|]. intros Hkey.
  pose proof (get_pexels_image_scan E category w Hkey) as Hscan.
  fold headers plan in Hscan.
  assert (Hexhausted : forall r w',
    ImageUtils.get_pexels_image E category w = (Ok r, w') ->
    all_unusable E headers (log w) plan (length plan) ->
    r = None
    /\ w' = extend w
              (searches (length plan)
               ++ [EvLogWarning
                     "No images found on Pexels for any search terms"])
              0).
  { intros r w' Hrun Hall. rewrite Hscan in Hrun.
    rewrite (scan_exhausted E headers plan w Hall), extend_extend in Hrun.
    unfold searches. rewrite firstn_all. cbn [Nat.add] in Hrun.
    by injection Hrun as <- <-. }
  assert (Hraised : forall r w' i strict term e,
    ImageUtils.get_pexels_image E category w = (Ok r, w') ->
    plan !! i = Some (strict, term) ->
    all_unusable E headers (log w) plan i ->
    answer i term = Raise e ->
    r = None
    /\ w' = extend w
              (searches (S i)
               ++ [EvLogError
                     ("Error fetching image from Pexels: " +:+ exn_str e)])
              0).
  { intros r w' i strict term e Hrun Hlook Hall Hans. rewrite Hscan in Hrun.
    rewrite (scan_raises E headers plan w i strict term e Hlook Hall Hans),
      extend_extend in Hrun.
    cbn [Nat.add] in Hrun. by injection Hrun as <- <-. }
  assert (Hunreadable : forall r w' i strict term d p,
    ImageUtils.get_pexels_image E category w = (Ok r, w') ->
    plan !! i = Some (strict, term) ->
    all_unusable E headers (log w) plan i ->
    answer i term = Ok d ->
    usable strict d = true ->
    chosen strict d = Ok p ->
    src p !! "large2x" = None ->
    r = None
    /\ w' = extend w
              (searches (S i)
               ++ [EvLogError "Error fetching image from Pexels: 'large2x'"])
              1).
  { intros r w' i strict term d p Hrun Hlook Hall Hans Hu Hp Hurl.
    rewrite Hscan in Hrun.
    rewrite (scan_found E headers plan w i strict term d Hlook Hall Hans Hu)
      in Hrun.
    unfold found, chosen_url in Hrun. fold (chosen strict d) in Hrun.
    rewrite Hp in Hrun. cbn [rbind] in Hrun.
    unfold ImageUtils.large2x in Hrun. rewrite Hurl in Hrun.
    cbn [rbind] in Hrun. rewrite extend_extend in Hrun.
    cbn [Nat.add exn_str] in Hrun. by injection Hrun as <- <-. }
  assert (Hresult : exists r w',
    ImageUtils.get_pexels_image E category w = (Ok r, w')
    /\ (forall url, r = Some url ->
        exists i strict term d p,
          plan !! i = Some (strict, term)
          /\ all_unusable E headers (log w) plan i
          /\ answer i term = Ok d
          /\ 0 < default 0 (total_results d)
          /\ chosen strict d = Ok p
          /\ p ∈ default [] (photos d)
          /\ src p !! "large2x" = Some url
          /\ (strict = true <-> (i < length (primary_terms category))%nat)
          /\ (strict = true -> 1200 <= width p /\ 800 <= height p)
          /\ w' = extend w (searches (S i)) 1)
    /\ (r = None ->
        all_unusable E headers (log w) plan (length plan)
        \/ (exists i strict term e,
              plan !! i = Some (strict, term)
              /\ all_unusable E headers (log w) plan i
              /\ answer i term = Raise e)
        \/ (exists i strict term d p,
              plan !! i = Some (strict, term)
              /\ all_unusable E headers (log w) plan i
              /\ answer i term = Ok d
              /\ usable strict d = true
              /\ chosen strict d = Ok p
              /\ src p !! "large2x" = None))).
  { destruct (scan_trichotomy E headers plan (log w))
      as [Hall | [(i & strict & term & e & Hlook & Hall & Hans)
                 | (i & strict & term & d & Hlook & Hall & Hans & Hu)]].
    - pose proof Hscan as Hrun.
      rewrite (scan_exhausted E headers plan w Hall) in Hrun.
      eexists _, _. split; [exact Hrun|]. split; [discriminate|].
      intros _. by left.
    - pose proof Hscan as Hrun.
      rewrite (scan_raises E headers plan w i strict term e Hlook Hall Hans)
        in Hrun.
      eexists _, _. split; [exact Hrun|]. split; [discriminate|].
      intros _. right. left. by exists i, strict, term, e.
    - pose proof Hscan as Hrun.
      rewrite (scan_found E headers plan w i strict term d Hlook Hall Hans Hu)
        in Hrun.
      pose proof Hu as Hu'.
      unfold usable in Hu'. apply andb_true_iff in Hu' as [Htotal Hcand].
      apply Z.ltb_lt in Htotal.
      apply negb_true_iff, bool_decide_eq_false in Hcand.
      destruct (choice_elem (random_raw E (draws w)) _ Hcand)
        as (p & Hp & Hin).
      fold (chosen strict d) in Hp.
      apply candidates_photos in Hin as [Hin Hquality].
      unfold found, chosen_url in Hrun. fold (chosen strict d) in Hrun.
      rewrite Hp in Hrun. cbn [rbind] in Hrun.
      unfold ImageUtils.large2x in Hrun.
      destruct (src p !! "large2x") as [url|] eqn:Hurl; cbn [rbind] in Hrun.
      + eexists _, _. split; [exact Hrun|]. split; [|discriminate].
        intros url' [= <-]. exists i, strict, term, d, p.
        do 7 (split; [eassumption|]).
        split; [by apply (search_plan_strict category i strict term)|].
        split; [exact Hquality | reflexivity].
      + eexists _, _. split; [exact Hrun|]. split; [discriminate|].
        intros _. right. right. by exists i, strict, term, d, p. }
  destruct Hresult as (r & w' & Hrun & Hsome & Hnone).
  exists r, w'. split; [exact Hrun|]. split; [exact Hsome|].
  split; [split; [exact Hnone|]|].
  - intros [Hall | [(i & strict & term & e & Hlook & Hall & Hans)
                   | (i & strict & term & d & p & Hlook & Hall & Hans & Hu
                      & Hp & Hurl)]].
    + by destruct (Hexhausted r w' Hrun Hall).
    + by destruct (Hraised r w' i strict term e Hrun Hlook Hall Hans).
    + by destruct (Hunreadable r w' i strict term d p Hrun Hlook Hall Hans
                     Hu Hp Hurl).
  - split; [|split].
    + intros Hall. by destruct (Hexhausted r w' Hrun Hall).
    + intros i strict term e Hlook Hall Hans.
      by destruct (Hraised r w' i strict term e Hrun Hlook Hall Hans).
    + intros i strict term d p Hlook Hall Hans Hu Hp Hurl.
      by destruct (Hunreadable r w' i strict term d p Hrun Hlook Hall Hans
                     Hu Hp Hurl).
Qed.

Lemma resolver_result_witness :
  truthy (getenv (first_only [landscape]) "PEXELS_API_KEY") = true
  /\ exists w',
       ImageUtils.get_pexels_image (first_only [landscape]) "Eid Celebration"
         world0
       = (Ok (Some "https://images.pexels.com/photos/2/large.jpeg"), w')
       /\ requests (log w') = 1%nat.
Proof.
  split; [reflexivity|].
  destruct (resolver_result (first_only [landscape]) "Eid Celebration" world0)
    as [_ Hkey].
  destruct (Hkey eq_refl) as (r & w' & Hrun & Hsome & _).
  assert (Hr : r = Some "https://images.pexels.com/photos/2/large.jpeg").
  { assert (Hfst :
      (ImageUtils.get_pexels_image (first_only [landscape]) "Eid Celebration"
         world0).1
      = Ok (Some "https://images.pexels.com/photos/2/large.jpeg"))
      by (vm_compute; reflexivity).
    rewrite Hrun in Hfst. by injection Hfst. }
  destruct (Hsome _ Hr)
    as (i & strict & term & d & p & Hlook & Hall & _ & _ & _ & _ & _ & _ & _
        & Hw).
  assert (Hi : i = 0%nat).
  { destruct i as [|i]; [reflexivity|]. exfalso.
    destruct (Hall 0%nat true "eid celebration") as (d0 & Hd0 & Hu0);
      [lia | reflexivity |].
    injection Hd0 as <-. discriminate Hu0. }
  subst i r. exists w'. split; [exact Hrun|]. rewrite Hw. reflexivity.
Defined.

(** C2 as stated fails in its last part: [None] is returned although the
    service has a usable photo for every keyword, when no credential is
    configured, and when a request raises before the keywords that would
    have yielded one are tried. *)
Lemma resolver_none_although_photos_exist :
  ((ImageUtils.get_pexels_image (stocked_without_key [landscape])
      "Islamic Patterns" world0).1 = Ok None
   /\ ~ all_unusable (stocked_without_key [landscape])
          (auth_headers (stocked_without_key [landscape])) (log world0)
          (search_plan "Islamic Patterns")
          (length (search_plan "Islamic Patterns")))
  /\ ((ImageUtils.get_pexels_image (flaky [landscape])
         "Islamic Patterns" world0).1 = Ok None
      /\ ~ all_unusable (flaky [landscape])
             (auth_headers (flaky [landscape])) (log world0)
             (search_plan "Islamic Patterns")
             (length (search_plan "Islamic Patterns"))).
Proof.
  split; (split; [vm_compute; reflexivity|]); intros Hall.
  - destruct (Hall 0%nat true "islamic pattern") as (d & Hd & Hu);
      [by apply Nat.ltb_lt | reflexivity |].
    injection Hd as <-. discriminate Hu.
  - destruct (Hall 1%nat true "arabic pattern") as (d & Hd & Hu);
      [by apply Nat.ltb_lt | reflexivity |].
    injection Hd as <-. discriminate Hu.
Qed.

(* ===================================================================== *)
(** * The [get_pexels_image] the UI imports                                *)
(* ===================================================================== *)

Section UiSearch.
Variable E : env.
Variable headers : list (string * string).
Variable query : string.

Lemma request_once_run w :
  Utils.request_once E headers query w
  = match query_answer E headers (log w) query with
    | Raise e => (Raise e, extend w [query_event headers query] 0)
    | Ok d =>
        match default [] (photos d) with
        | [] => (Ok None, extend w [query_event headers query] 0)
        | ps =>
            (found (chosen_url (random_raw E (draws w)) ps),
             extend w [query_event headers query] 1)
        end
    end.
Proof.
  unfold Utils.request_once, query_answer, bind, call, extend, query_event.
  rewrite Nat.add_0_r.
  destruct (requests_get E (log w) _ _ _) as [response|e]; [|reflexivity].
  destruct (status_error response); [reflexivity|].
  unfold lift. destruct (json response) as [d|e]; [|reflexivity].
  destruct (default [] (photos d)) as [|p ps]; [reflexivity|].
  unfold random_draws, found, chosen_url, ret. cbn [log draws objects].
  rewrite Nat.add_0_r.
  destruct (choice _ (p :: ps)) as [p'|e]; [|reflexivity].
  cbn [rbind]. destruct (ImageUtils.large2x p'); reflexivity.
Qed.

Lemma ui_retry_loop_cons max_retries attempt rest w :
  Utils.retry_loop E max_retries headers query (attempt :: rest) w
  = match Utils.request_once E headers query w with
    | (Ok r, w') => (Ok r, w')
    | (Raise e, w') =>
        if is_RequestException e then
          if attempt =? max_retries - 1 then (Raise e, w')
          else Utils.retry_loop E max_retries headers query rest
                 (extend w' [EvSleep 1] 0)
        else (Raise e, w')
    end.
Proof.
  cbn [Utils.retry_loop]. unfold try_except.
  destruct (Utils.request_once E headers query w) as [[r|e] w'];
    [reflexivity|].
  destruct (is_RequestException e); [|reflexivity].
  destruct (attempt =? max_retries - 1); [reflexivity|].
  unfold bind, emit, extend. by rewrite Nat.add_0_r.
Qed.

End UiSearch.

(** Every call of a literal list is the request or a sleep. *)
Ltac calls_ok :=
  repeat (apply Forall_cons; split; [first [by left | by right]|]);
  by apply Forall_nil.

(** The number of requests among a literal list of calls. *)
Ltac count_requests :=
  repeat match goal with x := _ : event |- _ => subst x end;
  unfold requests, query_event; cbn [List.filter is_request length]; lia.

Lemma chosen_url_not_transport r ps e :
  found (chosen_url r ps) = Raise e -> is_RequestException e = false.
Proof.
  unfold found, chosen_url, choice, ImageUtils.large2x.
  destruct (ps !! _) as [p|]; cbn [rbind]; [|by intros [= <-]].
  destruct (src p !! "large2x"); cbn [rbind]; [discriminate|].
  by intros [= <-].
Qed.

Lemma served_passes E w evs d max_retries attempt rest headers query :
  (let (r0, w') := served E w evs d in
   match r0 with
   | Ok r => (Ok r, w')
   | Raise e =>
       if is_RequestException e then
         if attempt =? max_retries - 1 then (Raise e, w')
         else Utils.retry_loop E max_retries headers query rest
                (extend w' [EvSleep 1] 0)
       else (Raise e, w')
   end) = served E w evs d.
Proof.
  unfold served. destruct (default [] (photos d)) as [|p ps]; [reflexivity|].
  destruct (found _) as [r|e] eqn:Hfound; [reflexivity|].
  by rewrite (chosen_url_not_transport _ _ _ Hfound).
Qed.

Section UiSearchRun.
Variable E : env.
Variable query : string.
Variable w : world.

Let headers := auth_headers E.
Let ev := query_event headers query.
Let h0 := log w.
Let h1 := h0 ++ [ev; EvSleep 1].
Let h2 := h1 ++ [ev; EvSleep 1].

Lemma ui_search_run :
  truthy (getenv E "PEXELS_API_KEY") = true ->
  Utils.get_pexels_image E query None 3 w
  = match query_answer E headers h0 query with
    | Ok d => served E w [ev] d
    | Raise e0 =>
        if is_RequestException e0 then
          match query_answer E headers h1 query with
          | Ok d => served E w [ev; EvSleep 1; ev] d
          | Raise e1 =>
              if is_RequestException e1 then
                match query_answer E headers h2 query with
                | Ok d => served E w [ev; EvSleep 1; ev; EvSleep 1; ev] d
                | Raise e2 =>
                    (Raise e2,
                     extend w [ev; EvSleep 1; ev; EvSleep 1; ev] 0)
                end
              else (Raise e1, extend w [ev; EvSleep 1; ev] 0)
          end
        else (Raise e0, extend w [ev] 0)
    end.
Proof.
  intros Hkey. unfold Utils.get_pexels_image, or_else.
  cbn [truthy]. rewrite Hkey. cbn [negb].
  fold (auth_headers E). fold headers.
  change (Utils.range 3) with [0; 1; 2].
  rewrite ui_retry_loop_cons, request_once_run. fold ev h0.
  destruct (query_answer E headers h0 query) as [d0|e0].
  { apply (served_passes E w [ev] d0). }
  destruct (is_RequestException e0); [|reflexivity].
  change (0 =? 3 - 1) with false. cbv iota.
  rewrite ui_retry_loop_cons, request_once_run, !extend_extend. fold ev.
  cbn [log extend app Nat.add draws]. rewrite Nat.add_0_r. fold h0 h1.
  destruct (query_answer E headers h1 query) as [d1|e1].
  { apply (served_passes E w [ev; EvSleep 1; ev] d1). }
  destruct (is_RequestException e1); [|reflexivity].
  change (1 =? 3 - 1) with false. cbv iota.
  rewrite ui_retry_loop_cons, request_once_run, !extend_extend. fold ev.
  cbn [log extend app Nat.add draws]. rewrite Nat.add_0_r.
  replace (log w ++ [ev; EvSleep 1; ev; EvSleep 1]) with h2
    by (unfold h2, h1, h0; by rewrite <- app_assoc).
  destruct (query_answer E headers h2 query) as [d2|e2].
  { apply (served_passes E w [ev; EvSleep 1; ev; EvSleep 1; ev] d2). }
  change (2 =? 3 - 1) with true.
  destruct (is_RequestException e2); reflexivity.
Qed.

Lemma served_none evs d :
  (served E w evs d).1 = Ok None <-> default [] (photos d) = [].
Proof.
  unfold served. destruct (default [] (photos d)) as [|p ps] eqn:Hps.
  - tauto.
  - split; [|discriminate]. unfold found. cbn [fst].
    destruct (chosen_url _ _); discriminate.
Qed.

Lemma served_calls evs d :
  exists r n, served E w evs d = (r, extend w evs n).
Proof. unfold served. destruct (default [] (photos d)); eauto. Qed.

End UiSearchRun.

(** C10. The [get_pexels_image] of the [utils] package, as the UI calls it
    (no [api_key] argument, 3 attempts): without a credential it raises
    [ValueError] before any request; after three transport errors in a row,
    with a one-second sleep between attempts, it raises the third one to
    the caller; a response with photos gives the URL of a photo chosen
    among all of them, whatever their size; every request is the one for
    the given query; and it returns [None] exactly when the attempt that
    ends the loop got a successful response without photos. *)
Theorem ui_get_pexels_image_contract :
  forall E query w,
    let headers := auth_headers E in
    let ev := query_event headers query in
    let h0 := log w in
    let h1 := (h0 ++ [ev; EvSleep 1])%list in
    let h2 := (h1 ++ [ev; EvSleep 1])%list in
    (truthy (getenv E "PEXELS_API_KEY") = false ->
     Utils.get_pexels_image_default E query w = (Raise missing_key_error, w))
    /\ (truthy (getenv E "PEXELS_API_KEY") = true ->
        (forall e0 e1 e2,
           query_answer E headers h0 query = Raise e0 ->
           is_RequestException e0 = true ->
           query_answer E headers h1 query = Raise e1 ->
           is_RequestException e1 = true ->
           query_answer E headers h2 query = Raise e2 ->
           is_RequestException e2 = true ->
           Utils.get_pexels_image_default E query w
           = (Raise e2, extend w [ev; EvSleep 1; ev; EvSleep 1; ev] 0))
        /\ (forall d,
              query_answer E headers h0 query = Ok d ->
              default [] (photos d) <> [] ->
              Utils.get_pexels_image_default E query w
              = (found (chosen_url (random_raw E (draws w))
                          (default [] (photos d))),
                 extend w [ev] 1))
        /\ (exists r evs n,
              Utils.get_pexels_image_default E query w = (r, extend w evs n)
              /\ Forall (fun call => call = ev \/ call = EvSleep 1) evs
              /\ (1 <= requests evs <= 3)%nat)
        /\ ((Utils.get_pexels_image_default E query w).1 = Ok None
            <-> no_photos E headers h0 query
                \/ (transport_error E headers h0 query
                    /\ no_photos E headers h1 query)
                \/ (transport_error E headers h0 query
                    /\ transport_error E headers h1 query
                    /\ no_photos E headers h2 query))).
Proof.
  intros E query w headers ev h0 h1 h2. split.
  { intros Hkey.
    unfold Utils.get_pexels_image_default, Utils.get_pexels_image, or_else.
    cbn [truthy]. by rewrite Hkey. }
  intros Hkey. unfold Utils.get_pexels_image_default.
  rewrite (ui_search_run E query w Hkey).
  fold headers. fold ev. fold h0. fold h1. fold h2.
  assert (Hreq : is_request ev = true) by reflexivity.
  split; [|split; [|split]].
  - intros e0 e1 e2 -> -> -> -> -> _. reflexivity.
  - intros d -> Hps. unfold served.
    by destruct (default [] (photos d)).
  - assert (Hone : forall d evs,
              Forall (fun call => call = ev \/ call = EvSleep 1) evs ->
              (1 <= requests evs <= 3)%nat ->
              exists r evs' n,
                served E w evs d = (r, extend w evs' n)
                /\ Forall (fun call => call = ev \/ call = EvSleep 1) evs'
                /\ (1 <= requests evs' <= 3)%nat).
    { intros d evs Hall Hcount.
      destruct (served_calls E w evs d) as (r & n & ->). eauto 10. }
    destruct (query_answer E headers h0 query) as [d0|e0];
      [apply Hone; [calls_ok | count_requests]|].
    destruct (is_RequestException e0);
      [| eexists _, _, _; split; [reflexivity|]; split;
         [calls_ok | count_requests]].
    destruct (query_answer E headers h1 query) as [d1|e1];
      [apply Hone; [calls_ok | count_requests]|].
    destruct (is_RequestException e1);
      [| eexists _, _, _; split; [reflexivity|]; split;
         [calls_ok | count_requests]].
    destruct (query_answer E headers h2 query) as [d2|e2];
      [apply Hone; [calls_ok | count_requests]|].
    eexists _, _, _; split; [reflexivity|]; split;
      [calls_ok | count_requests].
  - unfold no_photos, transport_error.
    destruct (query_answer E headers h0 query) as [d0|e0].
    { rewrite served_none. split.
      - intros Hps. left. eauto.
      - intros [(d & [= <-] & Hps) | [((e & [=] & _) & _) | ((e & [=] & _) & _)]].
        exact Hps. }
    destruct (is_RequestException e0) eqn:He0.
    2:{ split; [discriminate|].
        intros [(d & [=] & _) | [((e & [= <-] & He) & _) | ((e & [= <-] & He) & _)]];
          congruence. }
    destruct (query_answer E headers h1 query) as [d1|e1].
    { rewrite served_none. split.
      - intros Hps. right. left. eauto 10.
      - intros [(d & [=] & _) | [(_ & (d & [= <-] & Hps)) | (_ & (e & [=] & _) & _)]].
        exact Hps. }
    destruct (is_RequestException e1) eqn:He1.
    2:{ split; [discriminate|].
        intros [(d & [=] & _) | [(_ & (d & [=] & _)) | (_ & (e & [= <-] & He) & _)]];
          congruence. }
    destruct (query_answer E headers h2 query) as [d2|e2].
    { rewrite served_none. split.
      - intros Hps. right. right. eauto 10.
      - intros [(d & [=] & _) | [(_ & (d & [=] & _)) | (_ & _ & (d & [= <-] & Hps))]].
        exact Hps. }
    split; [discriminate|].
    intros [(d & [=] & _) | [(_ & (d & [=] & _)) | (_ & _ & (d & [=] & _))]].
Qed.

Lemma ui_get_pexels_image_contract_witness :
  (truthy (getenv Scenarios.offline "PEXELS_API_KEY") = false
   /\ Utils.get_pexels_image_default Scenarios.offline "mosque" world0
      = (Raise missing_key_error, world0))
  /\ (Utils.get_pexels_image_default (stocked [thumbnail]) "mosque" world0).1
     = Ok (Some "https://images.pexels.com/photos/1/small.jpeg")
  /\ (Utils.get_pexels_image_default Scenarios.configured "mosque" world0).1
     = Raise (Exn RequestException "timed out").
Proof.
  split; [|split].
  - split; [reflexivity|].
    apply (ui_get_pexels_image_contract Scenarios.offline "mosque" world0).
    reflexivity.
  - destruct (ui_get_pexels_image_contract (stocked [thumbnail]) "mosque"
                world0) as (_ & Hkey).
    destruct (Hkey eq_refl) as (_ & Hphotos & _).
    rewrite (Hphotos (SearchData (Some 1) (Some [thumbnail])));
      [reflexivity | reflexivity | discriminate].
  - destruct (ui_get_pexels_image_contract Scenarios.configured "mosque"
                world0) as (_ & Hkey).
    destruct (Hkey eq_refl) as (Hraise & _).
    by rewrite (Hraise (Exn RequestException "timed out")
                  (Exn RequestException "timed out")
                  (Exn RequestException "timed out")).
Defined.

(* ===================================================================== *)
(** * Background acquisition of the document renderer                      *)
(* ===================================================================== *)

Section Download.
Variable E : env.
Variable c : Main.card.

Lemma download_run w :
  Main.download E c w
  = (download_answer E c (log w), extend w [download_event c] 0).
Proof.
  unfold Main.download, download_answer, bind, call, extend, download_event.
  rewrite Nat.add_0_r.
  destruct (requests_get E (log w) _ _ _) as [response|e]; [|reflexivity].
  destruct (status_error response); [reflexivity|].
  destruct (stream_error response); reflexivity.
Qed.

Lemma download_loop_cons attempt rest bg w :
  Main.retry_loop E c (attempt :: rest) bg w
  = match download_answer E c (log w) with
    | Ok img => (Ok (Some img), extend w [download_event c] 0)
    | Raise e =>
        if Main.caught e then
          if attempt =? Main.max_retries - 1 then
            Main.retry_loop E c rest (Some Main.solid_background)
              (extend w (download_event c :: degradation e) 0)
          else
            Main.retry_loop E c rest bg
              (extend w [download_event c; EvSleep 1] 0)
        else (Raise e, extend w [download_event c] 0)
    end.
Proof.
  cbn [Main.retry_loop]. unfold bind at 1. unfold try_except.
  unfold bind at 1. rewrite download_run.
  destruct (download_answer E c (log w)) as [img|e]; [reflexivity|].
  destruct (Main.caught e); [|reflexivity].
  destruct (attempt =? Main.max_retries - 1).
  - cbv [bind Main.Image_new emit ret extend log draws objects degradation
         canvas_event].
    rewrite <- !app_assoc. reflexivity.
  - cbv [bind emit ret extend log draws objects Main.retry_delay].
    rewrite <- !app_assoc. reflexivity.
Qed.

Variable w : world.

Let ev := download_event c.
Let h0 := log w.
Let h1 := h0 ++ [ev; EvSleep 1].
Let h2 := h1 ++ [ev; EvSleep 1].

Lemma acquire_background_run :
  Main.acquire_background E c w
  = match download_answer E c h0 with
    | Ok img => (Ok (Some img), extend w [ev] 0)
    | Raise e0 =>
        if Main.caught e0 then
          match download_answer E c h1 with
          | Ok img => (Ok (Some img), extend w (retries c 1 ++ [ev]) 0)
          | Raise e1 =>
              if Main.caught e1 then
                match download_answer E c h2 with
                | Ok img =>
                    (Ok (Some img), extend w (retries c 2 ++ [ev]) 0)
                | Raise e2 =>
                    if Main.caught e2 then
                      (Ok (Some Main.solid_background),
                       extend w (retries c 2 ++ ev :: degradation e2) 0)
                    else (Raise e2, extend w (retries c 2 ++ [ev]) 0)
                end
              else (Raise e1, extend w (retries c 1 ++ [ev]) 0)
          end
        else (Raise e0, extend w [ev] 0)
    end.
Proof.
  unfold Main.acquire_background.
  change (Utils.range Main.max_retries) with [0; 1; 2].
  rewrite download_loop_cons. fold ev h0.
  destruct (download_answer E c h0) as [img0|e0]; [reflexivity|].
  destruct (Main.caught e0); [|reflexivity].
  change (0 =? Main.max_retries - 1) with false. cbv iota.
  rewrite download_loop_cons. fold ev. cbn [log extend]. fold h0 h1.
  destruct (download_answer E c h1) as [img1|e1];
    [by rewrite ?extend_extend|].
  destruct (Main.caught e1); [|by rewrite ?extend_extend].
  change (1 =? Main.max_retries - 1) with false. cbv iota.
  rewrite download_loop_cons, ?extend_extend. fold ev. cbn [log extend].
  replace (log w ++ [ev; EvSleep 1] ++ [ev; EvSleep 1]) with h2
    by (unfold h2, h1, h0; by rewrite <- app_assoc).
  destruct (download_answer E c h2) as [img2|e2];
    [by rewrite ?extend_extend|].
  destruct (Main.caught e2); [|by rewrite ?extend_extend].
  change (2 =? Main.max_retries - 1) with true. cbv iota.
  cbn [Main.retry_loop]. unfold ret. by rewrite ?extend_extend.
Qed.

End Download.

Lemma canvas_not_in_retries c k tail :
  (k <= 2)%nat -> tail = [] ->
  ~ canvas_event ∈ retries c k ++ download_event c :: tail.
Proof.
  intros Hk -> Hin.
  destruct k as [|[|[|k]]]; [| | |lia];
    cbn in Hin;
    repeat (apply elem_of_cons in Hin as [Heq | Hin]; [discriminate Heq|]);
    by apply elem_of_nil in Hin.
Qed.

Lemma requests_retries c k tail :
  (k <= 2)%nat -> (tail = [] \/ exists e, tail = degradation e) ->
  requests (retries c k ++ download_event c :: tail) = S k.
Proof.
  intros Hk [-> | [e ->]];
    destruct k as [|[|[|k]]]; try lia; reflexivity.
Qed.


(* ===================================================================== *)
(** * Document renderer of [utils.pdf_generator]                           *)
(* ===================================================================== *)

Section Runs.
Context {A B : Type}.

Lemma runs_ret (a : A) w : runs (ret a) w a [] 0.
Proof.
  unfold runs, ret. rewrite app_nil_r, Nat.add_0_r. by destruct w.
Qed.

Lemma runs_bind (m : M A) (f : A -> M B) w a evs1 k1 b evs2 k2 :
  runs m w a evs1 k1 ->
  runs (f a) (World (log w ++ evs1) (draws w) (objects w + k1)) b evs2 k2 ->
  runs (bind m f) w b (evs1 ++ evs2) (k1 + k2).
Proof.
  unfold runs, bind. intros -> ->. cbn [log draws objects].
  by rewrite app_assoc, Nat.add_assoc.
Qed.

Lemma runs_lift (r : result A) (a : A) w :
  r = Ok a -> runs (lift r) w a [] 0.
Proof. intros ->. apply runs_ret. Qed.

Lemma runs_query (answer : list event -> A) w :
  runs (query answer) w (answer (log w)) [] 0.
Proof.
  unfold runs, query. rewrite app_nil_r, Nat.add_0_r. by destruct w.
Qed.

End Runs.

Lemma runs_call_ ev fails w :
  fails (log w) = None -> runs (call_ ev fails) w tt [ev] 0.
Proof.
  intros Hok. unfold runs, call_, call. by rewrite Hok, Nat.add_0_r.
Qed.

Lemma runs_new_object w : runs new_object w (objects w) [] 1.
Proof.
  unfold runs, new_object. by rewrite app_nil_r, Nat.add_1_r.
Qed.

Section Does.
Context {A B : Type}.

Lemma does_bind (m : M A) (f : A -> M B) w k1 k2
    (Q1 : A -> list mark -> Prop) (Q : B -> list mark -> Prop) :
  does m w k1 Q1 ->
  (forall a L1 w1,
     Q1 a L1 -> objects w1 = (objects w + k1)%nat ->
     does (f a) w1 k2 (fun b L2 => Q b (L1 ++ L2))) ->
  does (bind m f) w (k1 + k2) Q.
Proof.
  intros (a & evs1 & Hrun1 & HQ1) Hnext.
  destruct (Hnext a _ (World (log w ++ evs1) (draws w) (objects w + k1))
              HQ1 eq_refl) as (b & evs2 & Hrun2 & HQ).
  exists b, (evs1 ++ evs2). split; [by eapply runs_bind|].
  by rewrite flat_map_app.
Qed.

Lemma does_ret (a : A) w (Q : A -> list mark -> Prop) :
  Q a [] -> does (ret a) w 0 Q.
Proof. intros HQ. exists a, []. split; [apply runs_ret | exact HQ]. Qed.

Lemma does_lift (r : result A) (a : A) w (Q : A -> list mark -> Prop) :
  r = Ok a -> Q a [] -> does (lift r) w 0 Q.
Proof. intros -> HQ. by apply does_ret. Qed.

Lemma does_query (answer : list event -> A) w (Q : A -> list mark -> Prop) :
  Q (answer (log w)) [] -> does (query answer) w 0 Q.
Proof. intros HQ. eexists _, []. split; [apply runs_query | exact HQ]. Qed.

Lemma does_weaken (m : M A) w k (Q Q' : A -> list mark -> Prop) :
  does m w k Q -> (forall a L, Q a L -> Q' a L) -> does m w k Q'.
Proof. intros (a & evs & Hrun & HQ) Himp. exists a, evs. auto. Qed.

End Does.

Lemma does_call_ ev fails w (Q : unit -> list mark -> Prop) :
  fails (log w) = None -> Q tt (marks ev) ->
  does (call_ ev fails) w 0 Q.
Proof.
  intros Hok HQ. exists tt, [ev]. split; [by apply runs_call_|].
  cbn [flat_map]. by rewrite app_nil_r.
Qed.

Lemma does_new_object w (Q : nat -> list mark -> Prop) :
  Q (objects w) [] -> does new_object w 1 Q.
Proof.
  intros HQ. exists (objects w), []. split; [apply runs_new_object | exact HQ].
Qed.

Section Render.
Variable E : env.
Variable first : nat.
Hypothesis Hcoop : cooperative E first.

(** Steps of a rendering that do not raise. *)

Lemma does_pdf_call pdf op w :
  is_output op = false \/ pdf <> first ->
  does (PdfGenerator.pdf_call E pdf op) w 0 (marked (EvPdf pdf op)).
Proof.
  intros Hop. apply does_call_; [|reflexivity].
  destruct Hop as [Hop | Hobj].
  - by apply (coop_pdf E first Hcoop).
  - by apply (coop_fallback_output E first Hcoop).
Qed.

Lemma does_download_font font_dir font_base styles style w :
  is_Some (PdfGenerator.assoc style styles) ->
  does (PdfGenerator.download_font E font_dir font_base styles style) w 0
       quiet.
Proof.
  intros [url Hurl]. unfold PdfGenerator.download_font.
  apply (does_bind _ _ _ 0 0 quiet); [by apply does_query|].
  intros present L1 w1 -> _. cbn [app].
  destruct present; cbn [negb]; [by apply does_ret|].
  rewrite Hurl.
  unfold try_except, call_, call, bind, emit, ret, does, runs.
  cbv beta.
  match goal with
  | |- context [urlretrieve E ?h ?u ?p] =>
      destruct (urlretrieve E h u p) as [e|]
  end.
  - eexists _, [_; _].
    split; [cbn [log draws objects];
            by rewrite <- app_assoc, Nat.add_0_r | reflexivity].
  - eexists _, [_].
    split; [cbn [log draws objects]; by rewrite Nat.add_0_r | reflexivity].
Qed.

Lemma does_download_all font_dir font_base styles todo w :
  Forall (fun st => is_Some (PdfGenerator.assoc st.1 styles)) todo ->
  does (PdfGenerator.download_all E font_dir font_base styles todo) w 0
       quiet.
Proof.
  intros Htodo. revert w.
  induction Htodo as [|[style url] todo Hstyle _ IH]; intros w.
  - by apply does_ret.
  - cbn [PdfGenerator.download_all].
    apply (does_bind _ _ _ 0 0 quiet); [by apply does_download_font|].
    intros _ L1 w1 -> _. apply IH.
Qed.

Lemma does_get_font_path font_name w :
  does (PdfGenerator.get_font_path E font_name) w 0 quiet.
Proof.
  unfold PdfGenerator.get_font_path, PdfGenerator.font_urls.
  cbn [PdfGenerator.assoc].
  destruct (String.eqb (str_lower E font_name) "roboto");
    [|by apply does_ret].
  apply (does_bind _ _ _ 0 0 quiet).
  { apply does_call_; [apply (coop_mkdir E first Hcoop) | reflexivity]. }
  intros _ L1 w1 -> _.
  apply (does_bind _ _ _ 0 0 quiet).
  { apply does_download_all. repeat constructor; by eexists. }
  intros _ L2 w2 -> _. by apply does_ret.
Qed.

(** A call on the document that is not [output]. *)
Ltac draw :=
  match goal with
  | |- does (bind (PdfGenerator.pdf_call _ ?pdf ?op) _) _ _ _ =>
      apply (does_bind _ _ _ 0 0 (marked (EvPdf pdf op)));
      [ apply does_pdf_call; by left
      | let L := fresh "L" in let w := fresh "w" in
        intros _ L w -> _; cbn [marks app] ]
  end.

(** The last call of a sequence. *)
Ltac draw_last :=
  eapply does_weaken;
  [ apply does_pdf_call; by left
  | let L := fresh "L" in intros _ L ->; reflexivity ].

Lemma does_EidCard_init theme w :
  does (PdfGenerator.EidCard_init E theme) w 1
       (fun card L =>
          L = [] /\ PdfGenerator.obj card = objects w
          /\ PdfGenerator.theme_of card = theme).
Proof.
  unfold PdfGenerator.EidCard_init.
  apply (does_bind _ _ _ 1 0 (fun pdf L => L = [] /\ pdf = objects w));
    [by apply does_new_object|].
  intros pdf ? ? [-> ->] _.
  do 3 draw.
  apply (does_bind _ _ _ 0 0 quiet); [apply does_get_font_path|].
  intros font_path ? ? -> _.
  destruct (truthy (Some font_path)).
  - do 3 draw. by apply does_ret.
  - draw. by apply does_ret.
Qed.

Section WithCard.
Variable card : PdfGenerator.EidCard.
Variable rgb : Z * Z * Z.
Hypothesis Htitle :
  PdfGenerator.title_color_rgb (PdfGenerator.theme_of card) = Ok rgb.

Let pdf := PdfGenerator.obj card.

Lemma does_header w :
  does (PdfGenerator.header E card) w 0
       (fun _ L => L = [Text pdf "Eid Mubarak"]).
Proof.
  unfold PdfGenerator.header. fold pdf. draw.
  apply (does_bind _ _ _ 0 0 (fun a L => a = rgb /\ L = []));
    [by apply (does_lift _ rgb)|].
  intros ? ? ? [-> ->] _. draw.
  apply (does_bind _ _ _ 0 0 quiet);
    [unfold PdfGenerator.get_string_width; by apply does_query|].
  intros title_w ? ? -> _. do 2 draw. draw_last.
Qed.

Lemma does_footer w :
  does (PdfGenerator.footer E card) w 0
       (fun _ L => L = [Text pdf "Created with EidiCard Generator"]).
Proof.
  unfold PdfGenerator.footer. fold pdf. do 3 draw. draw_last.
Qed.

Lemma does_add_page w :
  does (PdfGenerator.add_page E card) w 0
       (fun _ L => L = [Text pdf "Eid Mubarak"]).
Proof.
  unfold PdfGenerator.add_page. fold pdf. draw. apply does_header.
Qed.

Lemma does_page_breaks n w :
  does (PdfGenerator.page_breaks E card n) w 0
       (fun _ L => L = page_turns pdf n).
Proof.
  revert w. induction n as [|n IH]; intros w.
  - by apply does_ret.
  - cbn [PdfGenerator.page_breaks].
    eapply (does_bind _ _ _ 0 0); [apply does_footer|].
    intros _ ? ? -> _.
    eapply (does_bind _ _ _ 0 0); [apply does_header|].
    intros _ ? ? -> _.
    eapply does_weaken; [apply IH|]. by intros _ L ->.
Qed.

Lemma does_lay_out op w :
  is_output op = false ->
  does (PdfGenerator.lay_out E card op) w 0
       (fun _ L => exists n, L = marks (EvPdf pdf op) ++ page_turns pdf n).
Proof.
  intros Hop. unfold PdfGenerator.lay_out. fold pdf.
  apply (does_bind _ _ _ 0 0 (marked (EvPdf pdf op)));
    [apply does_pdf_call; by left|].
  intros _ ? ? -> _.
  apply (does_bind _ _ _ 0 0 quiet); [by apply does_query|].
  intros n ? ? -> _.
  eapply does_weaken; [apply does_page_breaks|].
  intros _ L ->. by exists n.
Qed.

Lemma does_write_lines width lines w :
  does (PdfGenerator.write_lines E card width lines) w 0
       (fun _ L =>
          exists bs,
            length bs = length lines
            /\ L = concat (zip_with (body_text pdf) lines bs)).
Proof.
  revert w. induction lines as [|line rest IH]; intros w.
  - apply does_ret. by exists [].
  - cbn [PdfGenerator.write_lines].
    eapply (does_bind _ _ _ 0 0); [by apply does_lay_out|].
    intros _ ? ? [n ->] _. fold pdf. draw.
    eapply does_weaken; [apply IH|].
    intros _ L (bs & Hlen & ->). exists (n :: bs).
    split; [cbn; by rewrite Hlen|].
    reflexivity.
Qed.

End WithCard.

Lemma does_mktemp suffix w :
  suffix = ".pdf" ->
  does (call (EvNamedTemporaryFile suffix) (fun h => mktemp E h suffix)) w 0
       quiet.
Proof.
  intros ->. destruct (coop_mktemp E first Hcoop (log w)) as [p Hp].
  exists p, [EvNamedTemporaryFile ".pdf"]. split; [|reflexivity].
  unfold runs, call. by rewrite Hp, Nat.add_0_r.
Qed.

Section Document.
Variables message recipient : string.
Variable theme : gmap string string.
Variables rgb_title rgb_text : Z * Z * Z.
Hypothesis Htitle : PdfGenerator.title_color_rgb theme = Ok rgb_title.
Hypothesis Htext : PdfGenerator.text_color_rgb theme = Ok rgb_text.

Lemma does_create_pdf_document output_path w :
  does (PdfGenerator.create_pdf_document E message recipient theme
          output_path) w 1
       (fun doc L =>
          PdfGenerator.obj doc.1 = objects w
          /\ PdfGenerator.theme_of doc.1 = theme
          /\ (truthy output_path = true -> output_path = Some doc.2)
          /\ exists cpl b bs,
               0 < cpl
               /\ length bs
                  = length (wrap_lines E
                              (PdfGenerator.remove_emojis message) cpl)
               /\ L = Text (objects w) "Eid Mubarak"
                      :: body_text (objects w)
                           ("Dear " +:+ PdfGenerator.remove_emojis recipient
                              +:+ ",") b
                      ++ concat
                           (zip_with (body_text (objects w))
                              (wrap_lines E
                                 (PdfGenerator.remove_emojis message) cpl)
                              bs)).
Proof.
  unfold PdfGenerator.create_pdf_document.
  eapply (does_bind _ _ _ 1 0); [apply does_EidCard_init|].
  intros card ? ? (-> & Hobj & Htheme) _. cbn [app].
  assert (Hcard : PdfGenerator.title_color_rgb
                    (PdfGenerator.theme_of card) = Ok rgb_title)
    by (by rewrite Htheme).
  eapply (does_bind _ _ _ 0 0); [apply (does_add_page card rgb_title Hcard)|].
  intros _ ? ? -> _.
  apply (does_bind _ _ _ 0 0 (fun a L => a = rgb_text /\ L = []));
    [by apply (does_lift _ rgb_text)|].
  intros ? ? ? [-> ->] _. do 2 draw.
  apply (does_bind _ _ _ 0 0 quiet);
    [unfold PdfGenerator.get_string_width; by apply does_query|].
  intros recipient_w ? ? -> _.
  eapply (does_bind _ _ _ 0 0);
    [by apply (does_lay_out card rgb_title Hcard)|].
  intros _ ? ? [b ->] _. do 2 draw.
  apply (does_bind _ _ _ 0 0
           (fun x_w L =>
              L = []
              /\ Qeq_bool (x_w * (11 # 10))%Q (PdfGenerator.qz 0) = false
              /\ 0 < chars_per_line x_w)).
  { unfold PdfGenerator.get_string_width. apply does_query.
    split; [reflexivity|]. apply (coop_width E first Hcoop). }
  intros x_w ? ? (-> & Hdiv & Hcpl) _. rewrite Hdiv.
  apply (does_bind _ _ _ 0 0
           (fun a L => a = chars_per_line x_w /\ L = []));
    [by apply does_ret|].
  intros ? ? ? [-> ->] _.
  apply (does_bind _ _ _ 0 0
           (fun lines L =>
              lines = wrap_lines E (PdfGenerator.remove_emojis message)
                        (chars_per_line x_w)
              /\ L = [])).
  { unfold PdfGenerator.textwrap_wrap.
    replace (chars_per_line x_w <=? 0) with false
      by (symmetry; apply Z.leb_gt; lia).
    by apply does_ret. }
  intros ? ? ? [-> ->] _.
  eapply (does_bind _ _ _ 0 0);
    [apply (does_write_lines card rgb_title Hcard)|].
  intros _ ? ? (bs & Hlen & ->) _.
  apply (does_bind _ _ _ 0 0
           (fun path L =>
              L = [] /\ (truthy output_path = true
                         -> output_path = Some path))).
  { destruct output_path as [path|]; cbn [truthy].
    - destruct (String.eqb path ""); cbn [negb].
      + eapply does_weaken; [by apply does_mktemp|].
        intros p L ->. split; [reflexivity | discriminate].
      + by apply does_ret.
    - cbn [negb]. eapply does_weaken; [by apply does_mktemp|].
      intros p L ->. split; [reflexivity | discriminate]. }
  intros path ? ? [-> Hpath] _. apply does_ret.
  cbn [fst snd]. do 3 (split; [assumption|]).
  exists (chars_per_line x_w), b, bs. split; [exact Hcpl|].
  split; [exact Hlen|].
  cbn [app marks body_text]. rewrite ?app_nil_r, Hobj, <- ?app_assoc.
  reflexivity.
Qed.

Lemma does_simpler_version path w :
  objects w <> first ->
  does (PdfGenerator.simpler_version E theme path) w 1
       (fun _ L => exists b1 b2, L = fallback_marks (objects w) path b1 b2).
Proof.
  intros Hother. unfold PdfGenerator.simpler_version.
  eapply (does_bind _ _ _ 1 0); [apply does_EidCard_init|].
  intros card ? ? (-> & Hobj & Htheme) _. cbn [app].
  assert (Hcard : PdfGenerator.title_color_rgb
                    (PdfGenerator.theme_of card) = Ok rgb_title)
    by (by rewrite Htheme).
  eapply (does_bind _ _ _ 0 0); [apply (does_add_page card rgb_title Hcard)|].
  intros _ ? ? -> _. draw.
  eapply (does_bind _ _ _ 0 0);
    [by apply (does_lay_out card rgb_title Hcard)|].
  intros _ ? ? [b1 ->] _. do 2 draw.
  eapply (does_bind _ _ _ 0 0);
    [by apply (does_lay_out card rgb_title Hcard)|].
  intros _ ? ? [b2 ->] _.
  unfold PdfGenerator.output.
  eapply (does_bind _ _ _ 0 0); [apply (does_footer card)|].
  intros _ ? ? -> _.
  eapply does_weaken; [apply does_pdf_call; right; by rewrite Hobj|].
  intros _ L ->. exists b1, b2. unfold fallback_marks.
  cbn [app marks body_text]. rewrite Hobj, <- ?app_assoc. reflexivity.
Qed.

End Document.

End Render.


Lemma unencodable_cooperative : cooperative unencodable 0.
Proof.
  split.
  - reflexivity.
  - intros h. by eexists.
  - intros h obj. split; [reflexivity | by vm_compute].
  - intros h obj op Hop. cbn. by rewrite Hop.
  - intros h obj op Hobj. cbn.
    apply Nat.eqb_neq in Hobj. rewrite Hobj. by destruct (is_output op).
Qed.




(* ===================================================================== *)
(** * Characters of a string                                               *)
(* ===================================================================== *)

Lemma append_cons (c : ascii) (s t : string) :
  String c s +:+ t = String c (s +:+ t).
Proof. reflexivity. Qed.

Lemma append_empty_r (s : string) : s +:+ "" = s.
Proof.
  induction s as [|c s IH]; [reflexivity|]. by rewrite append_cons, IH.
Qed.

Lemma append_assoc (s t u : string) : (s +:+ t) +:+ u = s +:+ (t +:+ u).
Proof.
  induction s as [|c s IH]; [reflexivity|]. by rewrite !append_cons, IH.
Qed.

Lemma length_append (s t : string) :
  String.length (s +:+ t) = (String.length s + String.length t)%nat.
Proof.
  induction s as [|c s IH]; [reflexivity|].
  rewrite append_cons. simpl. by rewrite IH.
Qed.

(** The characters of a string, put together again, give the string. *)
Lemma concat_chars_aux (s : string) :
  forall need cur, concat_strs (chars_aux need cur s) = cur +:+ s.
Proof.
  induction s as [|c s IH]; intros need cur.
  - destruct cur; simpl; [reflexivity|]. by rewrite !append_empty_r.
  - destruct need as [|k]; cbn [chars_aux].
    + destruct cur as [|b r].
      * rewrite IH. reflexivity.
      * cbn [concat_strs foldr]. fold (concat_strs (chars_aux (utf8_len c - 1) (String c "") s)).
        rewrite IH. reflexivity.
    + rewrite IH, append_assoc. reflexivity.
Qed.

Lemma concat_chars (s : string) : concat_strs (chars s) = s.
Proof. unfold chars. by rewrite concat_chars_aux. Qed.

Lemma complete_unit_ok x : complete x -> unit_ok x.
Proof. destruct x as [|b r]; simpl; [done | lia]. Qed.

Lemma segmented_cons x l : complete x -> segmented l -> segmented (x :: l).
Proof.
  intros Hx Hl. destruct l as [|y l]; simpl; [by apply complete_unit_ok|].
  split; [exact Hx | exact Hl].
Qed.

Lemma segmented_inv x l : segmented (x :: l) -> unit_ok x /\ segmented l.
Proof.
  destruct l as [|y l]; simpl; [tauto|].
  intros [Hx Hl]. split; [by apply complete_unit_ok | exact Hl].
Qed.

Lemma chars_aux_segmented (s : string) :
  forall need cur, pending need cur -> segmented (chars_aux need cur s).
Proof.
  induction s as [|c s IH]; intros need cur Hp.
  - destruct cur as [|b r]; simpl in *; [exact I | lia].
  - destruct need as [|k]; cbn [chars_aux].
    + assert (Hrest : segmented (chars_aux (utf8_len c - 1) (String c "") s))
        by (apply IH; simpl; lia).
      destruct cur as [|b r]; [exact Hrest|].
      apply segmented_cons; [|exact Hrest]. simpl in *. lia.
    + apply IH. destruct cur as [|b r]; simpl in *; [discriminate|].
      rewrite length_append. simpl. lia.
Qed.

Lemma chars_segmented (s : string) : segmented (chars s).
Proof. apply chars_aux_segmented. reflexivity. Qed.

Lemma segmented_filter (p : string -> bool) (l : list string) :
  segmented l -> segmented (List.filter p l).
Proof.
  induction l as [|x l IH]; intros Hl; [exact I|].
  cbn [List.filter]. destruct l as [|y l].
  - simpl in *. destruct (p x); [exact Hl | exact I].
  - destruct Hl as [Hx Hl]. destruct (p x); [|by apply IH].
    apply segmented_cons; [exact Hx | by apply IH].
Qed.

(** Reading the continuation bytes of a character. *)
Lemma chars_aux_continue (r : string) :
  forall need cur s,
    String.length r = need ->
    chars_aux need cur (r +:+ s) = chars_aux 0 (cur +:+ r) s.
Proof.
  induction r as [|c r IH]; intros need cur s Hlen; simpl in Hlen; subst need.
  - by rewrite append_empty_r.
  - rewrite append_cons. cbn [chars_aux]. rewrite IH by reflexivity.
    rewrite append_assoc. reflexivity.
Qed.

Lemma chars_aux_cut (r : string) :
  forall need cur,
    (String.length r <= need)%nat -> cur <> "" ->
    chars_aux need cur r = [cur +:+ r].
Proof.
  induction r as [|c r IH]; intros need cur Hlen Hcur; simpl in Hlen.
  - rewrite append_empty_r. destruct cur; [done | reflexivity].
  - destruct need as [|k]; [lia|]. cbn [chars_aux].
    rewrite IH; [by rewrite append_assoc | lia | by destruct cur].
Qed.

Lemma chars_aux_flush (cur s : string) :
  cur <> "" -> chars_aux 0 cur s = cur :: chars s.
Proof.
  intros Hcur. destruct s as [|c s]; cbn [chars_aux chars].
  - destruct cur; [done | reflexivity].
  - unfold chars. cbn [chars_aux]. destruct cur; [done | reflexivity].
Qed.

(** [chars] splits a string that is put together from characters into
    these characters. *)
Lemma chars_concat (l : list string) :
  segmented l -> chars (concat_strs l) = l.
Proof.
  induction l as [|x l IH]; intros Hl; [reflexivity|].
  destruct x as [|b r]; [by apply segmented_inv in Hl as [[] _]|].
  cbn [concat_strs foldr]. fold (concat_strs l).
  destruct l as [|y l].
  - simpl in Hl. cbn [concat_strs foldr]. rewrite append_empty_r.
    unfold chars. cbn [chars_aux]. by rewrite chars_aux_cut.
  - destruct Hl as [Hx Hl]. simpl in Hx.
    unfold chars. rewrite append_cons. cbn [chars_aux].
    rewrite chars_aux_continue by exact Hx.
    rewrite chars_aux_flush by done. by rewrite IH.
Qed.

Lemma emoji_pattern_block (ch : string) :
  PdfGenerator.emoji_pattern ch = emoji_block ch.
Proof.
  unfold PdfGenerator.emoji_pattern, emoji_block, in_range.
  generalize (ord ch). intros c.
  apply eq_true_iff_eq.
  rewrite !orb_true_iff, !andb_true_iff, !N.leb_le. lia.
Qed.

Lemma filter_ext_bool {A} (p q : A -> bool) (l : list A) :
  (forall x, p x = q x) -> List.filter p l = List.filter q l.
Proof.
  intros Hpq. induction l as [|x l IH]; simpl; [reflexivity|].
  by rewrite Hpq, IH.
Qed.

Lemma filter_all {A} (p : A -> bool) (l : list A) :
  Forall (fun x => p x = true) l -> List.filter p l = l.
Proof.
  induction 1 as [|x l Hx Hl IH]; simpl; [reflexivity|]. by rewrite Hx, IH.
Qed.

Lemma filter_none {A} (p : A -> bool) (l : list A) :
  Forall (fun x => p x = false) l -> List.filter p l = [].
Proof.
  induction 1 as [|x l Hx Hl IH]; simpl; [reflexivity|]. by rewrite Hx, IH.
Qed.

Lemma filter_idem {A} (p : A -> bool) (l : list A) :
  List.filter p (List.filter p l) = List.filter p l.
Proof.
  induction l as [|x l IH]; simpl; [reflexivity|].
  destruct (p x) eqn:Hx; simpl; rewrite ?Hx, IH; reflexivity.
Qed.

(* ===================================================================== *)
(** * [remove_emojis]                                                      *)
(* ===================================================================== *)

(** X1. The characters of [remove_emojis text] are the characters of
    [text] outside the three intervals U+24C2 to U+1F251, U+1F300 to
    U+1F64F and U+1F680 to U+1F6FF, in their order; none of the pattern
    is left, and removing the emojis a second time changes nothing. *)
Theorem remove_emojis_characters :
  forall text,
    chars (PdfGenerator.remove_emojis text)
    = List.filter (fun ch => negb (emoji_block ch)) (chars text)
    /\ Forall (fun ch => PdfGenerator.emoji_pattern ch = false)
         (chars (PdfGenerator.remove_emojis text))
    /\ PdfGenerator.remove_emojis (PdfGenerator.remove_emojis text)
       = PdfGenerator.remove_emojis text.
Proof.
  intros text.
  assert (Hchars :
    chars (PdfGenerator.remove_emojis text)
    = List.filter (fun ch => negb (PdfGenerator.emoji_pattern ch)) (chars text)).
  { unfold PdfGenerator.remove_emojis.
    apply chars_concat, segmented_filter, chars_segmented. }
  split; [|split].
  - rewrite Hchars. apply filter_ext_bool. intros ch.
    by rewrite emoji_pattern_block.
  - rewrite Hchars. apply Forall_forall. intros ch Hin.
    apply list_elem_of_In, filter_In in Hin as [_ Hin].
    by apply negb_true_iff.
  - unfold PdfGenerator.remove_emojis at 1. rewrite Hchars, filter_idem.
    reflexivity.
Qed.

(** X2. Text whose characters all lie below U+24C2 (ASCII, Latin, Arabic
    and so on) passes [remove_emojis] unchanged; text whose characters
    all lie between U+24C2 and U+1F251, which besides emojis includes the
    CJK, kana and Hangul blocks, is removed entirely. *)
Theorem remove_emojis_by_code_point :
  forall text,
    (Forall (fun ch => (ord ch < 9410)%N) (chars text) ->
     PdfGenerator.remove_emojis text = text)
    /\ (Forall (fun ch => (9410 <= ord ch <= 127569)%N) (chars text) ->
        PdfGenerator.remove_emojis text = "").
Proof.
  intros text. unfold PdfGenerator.remove_emojis. split; intros Hall.
  - rewrite filter_all; [apply concat_chars|].
    eapply Forall_impl; [exact Hall|]. intros ch Hch. cbv beta in *.
    rewrite emoji_pattern_block. unfold emoji_block, in_range.
    apply negb_true_iff, eq_true_iff_eq.
    rewrite !orb_true_iff, !andb_true_iff, !N.leb_le. split; [lia | done].
  - rewrite filter_none; [reflexivity|].
    eapply Forall_impl; [exact Hall|]. intros ch Hch. cbv beta in *.
    rewrite emoji_pattern_block. unfold emoji_block, in_range.
    apply negb_false_iff.
    apply orb_true_iff. left. apply orb_true_iff. left.
    apply andb_true_iff. rewrite !N.leb_le. lia.
Qed.

Lemma remove_emojis_by_code_point_witness :
  (Forall (fun ch => (ord ch < 9410)%N) (chars "عید مبارک, Ali!")
   /\ PdfGenerator.remove_emojis "عید مبارک, Ali!" = "عید مبارک, Ali!")
  /\ (Forall (fun ch => (9410 <= ord ch <= 127569)%N) (chars "新年快乐✨")
      /\ PdfGenerator.remove_emojis "新年快乐✨" = "").
Proof.
  assert (H1 : Forall (fun ch => (ord ch < 9410)%N) (chars "عید مبارک, Ali!"))
    by (apply (bool_decide_unpack _); vm_compute; exact I).
  assert (H2 : Forall (fun ch => (9410 <= ord ch <= 127569)%N)
                 (chars "新年快乐✨"))
    by (apply (bool_decide_unpack _); vm_compute; exact I).
  split; (split; [assumption|]).
  - by apply (remove_emojis_by_code_point "عید مبارک, Ali!").
  - by apply (remove_emojis_by_code_point "新年快乐✨").
Defined.

(* ===================================================================== *)
(** * The colours of a theme                                               *)
(* ===================================================================== *)

(** A property checked on every number below [n] holds below [n]. *)
Lemma below_forallb (P : Z -> bool) (n : nat) :
  forallb P (map Z.of_nat (seq 0 n)) = true ->
  forall z, 0 <= z < Z.of_nat n -> P z = true.
Proof.
  intros Hall z Hz. rewrite forallb_forall in Hall. apply Hall.
  apply in_map_iff. exists (Z.to_nat z). split; [lia|].
  apply in_seq. lia.
Qed.

Lemma chars_single_bytes (s : string) :
  single_bytes s ->
  chars s = map (fun c => String c "") (list_ascii_of_string s).
Proof.
  unfold single_bytes, chars. induction s as [|c s IH]; intros Hs;
    [reflexivity|].
  cbn [list_ascii_of_string] in Hs. apply Forall_cons in Hs as [Hc Hs].
  cbn [chars_aux list_ascii_of_string map]. rewrite Hc. cbn [Nat.sub].
  rewrite chars_aux_flush by done. unfold chars. by rewrite IH.
Qed.

Lemma hex_pair_parses upper v :
  0 <= v < 256 -> int16 (hex_pair upper v) = Ok v.
Proof.
  intros Hv.
  assert (Hcheck : parses_to (hex_pair upper v) v = true).
  { revert v Hv. apply (below_forallb _ 256). by destruct upper; vm_compute. }
  unfold parses_to in Hcheck. destruct (int16 _) as [z|e]; [|discriminate].
  apply Z.eqb_eq in Hcheck. by subst z.
Qed.

Lemma hex_char_single upper d :
  0 <= d < 16 -> utf8_len (hex_char upper d) = 1%nat.
Proof.
  intros Hd.
  assert (Hcheck : Nat.eqb (utf8_len (hex_char upper d)) 1 = true).
  { revert d Hd. apply (below_forallb _ 16). by destruct upper; vm_compute. }
  by apply Nat.eqb_eq in Hcheck.
Qed.

Lemma css_hex_bytes upper r g b :
  css_hex upper r g b
  = String "#"
      (String (hex_char upper (r / 16)) (String (hex_char upper (r mod 16))
      (String (hex_char upper (g / 16)) (String (hex_char upper (g mod 16))
      (String (hex_char upper (b / 16)) (String (hex_char upper (b mod 16))
      "")))))).
Proof. reflexivity. Qed.

Lemma hex_digits_single upper v :
  0 <= v < 256 ->
  utf8_len (hex_char upper (v / 16)) = 1%nat
  /\ utf8_len (hex_char upper (v mod 16)) = 1%nat.
Proof.
  intros Hv. split; apply hex_char_single.
  - split; [apply Z.div_pos; lia | apply Z.div_lt_upper_bound; lia].
  - apply Z.mod_pos_bound. lia.
Qed.

Lemma css_hex_single upper r g b :
  0 <= r < 256 -> 0 <= g < 256 -> 0 <= b < 256 ->
  single_bytes (css_hex upper r g b).
Proof.
  intros Hr Hg Hb. unfold single_bytes. rewrite css_hex_bytes.
  cbn [list_ascii_of_string].
  destruct (hex_digits_single upper r Hr) as [Hr1 Hr2].
  destruct (hex_digits_single upper g Hg) as [Hg1 Hg2].
  destruct (hex_digits_single upper b Hb) as [Hb1 Hb2].
  repeat (apply Forall_cons; split; [first [reflexivity | assumption]|]).
  by apply Forall_nil.
Qed.

(** X3. A theme colour written "#rrggbb", with upper-case or lower-case
    digits, gives the renderer its three channels back: [hex_rgb] is the
    inverse of that notation, for the title colour and for the text
    colour. *)
Theorem hex_rgb_round_trip :
  forall upper r g b (theme : gmap string string),
    0 <= r < 256 -> 0 <= g < 256 -> 0 <= b < 256 ->
    PdfGenerator.hex_rgb (css_hex upper r g b) = Ok (r, g, b)
    /\ PdfGenerator.title_color_rgb
         (<["title_color" := css_hex upper r g b]> theme) = Ok (r, g, b)
    /\ PdfGenerator.text_color_rgb
         (<["text_color" := css_hex upper r g b]> theme) = Ok (r, g, b).
Proof.
  intros upper r g b theme Hr Hg Hb.
  assert (Hrgb : PdfGenerator.hex_rgb (css_hex upper r g b) = Ok (r, g, b)).
  { unfold PdfGenerator.hex_rgb, slice.
    rewrite (chars_single_bytes _ (css_hex_single upper r g b Hr Hg Hb)).
    rewrite css_hex_bytes.
    cbn [list_ascii_of_string map drop take Nat.sub concat_strs foldr].
    change (String (hex_char upper (r / 16)) ""
            +:+ String (hex_char upper (r mod 16)) "" +:+ "")
      with (hex_pair upper r).
    change (String (hex_char upper (g / 16)) ""
            +:+ String (hex_char upper (g mod 16)) "" +:+ "")
      with (hex_pair upper g).
    change (String (hex_char upper (b / 16)) ""
            +:+ String (hex_char upper (b mod 16)) "" +:+ "")
      with (hex_pair upper b).
    rewrite !hex_pair_parses by assumption. reflexivity. }
  split; [exact Hrgb|].
  unfold PdfGenerator.title_color_rgb, PdfGenerator.text_color_rgb.
  rewrite !lookup_insert_eq. cbn [default]. by split.
Qed.

Lemma hex_rgb_round_trip_witness :
  (0 <= 26 < 256 /\ 0 <= 188 < 256 /\ 0 <= 156 < 256)
  /\ PdfGenerator.hex_rgb "#1abc9c" = Ok (26, 188, 156)
  /\ PdfGenerator.hex_rgb "#1ABC9C" = Ok (26, 188, 156).
Proof.
  assert (Hlower : css_hex false 26 188 156 = "#1abc9c")
    by (vm_compute; reflexivity).
  assert (Hupper : css_hex true 26 188 156 = "#1ABC9C")
    by (vm_compute; reflexivity).
  destruct (hex_rgb_round_trip false 26 188 156 ∅) as [H1 _]; [lia..|].
  destruct (hex_rgb_round_trip true 26 188 156 ∅) as [H2 _]; [lia..|].
  rewrite Hlower in H1. rewrite Hupper in H2.
  split; [lia|]. split; assumption.
Defined.

(** [int(s, 16)] on some literals: whitespace around the digits, digits
    of other scripts, the prefix and the underscores are accepted; a
    control character that is no whitespace of [int], a doubled underscore
    and a letter beyond "f" are not. *)
Lemma int16_examples :
  int16 " 1f " = Ok 31
  /\ int16 "١٢" = Ok 18
  /\ int16 "0x_1F" = Ok 31
  /\ int16 "-ff" = Ok (-255)
  /\ int16 (String (ascii_of_nat 28) "f")
     = Raise (Exn ValueError separator_message)
  /\ int16 "1__2"
     = Raise (Exn ValueError "invalid literal for int() with base 16: '1__2'")
  /\ int16 "fg"
     = Raise (Exn ValueError "invalid literal for int() with base 16: 'fg'").
Proof. repeat split; vm_compute; reflexivity. Qed.

Lemma int16_raises_ValueError s e :
  int16 s = Raise e -> exn_cls e = ValueError.
Proof.
  unfold int16.
  match goal with
  | |- match ?parsed with Some _ => _ | None => _ end = _ -> _ =>
      destruct parsed
  end; [discriminate|]. by intros [= <-].
Qed.

Lemma hex_rgb_raises_ValueError c e :
  PdfGenerator.hex_rgb c = Raise e -> exn_cls e = ValueError.
Proof.
  unfold PdfGenerator.hex_rgb.
  destruct (int16 (slice 1 3 c)) as [r|e1] eqn:H1; cbn [rbind];
    [|intros [= <-]; by apply (int16_raises_ValueError _ _ H1)].
  destruct (int16 (slice 3 5 c)) as [g|e2] eqn:H2; cbn [rbind];
    [|intros [= <-]; by apply (int16_raises_ValueError _ _ H2)].
  destruct (int16 (slice 5 7 c)) as [b|e3] eqn:H3; cbn [rbind];
    [discriminate|intros [= <-]; by apply (int16_raises_ValueError _ _ H3)].
Qed.

Lemma slice_beyond i j s :
  (length (chars s) <= i)%nat -> slice i j s = "".
Proof.
  intros Hlen. unfold slice. rewrite drop_ge by exact Hlen.
  by rewrite take_nil.
Qed.

(** X4. Reading a colour raises nothing but [ValueError], and it does
    raise for every string of fewer than six characters, such as a
    colour name or the shorthand "#rgb": the blue channel is then read
    from the empty string. *)
Theorem hex_rgb_errors :
  forall c,
    (forall e, PdfGenerator.hex_rgb c = Raise e -> exn_cls e = ValueError)
    /\ ((length (chars c) < 6)%nat ->
        exists e, PdfGenerator.hex_rgb c = Raise e
                  /\ exn_cls e = ValueError).
Proof.
  intros c.
  assert (Hcls : forall e,
            PdfGenerator.hex_rgb c = Raise e -> exn_cls e = ValueError)
    by (intros e; apply hex_rgb_raises_ValueError).
  split; [exact Hcls|].
  intros Hlen.
  destruct (PdfGenerator.hex_rgb c) as [rgb|e] eqn:Hrun; [|eauto].
  exfalso. unfold PdfGenerator.hex_rgb in Hrun.
  rewrite (slice_beyond 5 7 c) in Hrun by lia.
  destruct (int16 (slice 1 3 c)); cbn [rbind] in Hrun; [|discriminate].
  destruct (int16 (slice 3 5 c)); cbn [rbind] in Hrun; discriminate.
Qed.

Lemma hex_rgb_errors_witness :
  (length (chars "#fff") < 6)%nat
  /\ exists e, PdfGenerator.hex_rgb "#fff" = Raise e
               /\ exn_cls e = ValueError.
Proof.
  assert (Hlen : (length (chars "#fff") < 6)%nat) by (vm_compute; lia).
  split; [exact Hlen|].
  by apply (hex_rgb_errors "#fff").
Defined.

(* ===================================================================== *)
(** * [utils.get_pexels_image] for any number of attempts                  *)
(* ===================================================================== *)

Lemma range_last (n : Z) :
  0 < n -> last (Utils.range n) = Some (n - 1).
Proof.
  intros Hn. unfold Utils.range.
  replace (Z.to_nat n) with (S (Z.to_nat (n - 1))) by lia.
  rewrite seq_S, map_app. cbn [map]. rewrite last_snoc. f_equal. lia.
Qed.

Section UiRetry.
Variable E : env.
Variable headers : list (string * string).
Variable query : string.
Variable max_retries : Z.

Let ev : event := query_event headers query.

Lemma request_once_shape w :
  exists r n,
    Utils.request_once E headers query w = (r, extend w [ev] n)
    /\ (n <= 1)%nat
    /\ (forall e, r = Raise e -> is_RequestException e = true ->
        n = 0%nat /\ query_answer E headers (log w) query = Raise e).
Proof.
  rewrite request_once_run. fold ev.
  destruct (query_answer E headers (log w) query) as [d|e] eqn:Hans.
  - destruct (default [] (photos d)) as [|p ps].
    + eexists _, 0%nat. split; [reflexivity|]. split; [lia|]. discriminate.
    + eexists _, 1%nat. split; [reflexivity|]. split; [lia|].
      intros e Hfound He.
      rewrite (chosen_url_not_transport _ _ _ Hfound) in He. discriminate.
  - eexists _, 0%nat. split; [reflexivity|]. split; [lia|].
    intros e' [= ->] _. by split.
Qed.

Lemma ui_retry_loop_shape attempts :
  last attempts = Some (max_retries - 1) ->
  forall w,
  exists r k n,
    Utils.retry_loop E max_retries headers query attempts w
    = (r, extend w (attempts_then_last ev k) n)
    /\ (k < length attempts)%nat /\ (n <= 1)%nat.
Proof.
  induction attempts as [|attempt rest IH]; intros Hlast w; [discriminate|].
  rewrite ui_retry_loop_cons.
  destruct (request_once_shape w) as (r & n & -> & Hn & Hraise).
  destruct r as [r|e].
  { exists (Ok r), 0%nat, n. split; [reflexivity|]. simpl. lia. }
  destruct (is_RequestException e) eqn:He.
  2:{ exists (Raise e), 0%nat, n. split; [reflexivity|]. simpl. lia. }
  destruct (Hraise e eq_refl He) as [-> _].
  destruct (attempt =? max_retries - 1) eqn:Hatt.
  { exists (Raise e), 0%nat, 0%nat. split; [reflexivity|]. simpl. lia. }
  destruct rest as [|next rest'].
  { simpl in Hlast. injection Hlast as ->. rewrite Z.eqb_refl in Hatt.
    discriminate. }
  destruct (IH Hlast (extend (extend w [ev] 0) [EvSleep 1] 0))
    as (r & k & n & -> & Hk & Hn').
  exists r, (S k), n. split.
  - rewrite !extend_extend. unfold attempts_then_last.
    cbn [replicate concat]. rewrite <- !app_assoc. reflexivity.
  - simpl in *. lia.
Qed.

End UiRetry.

(** X5. [utils.get_pexels_image] with any retry budget.  The credential
    is the [api_key] argument when it is a non-empty string, otherwise
    the environment's.  With a positive budget the calls are: fewer than
    [max_retries] failed requests, each followed by a one-second sleep,
    then one more request; every request carries that credential and the
    query; at most one random number is drawn.  With a budget of zero or
    less no request is made and the result is [None]. *)
Theorem ui_search_retry_budget :
  forall E query api_key max_retries w,
    let ev := query_event (key_headers E api_key) query in
    truthy (effective_key E api_key) = true ->
    (0 < max_retries ->
     exists r k n,
       Utils.get_pexels_image E query api_key max_retries w
       = (r, extend w (attempts_then_last ev k) n)
       /\ (k < Z.to_nat max_retries)%nat
       /\ requests (attempts_then_last ev k) = S k
       /\ (n <= 1)%nat)
    /\ (max_retries <= 0 ->
        Utils.get_pexels_image E query api_key max_retries w = (Ok None, w)).
Proof.
  intros E query api_key max_retries w ev Hkey.
  unfold Utils.get_pexels_image. fold (effective_key E api_key).
  rewrite Hkey. cbn [negb]. fold (key_headers E api_key). split.
  - intros Hpos.
    destruct (ui_retry_loop_shape E (key_headers E api_key) query max_retries
                (Utils.range max_retries) (range_last _ Hpos) w)
      as (r & k & n & Hrun & Hk & Hn).
    exists r, k, n. split; [exact Hrun|].
    split; [unfold Utils.range in Hk; rewrite length_map, length_seq in Hk;
            exact Hk|].
    split; [|exact Hn].
    unfold requests, attempts_then_last. rewrite List.filter_app, length_app.
    assert (Hrep : forall j,
              length (List.filter is_request
                        (concat (replicate j [ev; EvSleep 1]))) = j).
    { induction j as [|j IH]; [reflexivity|].
      cbn [replicate concat]. rewrite List.filter_app, length_app, IH.
      reflexivity. }
    rewrite Hrep. simpl. lia.
  - intros Hle. unfold Utils.range.
    replace (Z.to_nat max_retries) with 0%nat by lia. reflexivity.
Qed.

Lemma ui_search_retry_budget_witness :
  truthy (effective_key Scenarios.offline (Some "explicit")) = true
  /\ (exists r k n,
        Utils.get_pexels_image Scenarios.offline "mosque" (Some "explicit") 5
          world0
        = (r,
           extend world0
             (attempts_then_last
                (query_event [("Authorization", "explicit")] "mosque") k) n)
        /\ (k < 5)%nat)
  /\ Utils.get_pexels_image Scenarios.offline "mosque" (Some "explicit") 0
       world0 = (Ok None, world0).
Proof.
  split; [reflexivity|].
  destruct (ui_search_retry_budget Scenarios.offline "mosque"
              (Some "explicit") 5 world0 eq_refl) as [Hpos _].
  destruct (ui_search_retry_budget Scenarios.offline "mosque"
              (Some "explicit") 0 world0 eq_refl) as [_ Hzero].
  split.
  - destruct Hpos as (r & k & n & Hrun & Hk & _); [lia|].
    exists r, k, n. split; [exact Hrun | exact Hk].
  - apply Hzero. lia.
Defined.

(** X6. Only a [RequestException] is retried.  When the first attempt
    raises anything else (the body cannot be decoded, say), or when the
    photo chosen from the response has no "large2x" entry, the exception
    reaches the caller after that one request, whatever the retry
    budget, and no sleep is made. *)
Theorem ui_search_other_errors_not_retried :
  forall E query api_key max_retries w,
    let headers := key_headers E api_key in
    let ev := query_event headers query in
    truthy (effective_key E api_key) = true ->
    0 < max_retries ->
    (forall e,
       query_answer E headers (log w) query = Raise e ->
       is_RequestException e = false ->
       Utils.get_pexels_image E query api_key max_retries w
       = (Raise e, extend w [ev] 0))
    /\ (forall d p,
          query_answer E headers (log w) query = Ok d ->
          choice (random_raw E (draws w)) (default [] (photos d)) = Ok p ->
          src p !! "large2x" = None ->
          Utils.get_pexels_image E query api_key max_retries w
          = (Raise (Exn KeyError "'large2x'"), extend w [ev] 1)).
Proof.
  intros E query api_key max_retries w headers ev Hkey Hpos.
  unfold Utils.get_pexels_image. fold (effective_key E api_key).
  rewrite Hkey. cbn [negb]. fold (key_headers E api_key). fold headers.
  assert (Hrange : exists rest, Utils.range max_retries = 0 :: rest).
  { unfold Utils.range.
    replace (Z.to_nat max_retries) with (S (Z.to_nat (max_retries - 1)))
      by lia.
    cbn [seq map]. eauto. }
  destruct Hrange as [rest ->].
  rewrite ui_retry_loop_cons, request_once_run. fold ev. split.
  - intros e -> He. by rewrite He.
  - intros d p -> Hp Hsrc.
    destruct (default [] (photos d)) as [|p0 ps] eqn:Hps;
      [by vm_compute in Hp|].
    unfold found, chosen_url. rewrite Hp. cbn [rbind].
    unfold ImageUtils.large2x. rewrite Hsrc. reflexivity.
Qed.

Lemma ui_search_other_errors_not_retried_witness :
  (truthy (effective_key garbled None) = true /\ 0 < 3)
  /\ Utils.get_pexels_image garbled "mosque" None 3 world0
     = (Raise (Exn ValueError "Expecting value"),
        extend world0
          [query_event [("Authorization", "secret")] "mosque"] 0)
  /\ Utils.get_pexels_image (stocked [bare_photo]) "mosque" None 3 world0
     = (Raise (Exn KeyError "'large2x'"),
        extend world0
          [query_event [("Authorization", "secret")] "mosque"] 1).
Proof.
  split; [split; [reflexivity | lia]|]. split.
  - destruct (ui_search_other_errors_not_retried garbled "mosque" None 3
                world0 eq_refl) as [Hother _]; [lia|].
    apply Hother; reflexivity.
  - destruct (ui_search_other_errors_not_retried (stocked [bare_photo])
                "mosque" None 3 world0 eq_refl) as [_ Hkey]; [lia|].
    apply (Hkey (SearchData (Some 1) (Some [bare_photo])) bare_photo);
      reflexivity.
Defined.

(* ===================================================================== *)
(** * The resolver: how many requests, and which                           *)
(* ===================================================================== *)

Lemma filter_search_events headers (terms : list string) :
  List.filter is_request (map (search_event headers) terms)
  = map (search_event headers) terms.
Proof. induction terms as [|t l IH]; simpl; [reflexivity | by rewrite IH]. Qed.

Lemma scan_shape E headers plan :
  forall w,
  exists r k n,
    scan E headers plan w
    = (r, extend w (map (search_event headers) (take k plan).*2) n)
    /\ (k <= length plan)%nat /\ (n <= 1)%nat.
Proof.
  induction plan as [|[strict term] rest IH]; intros w.
  - exists (Ok None), 0%nat, 0%nat. split; [|simpl; lia].
    unfold extend. simpl. rewrite app_nil_r, Nat.add_0_r. by destruct w.
  - rewrite scan_cons.
    destruct (search_answer E headers (log w) term) as [d|e].
    2:{ exists (Raise e), 1%nat, 0%nat. split; [reflexivity | simpl; lia]. }
    destruct (usable strict d).
    { eexists _, 1%nat, 1%nat. split; [reflexivity | simpl; lia]. }
    destruct (IH (extend w [search_event headers term] 0))
      as (r & k & n & -> & Hk & Hn).
    exists r, (S k), n. split; [by rewrite extend_extend | simpl; lia].
Qed.

Lemma primary_terms_length category :
  length (primary_terms category) = 4%nat.
Proof.
  unfold primary_terms.
  destruct (ImageUtils.SEARCH_TERMS !! category) as [terms|] eqn:Hlook;
    [|reflexivity].
  unfold ImageUtils.SEARCH_TERMS in Hlook.
  apply (elem_of_list_to_map_2 (M := gmap string)) in Hlook.
  repeat (apply elem_of_cons in Hlook as [Heq | Hlook];
          [injection Heq as _ ->; reflexivity|]).
  by apply elem_of_nil in Hlook.
Qed.

Lemma search_plan_length category :
  length (search_plan category) = 16%nat.
Proof.
  unfold search_plan. rewrite length_app, !length_map, primary_terms_length.
  reflexivity.
Qed.

(** X7. The resolver never raises and issues at most 16 search requests:
    the requests it makes are the first [k] searches of the plan (the
    four keywords of the category, then the twelve of the fallback
    categories), in that order and each once, all with the configured
    credential; apart from them it writes at most one log line, and it
    draws at most one random number.  Without a credential it makes no
    request at all. *)
Theorem resolver_request_budget :
  forall E category w,
    let headers := auth_headers E in
    let plan := search_plan category in
    exists r evs k n,
      ImageUtils.get_pexels_image E category w = (Ok r, extend w evs n)
      /\ List.filter is_request evs
         = map (search_event headers) (take k plan).*2
      /\ (requests evs <= 16)%nat
      /\ (length evs <= S (requests evs))%nat
      /\ (n <= 1)%nat
      /\ (truthy (getenv E "PEXELS_API_KEY") = false -> requests evs = 0%nat).
Proof.
  intros E category w headers plan.
  assert (Hcount : forall k,
            length (map (search_event headers) (take k plan).*2)
            = Nat.min k 16).
  { intros k. rewrite length_map, length_fmap, length_take.
    unfold plan. by rewrite search_plan_length. }
  destruct (truthy (getenv E "PEXELS_API_KEY")) eqn:Hkey.
  - rewrite get_pexels_image_scan by exact Hkey. fold headers plan.
    destruct (scan_shape E headers plan w) as (r & k & n & -> & Hk & Hn).
    set (reqs := map (search_event headers) (take k plan).*2).
    assert (Hreqs : List.filter is_request reqs = reqs)
      by apply filter_search_events.
    assert (Hlen : length reqs = Nat.min k 16) by apply Hcount.
    destruct r as [[url|]|e].
    + exists (Some url), reqs, k, n. unfold requests. rewrite Hreqs.
      repeat split; try done; lia.
    + eexists None, _, k, n. rewrite extend_extend, Nat.add_0_r.
      split; [reflexivity|].
      unfold requests. rewrite List.filter_app, Hreqs. cbn [List.filter is_request].
      rewrite app_nil_r, length_app. simpl.
      repeat split; try done; lia.
    + eexists None, _, k, n. rewrite extend_extend, Nat.add_0_r.
      split; [reflexivity|].
      unfold requests. rewrite List.filter_app, Hreqs. cbn [List.filter is_request].
      rewrite app_nil_r, length_app. simpl.
      repeat split; try done; lia.
  - rewrite get_pexels_image_no_key by exact Hkey.
    eexists None, _, 0%nat, 0%nat. split; [reflexivity|].
    unfold requests. simpl. repeat split; try done; lia.
Qed.

(** X8. A category that is not one of the eight of
    [BACKGROUND_CATEGORIES] is searched with the keywords of "Islamic
    Patterns": the resolver behaves on it exactly as on that category. *)
Theorem resolver_unknown_category :
  forall E category w,
    category ∉ ImageUtils.BACKGROUND_CATEGORIES ->
    ImageUtils.get_pexels_image E category w
    = ImageUtils.get_pexels_image E "Islamic Patterns" w.
Proof.
  intros E category w Hnot.
  assert (Hnone : ImageUtils.SEARCH_TERMS !! category = None).
  { unfold ImageUtils.SEARCH_TERMS.
    apply (not_elem_of_list_to_map_1 (M := gmap string)). exact Hnot. }
  unfold ImageUtils.get_pexels_image, ImageUtils.get_pexels_image_body.
  rewrite Hnone. reflexivity.
Qed.

Lemma resolver_unknown_category_witness :
  ("islamic patterns" ∉ ImageUtils.BACKGROUND_CATEGORIES)
  /\ ImageUtils.get_pexels_image (stocked [landscape]) "islamic patterns"
       world0
     = ImageUtils.get_pexels_image (stocked [landscape]) "Islamic Patterns"
         world0.
Proof.
  assert (Hnot : "islamic patterns" ∉ ImageUtils.BACKGROUND_CATEGORIES)
    by (unfold ImageUtils.BACKGROUND_CATEGORIES; not_in_literals).
  split; [exact Hnot|].
  by apply resolver_unknown_category.
Defined.

(* ===================================================================== *)
(** * The composer: calls made, and [enhance_message]                      *)
(* ===================================================================== *)

Lemma get_completion_run E self prompt w :
  Agents._get_completion E self prompt w
  = match completion_answer E (log w) prompt with
    | Ok (Some content :: _) =>
        (Ok (strip content), extend w [completion_event self prompt] 0)
    | Ok (None :: _) =>
        (Ok Agents.DEFAULT_MESSAGE,
         extend w
           [ completion_event self prompt;
             EvLogError
               ("Error getting completion: "
                  +:+ "'NoneType' object has no attribute 'strip'") ] 0)
    | Ok [] =>
        (Ok Agents.DEFAULT_MESSAGE,
         extend w
           [ completion_event self prompt;
             EvLogError
               ("Error getting completion: " +:+ "list index out of range") ]
           0)
    | Raise e =>
        (Ok Agents.DEFAULT_MESSAGE,
         extend w
           [ completion_event self prompt;
             EvLogError ("Error getting completion: " +:+ exn_str e) ] 0)
    end.
Proof.
  unfold Agents._get_completion, completion_answer, completion_event,
    try_except, bind, call, emit, raise, ret, extend.
  rewrite Nat.add_0_r.
  destruct (completion E (log w) _) as [[|[content|] choices]|e];
    cbn [log draws objects exn_str]; rewrite <- ?app_assoc; reflexivity.
Qed.

Lemma segmented_Forall l : segmented l -> Forall unit_ok l.
Proof.
  induction l as [|x l IH]; intros Hl; [constructor|].
  apply segmented_inv in Hl as [Hx Hl]. constructor; [exact Hx | by apply IH].
Qed.

Lemma drop_while_head {A} (p : A -> bool) (l : list A) :
  drop_while p l = []
  \/ exists x t, drop_while p l = x :: t /\ p x = false /\ x ∈ l.
Proof.
  induction l as [|a l IH]; [by left|]. simpl.
  destruct (p a) eqn:Ha.
  - destruct IH as [-> | (x & t & -> & Hx & Hin)]; [by left|].
    right. exists x, t. split; [reflexivity|]. split; [exact Hx|]. by right.
  - right. exists a, l. split; [reflexivity|]. split; [exact Ha | by left].
Qed.

Lemma drop_while_snoc {A} (p : A -> bool) (l : list A) (x : A) :
  p x = false -> exists u, drop_while p (l ++ [x]) = u ++ [x].
Proof.
  intros Hx. induction l as [|a l IH]; simpl.
  - rewrite Hx. by exists [].
  - destruct (p a); [exact IH|]. by exists (a :: l).
Qed.

(** A stripped string is empty or starts with a character that is not
    white space. *)
Lemma strip_head (s : string) :
  strip s = ""
  \/ exists x t, strip s = x +:+ t /\ isspace x = false /\ unit_ok x.
Proof.
  unfold strip.
  destruct (drop_while_head isspace (chars s))
    as [-> | (x & t & -> & Hx & Hin)]; [by left|].
  right. cbn [rev].
  destruct (drop_while_snoc isspace (rev t) x Hx) as [u ->].
  rewrite rev_app_distr. cbn [rev app concat_strs foldr].
  exists x, (concat_strs (rev u)). split; [reflexivity|].
  split; [exact Hx|].
  pose proof (segmented_Forall _ (chars_segmented s)) as Hall.
  rewrite Forall_forall in Hall. by apply Hall.
Qed.

Lemma strip_not_DEFAULT_MESSAGE (s : string) :
  strip s <> Agents.DEFAULT_MESSAGE.
Proof.
  assert (Hdef : exists rest,
            Agents.DEFAULT_MESSAGE = String (ascii_of_nat 10) rest)
    by (eexists; vm_compute; reflexivity).
  destruct Hdef as [rest Hdef]. rewrite Hdef.
  destruct (strip_head s) as [-> | (x & t & -> & Hx & Hok)]; [discriminate|].
  destruct x as [|b r]; [contradiction|].
  rewrite append_cons. intros [= -> Hrest].
  simpl in Hok. destruct r as [|c r]; [|simpl in Hok; lia].
  discriminate Hx.
Qed.

(** X9. [enhance_message] returns the stripped answer of the service
    whenever the service answers, and the message it was given whenever
    the remote call fails; an answer is never mistaken for a failure,
    since a stripped text cannot equal [DEFAULT_MESSAGE], which begins
    with a line feed.  It never raises. *)
Theorem enhance_message_result :
  forall E self message tone w,
    let prompt := Agents.enhance_prompt message tone in
    (forall content others,
       completion_answer E (log w) prompt = Ok (Some content :: others) ->
       Agents.enhance_message E self message tone w
       = (Ok (strip content), extend w [completion_event self prompt] 0))
    /\ (remote_call_fails E (log w) prompt ->
        exists w',
          Agents.enhance_message E self message tone w = (Ok message, w'))
    /\ (exists text w',
          Agents.enhance_message E self message tone w = (Ok text, w')).
Proof.
  intros E self message tone w prompt.
  assert (Hrun : forall text w1,
            Agents._get_completion E self prompt w = (Ok text, w1) ->
            Agents.enhance_message E self message tone w
            = (Ok (if negb (String.eqb text Agents.DEFAULT_MESSAGE)
                   then text else message), w1)).
  { intros text w1 Hc. unfold Agents.enhance_message, bind. fold prompt.
    by rewrite Hc. }
  split; [|split].
  - intros content others Hans.
    rewrite (Hrun (strip content) (extend w [completion_event self prompt] 0)).
    + destruct (String.eqb_spec (strip content) Agents.DEFAULT_MESSAGE) as [Heq|];
        [by apply strip_not_DEFAULT_MESSAGE in Heq | reflexivity].
    + rewrite get_completion_run. by rewrite Hans.
  - intros Hfail.
    destruct (get_completion_failure E self prompt w Hfail) as (w1 & Hc).
    exists w1. rewrite (Hrun _ _ Hc). by rewrite String.eqb_refl.
  - destruct (get_completion_total E self prompt w) as (text & w1 & Hc).
    eexists _, w1. by apply Hrun.
Qed.

Lemma enhance_message_result_witness :
  (completion_answer (eloquent "  Eid Mubarak, dear friend!  ") (log world0)
     (Agents.enhance_prompt "Eid Mubarak" "formal")
   = Ok [Some "  Eid Mubarak, dear friend!  "]
   /\ (Agents.enhance_message (eloquent "  Eid Mubarak, dear friend!  ")
         (Agents.EidAgent_init "secret") "Eid Mubarak" "formal" world0).1
      = Ok "Eid Mubarak, dear friend!")
  /\ (remote_call_fails Scenarios.configured (log world0)
        (Agents.enhance_prompt "Eid Mubarak" "formal")
      /\ exists w',
           Agents.enhance_message Scenarios.configured
             (Agents.EidAgent_init "secret") "Eid Mubarak" "formal" world0
           = (Ok "Eid Mubarak", w')).
Proof.
  split; (split; [done|]).
  - destruct (enhance_message_result (eloquent "  Eid Mubarak, dear friend!  ")
                (Agents.EidAgent_init "secret") "Eid Mubarak" "formal" world0)
      as (Hanswer & _).
    by rewrite (Hanswer "  Eid Mubarak, dear friend!  " []).
  - by apply (enhance_message_result Scenarios.configured
                (Agents.EidAgent_init "secret") "Eid Mubarak" "formal" world0).
Defined.

Lemma get_completion_shape E self prompt w :
  exists text evs,
    Agents._get_completion E self prompt w = (Ok text, extend w evs 0)
    /\ (evs = [completion_event self prompt]
        \/ exists msg, evs = [completion_event self prompt; EvLogError msg]).
Proof.
  rewrite get_completion_run.
  destruct (completion_answer E (log w) prompt) as [[|[content|] choices]|e];
    eexists _, _; (split; [reflexivity|]); eauto.
Qed.

(** X10. [generate_eid_message] never raises.  Without a credential it
    calls nothing; with one it calls the text-generation service exactly
    once, with the prompt built from its arguments, and writes one log
    line if that call fails.  It draws two random numbers when it adds
    emojis, that is when [include_emojis] is set and the tone has an
    emoji set, and none otherwise. *)
Theorem generate_eid_message_calls :
  forall E recipient tone sender include_hadith include_urdu include_emojis w,
    let self :=
      Agents.EidAgent_init (default "" (getenv E "OPENROUTER_API_KEY")) in
    let call :=
      completion_event self
        (Agents.greeting_prompt recipient tone include_hadith include_urdu
           sender) in
    exists text evs n,
      Agents.generate_eid_message E recipient tone sender include_hadith
        include_urdu include_emojis w = (Ok text, extend w evs n)
      /\ (truthy (getenv E "OPENROUTER_API_KEY") = false ->
          evs = [] /\ n = 0%nat)
      /\ (truthy (getenv E "OPENROUTER_API_KEY") = true ->
          (evs = [call] \/ exists msg, evs = [call; EvLogError msg])
          /\ n = if include_emojis && bool_decide (is_Some (Agents.EMOJI_SETS !! tone))
                 then 2%nat else 0%nat).
Proof.
  intros E recipient tone sender include_hadith include_urdu include_emojis w
    self call. subst call.
  unfold Agents.generate_eid_message.
  destruct (truthy (getenv E "OPENROUTER_API_KEY")) eqn:Hkey; cbn [negb].
  2:{ exists Agents.DEFAULT_MESSAGE, [], 0%nat. split.
      - unfold ret, extend. rewrite app_nil_r, Nat.add_0_r. by destruct w.
      - split; [done | discriminate]. }
  unfold Agents.craft_message, Agents.generate_greeting.
  cbn [default Agents.pref_include_hadith Agents.pref_include_urdu
       Agents.pref_include_emojis Agents.pref_emoji_count Agents.pref_sender].
  cbn [id]. fold self. unfold bind at 1.
  destruct (get_completion_shape E self
              (Agents.greeting_prompt recipient tone include_hadith
                 include_urdu sender) w) as (text & evs & -> & Hevs).
  destruct include_emojis; cbn [andb].
  2:{ exists text, evs, 0%nat. split; [reflexivity|].
      split; [discriminate | by intros _]. }
  change (0 <? 2) with true. cbv iota.
  destruct (Agents.EMOJI_SETS !! tone) as [set|] eqn:Hset.
  2:{ exists text, evs, 0%nat. split; [reflexivity|].
      split; [discriminate|]. intros _. split; [exact Hevs|].
      rewrite bool_decide_eq_false_2; [reflexivity|].
      by intros [? [=]]. }
  destruct (EMOJI_SETS_tones tone (EMOJI_SETS_lookup _ _ Hset))
    as (set' & Hset' & Hlen & Hnd & _).
  rewrite Hset in Hset'. injection Hset' as <-.
  rewrite Hlen. change (Z.min 2 (Z.of_nat 10)) with 2.
  unfold bind, random_draws, lift.
  match goal with
  | |- context [sample ?rnd set 2] =>
      destruct (sample_spec rnd set 2) as (emojis & -> & _);
        [rewrite Hlen; lia | exact Hnd |]
  end.
  eexists _, evs, 2%nat. split.
  - unfold ret, extend. cbn [log draws objects]. by rewrite Nat.add_0_r.
  - split; [discriminate|]. intros _. split; [exact Hevs|].
    rewrite bool_decide_eq_true_2; [reflexivity | by eexists].
Qed.

Lemma generate_eid_message_calls_witness :
  truthy (getenv (eloquent "Eid Mubarak!") "OPENROUTER_API_KEY") = true
  /\ exists text evs,
       Agents.generate_eid_message (eloquent "Eid Mubarak!") "Ali" "formal"
         "Sara" false false true world0 = (Ok text, extend world0 evs 2)
       /\ (length evs <= 2)%nat.
Proof.
  split; [reflexivity|].
  destruct (generate_eid_message_calls (eloquent "Eid Mubarak!") "Ali"
              "formal" "Sara" false false true world0)
    as (text & evs & n & Hrun & _ & Hkey).
  destruct (Hkey eq_refl) as [Hevs Hn].
  rewrite bool_decide_eq_true_2 in Hn by (by eexists).
  cbn [andb] in Hn. subst n.
  exists text, evs. split; [exact Hrun|].
  destruct Hevs as [-> | [msg ->]]; simpl; lia.
Defined.

(* ===================================================================== *)
(** * Fonts                                                                *)
(* ===================================================================== *)

Lemma extend_nil w n :
  World (log w) (draws w + n)%nat (objects w) = extend w [] n.
Proof. unfold extend. by rewrite app_nil_r. Qed.

Lemma choose_run {A} E (l : list A) w :
  l <> [] ->
  exists x,
    choice (random_raw E (draws w)) l = Ok x /\ x ∈ l
    /\ bind (random_draws E 1) (fun rnd => lift (choice (rnd 0%nat) l)) w
       = (Ok x, extend w [] 1).
Proof.
  intros Hne.
  destruct (choice_elem (random_raw E (draws w)) l Hne) as (x & Hx & Hin).
  exists x. split; [exact Hx|]. split; [exact Hin|].
  unfold bind, random_draws, lift. cbn [log draws objects].
  by rewrite Nat.add_0_r, Hx, extend_nil.
Qed.

(** X11. [download_google_fonts] never raises, and what it returns is
    one of the five combinations of [get_available_fonts], with its
    "title", "body" and "url" entries.  For one of the names "Classic",
    "Modern", "Elegant" it is the combination recorded under that name
    and no random number is drawn; for any other argument, no argument
    or the empty string, it is chosen with one random number. *)
Theorem download_google_fonts_result :
  forall E theme w,
  exists fonts n,
    FontUtils.download_google_fonts E theme w = (Ok fonts, extend w [] n)
    /\ fonts ∈ FontUtils.get_available_fonts
    /\ font_entries fonts
    /\ (forall name,
          theme = Some name -> name ∈ font_themes ->
          n = 0%nat
          /\ PdfGenerator.assoc name FontUtils.FONT_COMBINATIONS = Some fonts)
    /\ ((forall name, theme = Some name -> name ∉ font_themes) ->
        n = 1%nat
        /\ choice (random_raw E (draws w)) FontUtils.get_available_fonts
           = Ok fonts).
Proof.
  intros E theme w.
  assert (Hentries : Forall font_entries FontUtils.get_available_fonts)
    by (apply (bool_decide_unpack _); vm_compute; exact I).
  rewrite Forall_forall in Hentries.
  assert (Hknown : forall name fonts,
            PdfGenerator.assoc name FontUtils.FONT_COMBINATIONS = Some fonts ->
            name ∈ font_themes /\ name <> ""
            /\ fonts ∈ FontUtils.get_available_fonts).
  { intros name fonts. unfold FontUtils.FONT_COMBINATIONS.
    cbn [PdfGenerator.assoc].
    destruct (String.eqb_spec name "Classic") as [-> | _];
      [| destruct (String.eqb_spec name "Modern") as [-> | _];
         [| destruct (String.eqb_spec name "Elegant") as [-> | _];
            [|discriminate] ] ];
      (intros [= <-]; split; [set_solver|]; split; [done|];
       apply (bool_decide_unpack _); vm_compute; exact I). }
  assert (Hunknown : forall name,
            name ∉ font_themes ->
            PdfGenerator.assoc name FontUtils.FONT_COMBINATIONS = None).
  { intros name Hnot.
    destruct (PdfGenerator.assoc name _) as [fonts|] eqn:Hassoc;
      [|reflexivity].
    by apply Hknown in Hassoc as [Hin _]. }
  unfold FontUtils.download_google_fonts.
  destruct (if truthy theme
            then PdfGenerator.assoc (default "" theme)
                   FontUtils.FONT_COMBINATIONS
            else None) as [fonts|] eqn:Hlook.
  - assert (Htheme : exists name,
              theme = Some name
              /\ PdfGenerator.assoc name FontUtils.FONT_COMBINATIONS
                 = Some fonts).
    { destruct theme as [name|]; [|discriminate]. exists name.
      split; [reflexivity|]. by destruct (truthy (Some name)). }
    destruct Htheme as (name & -> & Hassoc).
    destruct (Hknown name fonts Hassoc) as (Hin & _ & Havail).
    exists fonts, 0%nat. split.
    { unfold ret, extend. rewrite app_nil_r, Nat.add_0_r. by destruct w. }
    split; [exact Havail|]. split; [by apply Hentries|]. split.
    + intros name' [= <-] _. by split.
    + intros Hnot. by destruct (Hnot name eq_refl).
  - destruct (choose_run E FontUtils.all_combinations w)
      as (fonts & Hchoice & Hin & Hrun); [discriminate|].
    exists fonts, 1%nat. split; [exact Hrun|].
    split; [exact Hin|]. split; [by apply Hentries|]. split.
    + intros name -> Hname. exfalso.
      assert (Hne : truthy (Some name) = true).
      { unfold font_themes in Hname.
        repeat (apply elem_of_cons in Hname as [-> | Hname];
                [reflexivity|]).
        by apply elem_of_nil in Hname. }
      rewrite Hne in Hlook.
      change (default "" (Some name)) with name in Hlook.
      revert Hlook. unfold font_themes in Hname.
      repeat (apply elem_of_cons in Hname as [-> | Hname];
              [cbn [PdfGenerator.assoc String.eqb Ascii.eqb Bool.eqb];
               discriminate|]).
      by apply elem_of_nil in Hname.
    + intros _. by split.
Qed.

Lemma download_google_fonts_result_witness :
  (exists fonts,
     FontUtils.download_google_fonts Scenarios.offline (Some "Elegant") world0
     = (Ok fonts, extend world0 [] 0)
     /\ fonts !! "title" = Some "Cormorant Garamond")
  /\ (exists fonts,
        FontUtils.download_google_fonts Scenarios.offline None world0
        = (Ok fonts, extend world0 [] 1)
        /\ is_Some (fonts !! "url")).
Proof.
  split.
  - destruct (download_google_fonts_result Scenarios.offline (Some "Elegant")
                world0) as (fonts & n & Hrun & _ & _ & Hknown & _).
    destruct (Hknown "Elegant" eq_refl) as [-> Hassoc];
      [by apply (bool_decide_unpack _)|].
    exists fonts. split; [exact Hrun|].
    injection Hassoc as <-. reflexivity.
  - destruct (download_google_fonts_result Scenarios.offline None world0)
      as (fonts & n & Hrun & _ & Hentries & _ & Hrandom).
    destruct Hrandom as [-> _]; [discriminate|].
    exists fonts. split; [exact Hrun | apply Hentries].
Defined.

(** X12. [get_random_font_combination] never raises: it draws two random
    numbers, the first for a heading font among the four heading fonts,
    the second for a body font among the four body fonts. *)
Theorem get_random_font_combination_result :
  forall E w,
  exists heading body,
    Tools.get_random_font_combination E w
    = (Ok (heading, body), extend w [] 2)
    /\ heading ∈ Tools.heading_fonts /\ body ∈ Tools.body_fonts
    /\ Tools.heading_fonts !! (random_raw E (draws w) mod 4)%nat
       = Some heading
    /\ Tools.body_fonts !! (random_raw E (S (draws w)) mod 4)%nat = Some body.
Proof.
  intros E w. unfold Tools.get_random_font_combination.
  unfold bind, random_draws, lift, ret. cbn [log draws objects].
  rewrite !Nat.add_0_r.
  destruct (choice_elem (random_raw E (draws w)) Tools.heading_fonts)
    as (heading & Hh & Hhin); [discriminate|].
  destruct (choice_elem (random_raw E (draws w + 1)) Tools.body_fonts)
    as (body & Hb & Hbin); [discriminate|].
  rewrite Hh, Hb. exists heading, body. split.
  { unfold extend. rewrite app_nil_r. do 2 f_equal. lia. }
  split; [exact Hhin|]. split; [exact Hbin|].
  unfold choice in Hh, Hb. cbn [length Tools.heading_fonts Tools.body_fonts] in *.
  replace (S (draws w)) with (draws w + 1)%nat by lia.
  split.
  - destruct (Tools.heading_fonts !! _) eqn:Hl; [|discriminate].
    by injection Hh as ->.
  - destruct (Tools.body_fonts !! _) eqn:Hl; [|discriminate].
    by injection Hb as ->.
Qed.

(* ===================================================================== *)
(** * The runner                                                           *)
(* ===================================================================== *)

Section ComposerCalls.
Variable E : env.
Variable self : Agents.EidAgent.

Lemma get_completion_calls prompt w :
  exists text evs,
    Agents._get_completion E self prompt w = (Ok text, extend w evs 0)
    /\ one_completion evs.
Proof.
  destruct (get_completion_shape E self prompt w)
    as (text & evs & Hrun & [-> | [msg ->]]);
    exists text; eexists; (split; [exact Hrun|]);
    (split; [repeat constructor | reflexivity]).
Qed.

Lemma generate_greeting_calls recipient tone include_hadith include_urdu
    (m : Z) sender w :
  exists text evs n,
    Agents.generate_greeting E self recipient tone include_hadith
      include_urdu m sender w = (Ok text, extend w evs n)
    /\ one_completion evs.
Proof.
  unfold Agents.generate_greeting. unfold bind at 1.
  destruct (get_completion_calls
              (Agents.greeting_prompt recipient tone include_hadith
                 include_urdu sender) w) as (text & evs & -> & Hevs).
  destruct (0 <? m) eqn:Hm; [|by exists text, evs, 0%nat].
  apply Z.ltb_lt in Hm.
  destruct (Agents.EMOJI_SETS !! tone) as [set|] eqn:Hset;
    [|by exists text, evs, 0%nat].
  destruct (EMOJI_SETS_tones tone (EMOJI_SETS_lookup _ _ Hset))
    as (set' & Hset' & Hlen & Hnd & _).
  rewrite Hset in Hset'. injection Hset' as <-.
  unfold bind, random_draws, lift.
  match goal with
  | |- context [sample ?rnd set ?k] =>
      destruct (sample_spec rnd set k) as (emojis & -> & _);
        [rewrite Hlen; lia | exact Hnd |]
  end.
  eexists _, evs, _. split; [|exact Hevs].
  unfold ret, extend. cbn [log draws objects]. by rewrite Nat.add_0_r.
Qed.

Lemma suggest_theme_calls tone message w :
  exists name evs,
    Agents.suggest_theme E self tone message w = (Ok name, extend w evs 0)
    /\ one_completion evs.
Proof.
  unfold Agents.suggest_theme, bind.
  destruct (get_completion_calls (Agents.theme_prompt tone message) w)
    as (text & evs & -> & Hevs).
  by eexists _, evs.
Qed.

End ComposerCalls.

(** X13. A runner is constructed exactly when a credential is given or
    configured, and its agent then uses the given key when that is a
    non-empty string, otherwise the configured one.  [generate_card]
    never returns a card: it composes the message and asks for the
    theme, two remote calls, and then raises [TypeError], because it
    calls [style_card] with two arguments; no preview is built and no
    document is written. *)
Theorem runner_never_delivers :
  forall E key w,
    let effective := or_else key (getenv E "OPENROUTER_API_KEY") in
    (truthy effective = false ->
     Runner.EidCardRunner_init E key w
     = (Raise (Exn ValueError "OpenRouter API key is required"), w))
    /\ (truthy effective = true ->
        exists self,
          Runner.EidCardRunner_init E key w = (Ok self, w)
          /\ Runner.eid_agent self
             = Agents.EidAgent_init (default "" effective))
    /\ (forall self recipient tone preferences colors shape output_path,
        exists evs n,
          Runner.generate_card E self recipient tone preferences colors shape
            output_path w
          = (Raise (Exn TypeError
                      "style_card() takes 1 positional argument but 2 were given"),
             extend w evs n)
          /\ Forall composer_call evs
          /\ length (List.filter is_completion evs) = 2%nat).
Proof.
  intros E key w effective. split; [|split].
  - intros Hkey. unfold Runner.EidCardRunner_init. fold effective.
    by rewrite Hkey.
  - intros Hkey. unfold Runner.EidCardRunner_init. fold effective.
    rewrite Hkey. eexists. split; reflexivity.
  - intros self recipient tone preferences colors shape output_path.
    unfold Runner.generate_card, Agents.craft_message, Agents.get_theme.
    unfold bind at 1.
    destruct (generate_greeting_calls E (Runner.eid_agent self) recipient tone
                (default false (Agents.pref_include_hadith preferences))
                (default false (Agents.pref_include_urdu preferences))
                (if default true (Agents.pref_include_emojis preferences)
                 then default 2 (Agents.pref_emoji_count preferences) else 0)
                (default "" (Agents.pref_sender preferences)) w)
      as (message & evs1 & n & -> & Hall1 & Hone1).
    unfold bind at 1.
    destruct (suggest_theme_calls E (Runner.eid_agent self) tone message
                (extend w evs1 n)) as (name & evs2 & -> & Hall2 & Hone2).
    exists (evs1 ++ evs2), n. split.
    + rewrite extend_extend, Nat.add_0_r. reflexivity.
    + split; [by apply Forall_app|].
      rewrite List.filter_app, length_app, Hone1, Hone2. reflexivity.
Qed.

Lemma runner_never_delivers_witness :
  (truthy (or_else None (getenv Scenarios.offline "OPENROUTER_API_KEY"))
   = false
   /\ (Runner.EidCardRunner_init Scenarios.offline None world0).1
      = Raise (Exn ValueError "OpenRouter API key is required"))
  /\ (truthy (or_else (Some "sk-1")
                (getenv Scenarios.offline "OPENROUTER_API_KEY")) = true
      /\ exists self,
           (Runner.EidCardRunner_init Scenarios.offline (Some "sk-1")
              world0).1 = Ok self
           /\ exists w',
                Runner.generate_card Scenarios.offline self "Ali" "formal"
                  (Agents.Preferences None None None None None) None
                  "rectangle" None world0
                = (Raise
                     (Exn TypeError
                        "style_card() takes 1 positional argument but 2 were given"),
                   w')).
Proof.
  destruct (runner_never_delivers Scenarios.offline None world0)
    as (Hnone & _ & _).
  destruct (runner_never_delivers Scenarios.offline (Some "sk-1") world0)
    as (_ & Hsome & Hcard).
  split; (split; [reflexivity|]).
  - by rewrite Hnone.
  - destruct (Hsome eq_refl) as (self & Hinit & _).
    exists self. split; [by rewrite Hinit|].
    destruct (Hcard self "Ali" "formal"
                (Agents.Preferences None None None None None) None
                "rectangle" None) as (evs & n & Hrun & _).
    eexists. exact Hrun.
Defined.

(* ===================================================================== *)
(** * The font cache                                                       *)
(* ===================================================================== *)

Section FontCache.
Variable E : env.
Variables font_dir font_base : string.
Variable styles : list (string * string).

Lemma download_font_calls style url w :
  PdfGenerator.assoc style styles = Some url ->
  exists r evs,
    PdfGenerator.download_font E font_dir font_base styles style w
    = (Ok r, extend w evs 0)
    /\ Forall font_call evs /\ (downloads evs <= 1)%nat
    /\ ((forall h p, path_exists E h p = true) -> evs = []).
Proof.
  intros Hurl. unfold PdfGenerator.download_font, bind at 1, query.
  destruct (path_exists E (log w) _) eqn:Hexists; cbn [negb].
  - exists (PdfGenerator.path_join font_dir (font_base +:+ style +:+ ".ttf")),
      [].
    split; [unfold ret, extend; rewrite app_nil_r, Nat.add_0_r; by destruct w|].
    split; [constructor|]. split; [unfold downloads; simpl; lia | done].
  - rewrite Hurl.
    unfold try_except, bind, call_, call, emit, ret.
    cbn [log draws objects].
    set (path := PdfGenerator.path_join font_dir
                   (font_base +:+ style +:+ ".ttf")) in *.
    destruct (urlretrieve E (log w) url path) as [e|].
    + exists "", [ EvUrlretrieve url path;
                   EvPrint ("Error downloading font: " +:+ exn_str e) ].
      split; [unfold extend; cbn [log draws objects];
              by rewrite <- app_assoc, Nat.add_0_r|].
      split; [repeat constructor|]. split; [unfold downloads; simpl; lia|].
      intros Hall. by rewrite Hall in Hexists.
    + exists path, [EvUrlretrieve url path].
      split; [unfold extend; cbn [log draws objects];
              by rewrite Nat.add_0_r|].
      split; [repeat constructor|]. split; [unfold downloads; simpl; lia|].
      intros Hall. by rewrite Hall in Hexists.
Qed.

Lemma download_all_calls todo w :
  (forall style url', (style, url') ∈ todo ->
     is_Some (PdfGenerator.assoc style styles)) ->
  exists evs,
    PdfGenerator.download_all E font_dir font_base styles todo w
    = (Ok tt, extend w evs 0)
    /\ Forall font_call evs /\ (downloads evs <= length todo)%nat
    /\ ((forall h p, path_exists E h p = true) -> evs = []).
Proof.
  revert w. induction todo as [|[style url'] rest IH]; intros w Hin.
  - exists []. split.
    { unfold ret, extend. simpl. rewrite app_nil_r, Nat.add_0_r.
      by destruct w. }
    split; [constructor|]. split; [unfold downloads; simpl; lia | done].
  - cbn [PdfGenerator.download_all]. unfold bind at 1.
    destruct (Hin style url') as [url Hurl]; [by left|].
    destruct (download_font_calls style url w Hurl)
      as (r & evs1 & -> & Hall1 & Hcount1 & Hnone1).
    destruct (IH (extend w evs1 0)) as (evs2 & -> & Hall2 & Hcount2 & Hnone2).
    { intros s u Hs. apply (Hin s u). by right. }
    exists (evs1 ++ evs2). split; [by rewrite extend_extend|].
    split; [by apply Forall_app|]. split.
    + unfold downloads in *. rewrite List.filter_app, length_app. simpl. lia.
    + intros Hexists. by rewrite Hnone1, Hnone2.
Qed.

End FontCache.

(** X14. [get_font_path] returns the empty string, and does nothing, for
    every font whose lower-cased name is not "roboto".  For Roboto,
    once the font directory can be created, it returns the path of
    "roboto.ttf" in that directory whether or not the downloads succeed:
    a failed download is only printed.  It makes at most three
    downloads, and none when the font files exist. *)
Theorem get_font_path_result :
  forall E font_name w,
    (str_lower E font_name <> "roboto" ->
     PdfGenerator.get_font_path E font_name w = (Ok "", w))
    /\ (str_lower E font_name = "roboto" ->
        (forall e,
           mkdir E (log w) (roboto_dir E) = Some e ->
           PdfGenerator.get_font_path E font_name w
           = (Raise e, extend w [EvMkdir (roboto_dir E)] 0))
        /\ (mkdir E (log w) (roboto_dir E) = None ->
            exists evs,
              PdfGenerator.get_font_path E font_name w
              = (Ok (roboto_path E),
                 extend w (EvMkdir (roboto_dir E) :: evs) 0)
              /\ Forall font_call evs
              /\ (downloads evs <= 3)%nat
              /\ ((forall h p, path_exists E h p = true) -> evs = []))).
Proof.
  intros E font_name w. unfold PdfGenerator.get_font_path.
  unfold PdfGenerator.font_urls. cbn [PdfGenerator.assoc]. split.
  - intros Hother.
    destruct (String.eqb_spec (str_lower E font_name) "roboto");
      [contradiction | reflexivity].
  - intros ->. cbn [String.eqb Ascii.eqb Bool.eqb andb].
    fold (roboto_dir E).
    split.
    + intros e Hmkdir. unfold bind at 1, call_, call. rewrite Hmkdir.
      unfold extend. by rewrite Nat.add_0_r.
    + intros Hmkdir. unfold bind at 1, call_, call. rewrite Hmkdir.
      unfold bind at 1.
      match goal with
      | |- context [PdfGenerator.download_all E ?d ?b ?s ?t ?w0] =>
          destruct (download_all_calls E d b s t w0)
            as (evs & -> & Hall & Hcount & Hnone)
      end.
      { intros style url' Hin.
        repeat (apply elem_of_cons in Hin as [[= -> _] | Hin];
                [by eexists|]).
        by apply elem_of_nil in Hin. }
      exists evs. split.
      { unfold ret, extend. cbn [log draws objects].
        rewrite !Nat.add_0_r, <- app_assoc. reflexivity. }
      split; [exact Hall|]. split; [exact Hcount | exact Hnone].
Qed.

Lemma get_font_path_result_witness :
  (str_lower Scenarios.offline "Helvetica" <> "roboto"
   /\ PdfGenerator.get_font_path Scenarios.offline "Helvetica" world0
      = (Ok "", world0))
  /\ (str_lower fontless "roboto" = "roboto"
      /\ mkdir fontless (log world0) (roboto_dir fontless) = None
      /\ exists evs,
           PdfGenerator.get_font_path fontless "roboto" world0
           = (Ok "/app/fonts/roboto/roboto.ttf",
              extend world0 (EvMkdir "/app/fonts/roboto" :: evs) 0)
           /\ (downloads evs <= 3)%nat).
Proof.
  split.
  - assert (Hother : str_lower Scenarios.offline "Helvetica" <> "roboto")
      by discriminate.
    split; [exact Hother|].
    by apply (get_font_path_result Scenarios.offline "Helvetica" world0).
  - split; [reflexivity|]. split; [reflexivity|].
    destruct (get_font_path_result fontless "roboto" world0) as [_ Hroboto].
    destruct (Hroboto eq_refl) as [_ Hok].
    destruct (Hok eq_refl) as (evs & Hrun & _ & Hcount & _).
    exists evs. split; [exact Hrun | exact Hcount].
Defined.

(* ===================================================================== *)
(** * The background picture of the document                               *)
(* ===================================================================== *)

(** X15. The picture [create_pdf_card] embeds is the background under a
    white layer of opacity 80/255, in mode RGB and of the size of the
    background, saved as PNG to a temporary file and placed on the whole
    page.  The temporary file is removed after the picture was embedded;
    when saving or embedding raises, the exception passes to the caller
    and the file is left behind. *)
Theorem embed_background_temp_file :
  forall E pdf bg w path,
    let h1 := (log w ++ [overlay_event bg])%list in
    let h2 := (h1 ++ [EvNamedTemporaryFile ".png"])%list in
    let h3 := (h2 ++ [save_event bg path])%list in
    let h4 := (h3 ++ [EvPdf pdf (embed_op path)])%list in
    mktemp E h1 ".png" = Ok path ->
    (img_mode (flattened bg) = "RGB" /\ img_size (flattened bg) = img_size bg)
    /\ (image_save E h2 (flattened bg) path = None ->
        pdf_raises E h3 pdf (embed_op path) = None ->
        unlink E h4 path = None ->
        Main.embed_background E pdf bg w
        = (Ok tt,
           extend w
             [ overlay_event bg; EvNamedTemporaryFile ".png";
               save_event bg path; EvPdf pdf (embed_op path);
               EvUnlink path ] 0))
    /\ (forall e,
          image_save E h2 (flattened bg) path = Some e ->
          Main.embed_background E pdf bg w
          = (Raise e,
             extend w
               [ overlay_event bg; EvNamedTemporaryFile ".png";
                 save_event bg path ] 0))
    /\ (forall e,
          image_save E h2 (flattened bg) path = None ->
          pdf_raises E h3 pdf (embed_op path) = Some e ->
          Main.embed_background E pdf bg w
          = (Raise e,
             extend w
               [ overlay_event bg; EvNamedTemporaryFile ".png";
                 save_event bg path; EvPdf pdf (embed_op path) ] 0)).
Proof.
  intros E pdf bg w path h1 h2 h3 h4 Htemp.
  assert (Hflat :
    Main.convert
      (Main.alpha_composite
         (if negb (String.eqb (img_mode bg) "RGBA")
          then Main.convert bg "RGBA" else bg)
         (Image "RGBA" (img_size bg) (Solid [255; 255; 255; 80]))) "RGB"
    = flattened bg).
  { unfold flattened. by destruct (String.eqb (img_mode bg) "RGBA"). }
  assert (Hrun : forall (outcome : result unit * world),
    (match image_save E h2 (flattened bg) path with
     | Some e => (Raise e, World h3 (draws w) (objects w))
     | None =>
         match pdf_raises E h3 pdf (embed_op path) with
         | Some e => (Raise e, World h4 (draws w) (objects w))
         | None =>
             (match unlink E h4 path with
              | Some e => Raise e
              | None => Ok tt
              end,
              World (h4 ++ [EvUnlink path]) (draws w) (objects w))
         end
     end) = outcome ->
    Main.embed_background E pdf bg w = outcome).
  { intros outcome <-.
    unfold Main.embed_background, Main.Image_new, bind, emit, ret, call_,
      call. cbn [log draws objects]. rewrite Hflat.
    fold (overlay_event bg). fold h1. rewrite Htemp. fold h2.
    fold (save_event bg path). fold (embed_op path).
    destruct (image_save E h2 (flattened bg) path); [reflexivity|].
    fold h3. destruct (pdf_raises E h3 pdf (embed_op path)); [reflexivity|].
    fold h4. destruct (unlink E h4 path); reflexivity. }
  split; [|split; [|split]].
  - unfold flattened. cbn [Main.convert Main.alpha_composite img_mode img_size].
    by destruct (String.eqb (img_mode bg) "RGBA").
  - intros Hsave Himage Hunlink. apply Hrun.
    rewrite Hsave, Himage, Hunlink. unfold extend, h4, h3, h2, h1.
    by rewrite <- !app_assoc, Nat.add_0_r.
  - intros e Hsave. apply Hrun. rewrite Hsave.
    unfold extend, h3, h2, h1. by rewrite <- !app_assoc, Nat.add_0_r.
  - intros e Hsave Himage. apply Hrun. rewrite Hsave, Himage.
    unfold extend, h4, h3, h2, h1. by rewrite <- !app_assoc, Nat.add_0_r.
Qed.

Lemma embed_background_temp_file_witness :
  (mktemp Scenarios.offline
     [overlay_event Main.solid_background] ".png" = Ok "/tmp/tmpcard.png")
  /\ Main.embed_background Scenarios.offline 0 Main.solid_background world0
     = (Ok tt,
        extend world0
          [ overlay_event Main.solid_background;
            EvNamedTemporaryFile ".png";
            save_event Main.solid_background "/tmp/tmpcard.png";
            EvPdf 0 (embed_op "/tmp/tmpcard.png");
            EvUnlink "/tmp/tmpcard.png" ] 0)
  /\ Main.embed_background unreadable_picture 0 Main.solid_background world0
     = (Raise (Exn OtherError "Unsupported image"),
        extend world0
          [ overlay_event Main.solid_background;
            EvNamedTemporaryFile ".png";
            save_event Main.solid_background "/tmp/tmpcard.png";
            EvPdf 0 (embed_op "/tmp/tmpcard.png") ] 0).
Proof.
  split; [reflexivity|]. split.
  - destruct (embed_background_temp_file Scenarios.offline 0
                Main.solid_background world0 "/tmp/tmpcard.png" eq_refl)
      as (_ & Hok & _).
    by apply Hok.
  - destruct (embed_background_temp_file unreadable_picture 0
                Main.solid_background world0 "/tmp/tmpcard.png" eq_refl)
      as (_ & _ & _ & Himage).
    by apply Himage.
Defined.

(* ===================================================================== *)
(** * Lines of a text                                                      *)
(* ===================================================================== *)

Lemma splitlines_nonempty (s : string) : splitlines s <> [].
Proof.
  unfold splitlines. induction s as [|c s IH]; cbn [split]; [done|].
  destruct (Ascii.eqb c _); [done|]. by destruct (split _ s).
Qed.

Lemma splitlines_cons (c : ascii) (s : string) :
  splitlines (String c s)
  = if Ascii.eqb c (ascii_of_nat 10) then "" :: splitlines s
    else match splitlines s with
         | x :: l => String c x :: l
         | [] => [String c ""]
         end.
Proof. reflexivity. Qed.

(** A line has no line feed. *)
Lemma splitlines_one_line (s : string) :
  Forall (fun line => has_newline line = false) (splitlines s).
Proof.
  induction s as [|c s IH]; [by repeat constructor|].
  rewrite splitlines_cons.
  destruct (Ascii.eqb c (ascii_of_nat 10)) eqn:Hc;
    [constructor; [reflexivity | exact IH]|].
  destruct (splitlines s) as [|x l]; [by repeat constructor; simpl; rewrite Hc|].
  apply Forall_cons in IH as [Hx Hl]. constructor; [|exact Hl].
  simpl. by rewrite Hc, Hx.
Qed.

Lemma splitlines_line (x : string) :
  has_newline x = false -> splitlines x = [x].
Proof.
  induction x as [|c x IH]; [reflexivity|]. simpl.
  intros [Hc Hx]%orb_false_iff. rewrite splitlines_cons, Hc, IH by exact Hx.
  reflexivity.
Qed.

Lemma splitlines_app (x rest : string) :
  has_newline x = false ->
  splitlines (x +:+ nl +:+ rest) = x :: splitlines rest.
Proof.
  induction x as [|c x IH]; [reflexivity|]. simpl.
  intros [Hc Hx]%orb_false_iff.
  rewrite append_cons, splitlines_cons, Hc, IH by exact Hx. reflexivity.
Qed.

(** The lines joined by line feeds, split again, are the lines. *)
Lemma splitlines_join (ls : list string) :
  ls <> [] -> Forall (fun line => has_newline line = false) ls ->
  splitlines (join nl ls) = ls.
Proof.
  induction ls as [|x ls IH]; [done|]. intros _ Hall.
  apply Forall_cons in Hall as [Hx Hls].
  destruct ls as [|y ls]; [by apply splitlines_line|].
  change (join nl (x :: y :: ls)) with (x +:+ nl +:+ join nl (y :: ls)).
  rewrite splitlines_app by exact Hx. by rewrite IH.
Qed.

(** The lines of a text, joined by line feeds, are the text. *)
Lemma join_splitlines (s : string) : join nl (splitlines s) = s.
Proof.
  induction s as [|c s IH]; [reflexivity|].
  rewrite splitlines_cons.
  pose proof (splitlines_nonempty s) as Hne.
  destruct (Ascii.eqb_spec c (ascii_of_nat 10)) as [-> | _].
  - destruct (splitlines s) as [|x l] eqn:Hs; [done|].
    change (join nl ("" :: x :: l)) with ("" +:+ nl +:+ join nl (x :: l)).
    by rewrite IH.
  - destruct (splitlines s) as [|x l] eqn:Hs; [done|].
    destruct l as [|y l]; cbn [join] in *; [by rewrite IH|].
    rewrite append_cons. by rewrite IH.
Qed.

(* ===================================================================== *)
(** * The colours the renderers read                                       *)
(* ===================================================================== *)

Lemma create_preview_ext message recipient (t1 t2 : gmap string string) :
  default "#ffffff" (t1 !! "bg_color") = default "#ffffff" (t2 !! "bg_color") ->
  default "#000000" (t1 !! "text_color")
    = default "#000000" (t2 !! "text_color") ->
  default "#4a4a4a" (t1 !! "title_color")
    = default "#4a4a4a" (t2 !! "title_color") ->
  PdfGenerator.create_preview message recipient t1
  = PdfGenerator.create_preview message recipient t2.
Proof.
  intros Hbg Htext Htitle. unfold PdfGenerator.create_preview.
  rewrite Hbg, Htext, Htitle. reflexivity.
Qed.

(** The three style declarations of the preview of a theme without the
    keys the renderer reads. *)
Lemma create_preview_fallback_colours message recipient
    (theme : gmap string string) :
  theme !! "bg_color" = None -> theme !! "text_color" = None ->
  theme !! "title_color" = None ->
  let lines :=
    splitlines (PdfGenerator.create_preview message recipient theme) in
  lines !! 7%nat = Some "        background-color: #ffffff;"
  /\ lines !! 8%nat = Some "        color: #000000;"
  /\ lines !! 14%nat = Some "            color: #4a4a4a;".
Proof.
  intros Hbg Htext Htitle lines. subst lines.
  unfold PdfGenerator.create_preview. rewrite Hbg, Htext, Htitle.
  cbn [default join].
  do 15 (rewrite splitlines_app by reflexivity).
  repeat split; reflexivity.
Qed.


(* ===================================================================== *)
(** * The clean-up of a message                                            *)
(* ===================================================================== *)

Lemma Forall_list_filter {A} (P : A -> Prop) (p : A -> bool) (l : list A) :
  Forall P l -> Forall P (List.filter p l).
Proof.
  induction 1 as [|x l Hx Hl IH]; simpl; [constructor|].
  destruct (p x); [by constructor | exact IH].
Qed.

Lemma Forall_filter_true {A} (p : A -> bool) (l : list A) :
  Forall (fun x => p x = true) (List.filter p l).
Proof.
  induction l as [|x l IH]; simpl; [constructor|].
  destruct (p x) eqn:Hx; [by constructor | exact IH].
Qed.

Lemma nonblank_strip line : nonblank line = true <-> strip line <> "".
Proof.
  unfold nonblank, truthy.
  destruct (String.eqb_spec (strip line) ""); simpl; split; congruence.
Qed.

(** X16. [create_card] keeps exactly the lines of the message that are
    not blank, once the two phrases it deletes are gone: splitting the
    cleaned message at line feeds gives these lines, so that it has no
    blank line, and neither starts nor ends with a line feed.  If there
    is no such line the cleaned message is empty; if no line is blank
    the message is left as it is. *)
Theorem clean_for_card_lines :
  forall message,
    let kept :=
      List.filter nonblank (splitlines (without_card_phrases message)) in
    (kept = [] -> Main.clean_for_card message = "")
    /\ (kept <> [] -> splitlines (Main.clean_for_card message) = kept)
    /\ (Main.clean_for_card message = ""
        \/ Forall (fun line => strip line <> "")
             (splitlines (Main.clean_for_card message)))
    /\ (Forall (fun line => nonblank line = true)
          (splitlines (without_card_phrases message)) ->
        Main.clean_for_card message = without_card_phrases message).
Proof.
  intros message kept.
  assert (Hclean : Main.clean_for_card message = join nl kept) by reflexivity.
  assert (Hlines : kept <> [] ->
                   splitlines (Main.clean_for_card message) = kept).
  { intros Hne. rewrite Hclean. apply splitlines_join; [exact Hne|].
    apply Forall_list_filter, splitlines_one_line. }
  split; [|split; [exact Hlines|split]].
  - intros Hnil. by rewrite Hclean, Hnil.
  - destruct kept as [|x l] eqn:Hkept; [left; by rewrite Hclean|].
    right. rewrite Hlines by done. rewrite <- Hkept. unfold kept.
    eapply Forall_impl; [apply Forall_filter_true|].
    intros line Hline. by apply nonblank_strip.
  - intros Hall. rewrite Hclean. unfold kept.
    rewrite filter_all by exact Hall. apply join_splitlines.
Qed.

Lemma clean_for_card_lines_witness :
  (List.filter nonblank (splitlines (without_card_phrases Agents.DEFAULT_MESSAGE))
   <> []
   /\ splitlines (Main.clean_for_card Agents.DEFAULT_MESSAGE)
      = [ "May this Eid bring you joy, peace, and prosperity! 🌙✨";
          "Wishing you and your family a blessed celebration filled with love, laughter, and cherished moments together.";
          "May Allah accept our prayers and grant us His infinite mercy. ";
          "عید مبارک" ])
  /\ (List.filter nonblank (splitlines (without_card_phrases (nl +:+ "  " +:+ nl)))
      = []
      /\ Main.clean_for_card (nl +:+ "  " +:+ nl) = "").
Proof.
  assert (Hkept :
    List.filter nonblank
      (splitlines (without_card_phrases Agents.DEFAULT_MESSAGE))
    = [ "May this Eid bring you joy, peace, and prosperity! 🌙✨";
        "Wishing you and your family a blessed celebration filled with love, laughter, and cherished moments together.";
        "May Allah accept our prayers and grant us His infinite mercy. ";
        "عید مبارک" ]) by (vm_compute; reflexivity).
  assert (Hnone :
    List.filter nonblank (splitlines (without_card_phrases (nl +:+ "  " +:+ nl)))
    = []) by (vm_compute; reflexivity).
  split.
  - split; [by rewrite Hkept|].
    destruct (clean_for_card_lines Agents.DEFAULT_MESSAGE) as (_ & Hlines & _).
    rewrite Hlines; [exact Hkept | by rewrite Hkept].
  - split; [exact Hnone|].
    by apply (clean_for_card_lines (nl +:+ "  " +:+ nl)).
Defined.

Lemma has_newline_concat (l : list string) :
  has_newline (concat_strs l) = existsb has_newline l.
Proof.
  induction l as [|x l IH]; [reflexivity|].
  cbn [concat_strs foldr existsb]. fold (concat_strs l).
  by rewrite has_newline_app, IH.
Qed.

Lemma drop_while_In {A} (p : A -> bool) (l : list A) (x : A) :
  In x (drop_while p l) -> In x l.
Proof.
  induction l as [|a l IH]; simpl; [done|].
  destruct (p a); [|done]. intros Hin. right. by apply IH.
Qed.

Lemma strip_one_line (line : string) :
  has_newline line = false -> has_newline (strip line) = false.
Proof.
  intros Hline. rewrite <- (concat_chars line), has_newline_concat in Hline.
  unfold strip. rewrite has_newline_concat.
  apply not_true_is_false. intros [x [Hin Hx]]%existsb_exists.
  apply in_rev, drop_while_In, in_rev, drop_while_In in Hin.
  assert (Hex : existsb has_newline (chars line) = true)
    by (apply existsb_exists; by exists x).
  congruence.
Qed.

(** X17. The text [create_pdf_card] prints holds no character that the
    emoji table classifies as an emoji.  When the stripped, non-blank
    lines of the message hold no such character, the text consists of
    exactly these lines: every line of it is stripped and none is empty. *)
Theorem clean_for_pdf_text :
  forall EMOJI_DATA message,
    let kept :=
      map strip
        (List.filter nonblank (splitlines (without_pdf_phrases message))) in
    Forall (fun char => Main.is_emoji EMOJI_DATA char = false)
      (chars (Main.clean_for_pdf EMOJI_DATA message))
    /\ (Forall (fun char => Main.is_emoji EMOJI_DATA char = false)
          (chars (join nl kept)) ->
        Main.clean_for_pdf EMOJI_DATA message = join nl kept
        /\ (kept <> [] ->
            splitlines (Main.clean_for_pdf EMOJI_DATA message) = kept)
        /\ Forall (fun line => line <> "") kept).
Proof.
  intros EMOJI_DATA message kept.
  assert (Hclean :
    Main.clean_for_pdf EMOJI_DATA message
    = concat_strs
        (List.filter (fun char => negb (Main.is_emoji EMOJI_DATA char))
           (chars (join nl kept)))) by reflexivity.
  split.
  - rewrite Hclean, chars_concat
      by apply segmented_filter, chars_segmented.
    eapply Forall_impl; [apply Forall_filter_true|].
    intros char Hchar. by apply negb_true_iff.
  - intros Hnone.
    assert (Hsame : Main.clean_for_pdf EMOJI_DATA message = join nl kept).
    { rewrite Hclean, filter_all; [apply concat_chars|].
      eapply Forall_impl; [exact Hnone|].
      intros char Hchar. cbv beta in *. by rewrite Hchar. }
    split; [exact Hsame|]. split.
    + intros Hne. rewrite Hsame. apply splitlines_join; [exact Hne|].
      unfold kept. apply Forall_forall. intros line Hin.
      apply list_elem_of_fmap in Hin as (raw & -> & Hraw).
      apply strip_one_line.
      pose proof (splitlines_one_line (without_pdf_phrases message)) as Hall.
      rewrite Forall_forall in Hall. apply Hall.
      apply list_elem_of_In, filter_In in Hraw as [Hraw _].
      by apply list_elem_of_In.
    + unfold kept. apply Forall_forall. intros line Hin.
      apply list_elem_of_fmap in Hin as (raw & -> & Hraw).
      apply list_elem_of_In, filter_In in Hraw as [_ Hraw].
      by apply nonblank_strip.
Qed.

Lemma clean_for_pdf_text_witness :
  Forall (fun char => Main.is_emoji PdfGenerator.emoji_pattern char = false)
    (chars
       (join nl
          (map strip
             (List.filter nonblank
                (splitlines
                   (without_pdf_phrases
                      ("  Eid Mubarak, Ali!  " +:+ nl +:+ nl
                         +:+ "[No Hadith included per your request]"
                         +:+ nl +:+ "عید مبارک")))))))
  /\ Main.clean_for_pdf PdfGenerator.emoji_pattern
       ("  Eid Mubarak, Ali!  " +:+ nl +:+ nl
          +:+ "[No Hadith included per your request]" +:+ nl +:+ "عید مبارک")
     = "Eid Mubarak, Ali!" +:+ nl +:+ "عید مبارک".
Proof.
  set (message := "  Eid Mubarak, Ali!  " +:+ nl +:+ nl
                    +:+ "[No Hadith included per your request]"
                    +:+ nl +:+ "عید مبارک").
  assert (Hkept :
    map strip (List.filter nonblank (splitlines (without_pdf_phrases message)))
    = ["Eid Mubarak, Ali!"; "عید مبارک"]) by (vm_compute; reflexivity).
  assert (Hnone :
    Forall (fun char => Main.is_emoji PdfGenerator.emoji_pattern char = false)
      (chars
         (join nl
            (map strip
               (List.filter nonblank
                  (splitlines (without_pdf_phrases message)))))))
    by (apply (bool_decide_unpack _); vm_compute; exact I).
  split; [exact Hnone|].
  destruct (clean_for_pdf_text PdfGenerator.emoji_pattern message)
    as [_ Hlines].
  destruct (Hlines Hnone) as [Hsame _]. rewrite Hsame, Hkept. reflexivity.
Defined.

(* ===================================================================== *)
(** * [create_card] and [refresh_background]                               *)
(* ===================================================================== *)

Section Session.
Variable E : env.

Lemma random_fonts_run w :
  exists fonts url,
    FontUtils.download_google_fonts E None w = (Ok fonts, extend w [] 1)
    /\ fonts ∈ FontUtils.get_available_fonts
    /\ fonts !! "url" = Some url.
Proof.
  destruct (choose_run E FontUtils.all_combinations w)
    as (fonts & _ & Hin & Hrun); [discriminate|].
  assert (Hentries : Forall font_entries FontUtils.get_available_fonts)
    by (apply (bool_decide_unpack _); vm_compute; exact I).
  rewrite Forall_forall in Hentries.
  destruct (Hentries fonts Hin) as (_ & _ & [url Hurl]).
  exists fonts, url. split; [exact Hrun|]. by split.
Qed.

Lemma card_background_run s w :
  Main.card_background E s w
  = if truthy (Main.current_background s)
    then (Ok (default "" (Main.current_background s)), s, w)
    else
      match Utils.get_pexels_image_default E (Main.background_category s) w
      with
      | (Raise e, w2) => (Raise e, s, w2)
      | (Ok found, w2) =>
          if truthy found
          then (Ok (default "" found), with_background s found, w2)
          else (Ok Main.default_background, s,
                extend w2 [default_background_warning] 0)
      end.
Proof.
  unfold Main.card_background, Main.ui_bind at 1, Main.ui_get.
  destruct (truthy (Main.current_background s)); cbn [negb]; [reflexivity|].
  unfold Main.ui_bind at 1. unfold Main.ui_bind at 1, Main.ui_lift at 1.
  destruct (Utils.get_pexels_image_default E (Main.background_category s) w)
    as [[found|e] w2]; [|reflexivity].
  destruct (truthy found); [reflexivity|].
  unfold Main.ui_bind, Main.ui_lift, emit, Main.ui_ret, extend,
    default_background_warning.
  by rewrite Nat.add_0_r.
Qed.

Lemma generate_eid_message_composer recipient tone sender include_hadith
    include_urdu include_emojis w :
  exists text evs n,
    Agents.generate_eid_message E recipient tone sender include_hadith
      include_urdu include_emojis w = (Ok text, extend w evs n)
    /\ Forall composer_call evs.
Proof.
  unfold Agents.generate_eid_message.
  destruct (truthy (getenv E "OPENROUTER_API_KEY")); cbn [negb].
  - unfold Agents.craft_message.
    match goal with
    | |- context [Agents.generate_greeting E ?a ?r ?t ?h ?u ?m ?s w] =>
        destruct (generate_greeting_calls E a r t h u m s w)
          as (text & evs & n & -> & Hall & _)
    end.
    by exists text, evs, n.
  - exists Agents.DEFAULT_MESSAGE, [], 0%nat. split; [|constructor].
    unfold ret, extend. rewrite app_nil_r, Nat.add_0_r. by destruct w.
Qed.

Section Card.
Variables recipient_name sender_name tone : string.
Variables include_hadith include_emojis : bool.

Lemma create_card_run s w fonts url :
  FontUtils.download_google_fonts E None w = (Ok fonts, extend w [] 1) ->
  fonts !! "url" = Some url ->
  Main.create_card E recipient_name sender_name tone include_hadith
    include_emojis s w
  = match Main.card_background E (shown s [font_link url]) (extend w [] 1) with
    | (Raise e, s2, w2) => (Ok false, shown s2 [card_error e], w2)
    | (Ok background, s2, w2) =>
        match Agents.generate_eid_message E recipient_name tone sender_name
                include_hadith false include_emojis w2 with
        | (Raise e, w3) => (Ok false, shown s2 [card_error e], w3)
        | (Ok text, w3) =>
            (Ok true,
             with_card s2
               (new_card recipient_name sender_name tone text background
                  fonts),
             w3)
        end
    end.
Proof.
  intros Hfonts Hurl.
  unfold Main.create_card, Main.ui_try, Main.create_card_body.
  unfold Main.ui_bind at 1, Main.ui_lift at 1. rewrite Hfonts.
  unfold Main.ui_bind at 1, Main.ui_lift at 1, lift. rewrite Hurl.
  unfold Main.ui_bind at 1, Main.st_show, Main.ui_set.
  fold (font_link url). fold (shown s [font_link url]).
  unfold Main.ui_bind at 1.
  destruct (Main.card_background E (shown s [font_link url]) (extend w [] 1))
    as [[[background|e] s2] w2]; [|reflexivity].
  unfold Main.ui_bind at 1, Main.ui_lift at 1.
  destruct (Agents.generate_eid_message E recipient_name tone sender_name
              include_hadith false include_emojis w2) as [[text|e] w3];
    reflexivity.
Qed.

End Card.

End Session.

(** X18. When the session has a current background, [create_card] makes
    no photo search: it returns [True] and puts a new card in front of
    the list, with that background, the given names, the theme of the
    tone, one of the five font combinations and the cleaned message of
    the composer.  The only calls are those of the composer, and on the
    page appears the link of the fonts. *)
Theorem create_card_reuses_background :
  forall E recipient_name sender_name tone include_hadith include_emojis s w,
    truthy (Main.current_background s) = true ->
    exists fonts url text evs n,
      Main.create_card E recipient_name sender_name tone include_hadith
        include_emojis s w
      = (Ok true,
         with_card (shown s [font_link url])
           (new_card recipient_name sender_name tone text
              (default "" (Main.current_background s)) fonts),
         extend w evs n)
      /\ fonts ∈ FontUtils.get_available_fonts
      /\ fonts !! "url" = Some url
      /\ Agents.generate_eid_message E recipient_name tone sender_name
           include_hadith false include_emojis (extend w [] 1)
         = (Ok text, extend w evs n)
      /\ Forall composer_call evs.
Proof.
  intros E recipient_name sender_name tone include_hadith include_emojis s w
    Hcurrent.
  destruct (random_fonts_run E w) as (fonts & url & Hfonts & Havail & Hurl).
  destruct (generate_eid_message_composer E recipient_name tone sender_name
              include_hadith false include_emojis (extend w [] 1))
    as (text & evs & n & Hmessage & Hcalls).
  rewrite extend_extend in Hmessage. cbn [app] in Hmessage.
  exists fonts, url, text, evs, (1 + n)%nat.
  rewrite (create_card_run E _ _ _ _ _ s w fonts url Hfonts Hurl).
  rewrite card_background_run.
  change (Main.current_background (shown s [font_link url]))
    with (Main.current_background s).
  rewrite Hcurrent, Hmessage. by repeat split.
Qed.

Lemma create_card_reuses_background_witness :
  truthy (Main.current_background
            (with_background Main.session0
               (Some "https://images.pexels.com/photos/2/large.jpeg"))) = true
  /\ exists s' w',
       Main.create_card Scenarios.offline "Ali" "Sara" "emotional" false true
         (with_background Main.session0
            (Some "https://images.pexels.com/photos/2/large.jpeg")) world0
       = (Ok true, s', w')
       /\ Main.background_url <$> head (Main.cards s')
          = Some "https://images.pexels.com/photos/2/large.jpeg"
       /\ Main.style <$> head (Main.cards s') = Some elegant_bundle.
Proof.
  split; [reflexivity|].
  destruct (create_card_reuses_background Scenarios.offline "Ali" "Sara"
              "emotional" false true
              (with_background Main.session0
                 (Some "https://images.pexels.com/photos/2/large.jpeg"))
              world0 eq_refl)
    as (fonts & url & text & evs & n & Hrun & _).
  eexists _, _. split; [exact Hrun|]. split; reflexivity.
Defined.

(** X19. Without a current background [create_card] searches a photo for
    the category of the session, after the font combination was chosen.
    If the search raises (no credential, or the last attempt failed), no
    card is added: the error is shown on the page and [False] is
    returned, and the session keeps its cards and its background.  If
    the search returns a URL, the new card has it and it becomes the
    current background; if it returns nothing, a warning is given and the
    card gets the fixed default picture, the session staying without
    background. *)
Theorem create_card_searches_background :
  forall E recipient_name sender_name tone include_hadith include_emojis s w,
    truthy (Main.current_background s) = false ->
    exists fonts url,
      let s1 := shown s [font_link url] in
      let w1 := extend w [] 1 in
      fonts ∈ FontUtils.get_available_fonts
      /\ fonts !! "url" = Some url
      /\ (forall e w2,
            Utils.get_pexels_image_default E (Main.background_category s) w1
            = (Raise e, w2) ->
            Main.create_card E recipient_name sender_name tone include_hadith
              include_emojis s w
            = (Ok false, shown s1 [card_error e], w2))
      /\ (forall found w2,
            Utils.get_pexels_image_default E (Main.background_category s) w1
            = (Ok found, w2) ->
            truthy found = true ->
            exists text w3,
              Main.create_card E recipient_name sender_name tone
                include_hadith include_emojis s w
              = (Ok true,
                 with_card (with_background s1 found)
                   (new_card recipient_name sender_name tone text
                      (default "" found) fonts),
                 w3))
      /\ (forall found w2,
            Utils.get_pexels_image_default E (Main.background_category s) w1
            = (Ok found, w2) ->
            truthy found = false ->
            exists text evs n,
              Main.create_card E recipient_name sender_name tone
                include_hadith include_emojis s w
              = (Ok true,
                 with_card s1
                   (new_card recipient_name sender_name tone text
                      Main.default_background fonts),
                 extend w2 (default_background_warning :: evs) n)
              /\ Forall composer_call evs).
Proof.
  intros E recipient_name sender_name tone include_hadith include_emojis s w
    Hcurrent.
  destruct (random_fonts_run E w) as (fonts & url & Hfonts & Havail & Hurl).
  exists fonts, url. intros s1 w1.
  split; [exact Havail|]. split; [exact Hurl|].
  assert (Hrun := create_card_run E recipient_name sender_name tone
                    include_hadith include_emojis s w fonts url Hfonts Hurl).
  fold s1 w1 in Hrun. rewrite card_background_run in Hrun.
  change (Main.current_background s1) with (Main.current_background s)
    in Hrun.
  change (Main.background_category s1) with (Main.background_category s)
    in Hrun.
  rewrite Hcurrent in Hrun.
  split; [|split].
  - intros e w2 Hsearch. by rewrite Hrun, Hsearch.
  - intros found w2 Hsearch Hfound. rewrite Hrun, Hsearch, Hfound.
    destruct (generate_eid_message_composer E recipient_name tone sender_name
                include_hadith false include_emojis w2)
      as (text & evs & n & -> & _).
    by eexists _, _.
  - intros found w2 Hsearch Hfound. rewrite Hrun, Hsearch, Hfound.
    destruct (generate_eid_message_composer E recipient_name tone sender_name
                include_hadith false include_emojis
                (extend w2 [default_background_warning] 0))
      as (text & evs & n & -> & Hcalls).
    exists text, evs, n. rewrite extend_extend. by split.
Qed.

Lemma create_card_searches_background_witness :
  truthy (Main.current_background Main.session0) = false
  /\ (exists s',
        Main.create_card Scenarios.offline "Ali" "Sara" "formal" false true
          Main.session0 world0
        = (Ok false, s', extend world0 [] 1)
        /\ Main.cards s' = []
        /\ last (Main.page s')
           = Some (card_error missing_key_error))
  /\ (exists s' w',
        Main.create_card (stocked [landscape]) "Ali" "Sara" "formal" false
          true Main.session0 world0
        = (Ok true, s', w')
        /\ Main.current_background s'
           = Some "https://images.pexels.com/photos/2/large.jpeg").
Proof.
  split; [reflexivity|]. split.
  - destruct (create_card_searches_background Scenarios.offline "Ali" "Sara"
                "formal" false true Main.session0 world0 eq_refl)
      as (fonts & url & _ & _ & Hraise & _).
    eexists. split; [|split].
    + apply (Hraise missing_key_error). reflexivity.
    + reflexivity.
    + cbn [shown Main.page]. by rewrite last_snoc.
  - destruct (create_card_searches_background (stocked [landscape]) "Ali"
                "Sara" "formal" false true Main.session0 world0 eq_refl)
      as (fonts & url & _ & _ & _ & Hfound & _).
    destruct (Hfound
                (Some "https://images.pexels.com/photos/2/large.jpeg")
                (extend world0
                   [query_event (auth_headers (stocked [landscape]))
                      "islamic patterns"] 2))
      as (text & w3 & Hrun); [reflexivity | reflexivity |].
    eexists _, _. split; [exact Hrun | reflexivity].
Defined.

(** X20. [refresh_background] stores what the search for the category of
    the session returns as the current background, also when that is
    nothing, so that a background chosen before is lost; when the search
    raises, the exception passes to the caller and the session is as it
    was.  After a refresh that found a URL, [create_card] makes no search
    of its own and the new card has that URL. *)
Theorem refresh_background_then_create :
  forall E s w,
    (forall e w1,
       Utils.get_pexels_image_default E (Main.background_category s) w
       = (Raise e, w1) ->
       Main.refresh_background E s w = (Raise e, s, w1))
    /\ (forall found w1,
          Utils.get_pexels_image_default E (Main.background_category s) w
          = (Ok found, w1) ->
          Main.refresh_background E s w = (Ok tt, with_background s found, w1)
          /\ (truthy found = true ->
              forall recipient_name sender_name tone include_hadith
                     include_emojis,
              exists s2 evs n c,
                Main.create_card E recipient_name sender_name tone
                  include_hadith include_emojis (with_background s found) w1
                = (Ok true, s2, extend w1 evs n)
                /\ Main.cards s2 = c :: Main.cards s
                /\ Main.background_url c = default "" found
                /\ Main.current_background s2 = found
                /\ requests evs = 0%nat)).
Proof.
  intros E s w.
  assert (Hrefresh :
    Main.refresh_background E s w
    = match Utils.get_pexels_image_default E (Main.background_category s) w
      with
      | (Raise e, w1) => (Raise e, s, w1)
      | (Ok found, w1) => (Ok tt, with_background s found, w1)
      end).
  { unfold Main.refresh_background, Main.ui_bind, Main.ui_get, Main.ui_lift.
    by destruct (Utils.get_pexels_image_default E _ w) as [[found|e] w1]. }
  split.
  - intros e w1 Hsearch. by rewrite Hrefresh, Hsearch.
  - intros found w1 Hsearch. split; [by rewrite Hrefresh, Hsearch|].
    intros Hfound recipient_name sender_name tone include_hadith
      include_emojis.
    destruct (random_fonts_run E w1) as (fonts & url & Hfonts & _ & Hurl).
    destruct (generate_eid_message_composer E recipient_name tone sender_name
                include_hadith false include_emojis (extend w1 [] 1))
      as (text & evs & n & Hmessage & Hcalls).
    rewrite extend_extend in Hmessage. cbn [app] in Hmessage.
    rewrite (create_card_run E _ _ _ _ _ _ w1 fonts url Hfonts Hurl).
    rewrite card_background_run.
    change (Main.current_background
              (shown (with_background s found) [font_link url]))
      with found.
    rewrite Hfound, Hmessage.
    eexists _, evs, _, _. split; [reflexivity|].
    split; [reflexivity|]. split; [reflexivity|]. split; [reflexivity|].
    unfold requests. clear Hmessage.
    induction Hcalls as [|ev evs' Hev _ IH]; [reflexivity|].
    destruct ev; try contradiction; exact IH.
Qed.

Lemma refresh_background_then_create_witness :
  Utils.get_pexels_image_default (stocked [landscape])
    (Main.background_category Main.session0) world0
  = (Ok (Some "https://images.pexels.com/photos/2/large.jpeg"),
     extend world0
       [query_event (auth_headers (stocked [landscape])) "islamic patterns"] 1)
  /\ truthy (Some "https://images.pexels.com/photos/2/large.jpeg") = true
  /\ exists s1 w1 s2 w2,
       Main.refresh_background (stocked [landscape]) Main.session0 world0
       = (Ok tt, s1, w1)
       /\ Main.create_card (stocked [landscape]) "Ali" "Sara" "funny" false
            false s1 w1 = (Ok true, s2, w2)
       /\ length (Main.cards s2) = 1%nat.
Proof.
  split; [reflexivity|]. split; [reflexivity|].
  destruct (refresh_background_then_create (stocked [landscape])
              Main.session0 world0) as [_ Hfound].
  destruct (Hfound (Some "https://images.pexels.com/photos/2/large.jpeg")
              (extend world0
                 [query_event (auth_headers (stocked [landscape]))
                    "islamic patterns"] 1) eq_refl)
    as [Hrefresh Hcreate].
  destruct (Hcreate eq_refl "Ali" "Sara" "funny" false false)
    as (s2 & evs & n & c & Hrun & Hcards & _).
  eexists _, _, s2, _. split; [exact Hrefresh|]. split; [exact Hrun|].
  by rewrite Hcards.
Defined.

(* ===================================================================== *)
(** * The font of a document                                               *)
(* ===================================================================== *)

Lemma path_join_truthy dir name :
  truthy (Some (PdfGenerator.path_join dir name)) = true.
Proof.
  unfold truthy, PdfGenerator.path_join.
  destruct dir; reflexivity.
Qed.

Lemma pdf_call_run E pdf op w :
  PdfGenerator.pdf_call E pdf op w
  = (match pdf_raises E (log w) pdf op with
     | Some e => Raise e
     | None => Ok tt
     end, extend w [EvPdf pdf op] 0).
Proof.
  unfold PdfGenerator.pdf_call, call_, call, extend. rewrite Nat.add_0_r.
  by destruct (pdf_raises E (log w) pdf op).
Qed.

Lemma font_call_not_font family ev :
  font_call ev -> adds_font family ev = false.
Proof. by destruct ev. Qed.

Lemma get_font_path_roboto E w :
  str_lower E "roboto" = "roboto" ->
  exists r evs,
    PdfGenerator.get_font_path E "roboto" w = (r, extend w evs 0)
    /\ Forall (fun ev => adds_font "Helvetica" ev = false) evs
    /\ (forall p, r = Ok p -> p = roboto_path E).
Proof.
  intros Hlower. unfold PdfGenerator.get_font_path. rewrite Hlower.
  unfold PdfGenerator.font_urls.
  cbn [PdfGenerator.assoc String.eqb Ascii.eqb Bool.eqb andb].
  fold (roboto_dir E). unfold bind at 1, call_, call.
  destruct (mkdir E (log w) (roboto_dir E)) as [e|].
  { exists (Raise e), [EvMkdir (roboto_dir E)].
    split; [unfold extend; by rewrite Nat.add_0_r|].
    split; [by repeat constructor | discriminate]. }
  unfold bind at 1.
  match goal with
  | |- context [PdfGenerator.download_all E ?d ?b ?s ?t ?w0] =>
      destruct (download_all_calls E d b s t w0) as (evs & -> & Hcalls & _)
  end.
  { intros style url' Hin.
    repeat (apply elem_of_cons in Hin as [[= -> _] | Hin]; [by eexists|]).
    by apply elem_of_nil in Hin. }
  exists (Ok (roboto_path E)), (EvMkdir (roboto_dir E) :: evs).
  split; [unfold ret, extend; cbn [log draws objects];
          by rewrite <- app_assoc, Nat.add_0_r|].
  split; [|by intros p [= <-]].
  constructor; [reflexivity|].
  eapply Forall_impl; [exact Hcalls|]. intros ev. apply font_call_not_font.
Qed.

(** X21. [EidCard.__init__] never registers the built-in "Helvetica": the
    fallback branch is not taken, whether the constructor returns or
    raises, because [get_font_path] returns the path of "roboto.ttf"
    whatever the downloads do.  When the constructor returns, the
    document uses "Roboto", is a new object and keeps the theme it was
    given, and the three Roboto files were registered last.  When the
    set-up calls return, the font path is obtained and [add_font] raises
    on the regular file, as it does when the file is missing, the
    constructor raises that exception at once. *)
Theorem EidCard_init_font :
  forall E theme w,
    str_lower E "roboto" = "roboto" ->
    let pdf := objects w in
    let w3 :=
      World (log w ++ map (EvPdf pdf) setup_ops) (draws w) (S pdf) in
    (exists r evs,
       PdfGenerator.EidCard_init E theme w
       = (r, World (log w ++ evs) (draws w) (S pdf))
       /\ Forall (fun ev => adds_font "Helvetica" ev = false) evs
       /\ (forall card,
             r = Ok card ->
             PdfGenerator.default_font card = "Roboto"
             /\ PdfGenerator.obj card = pdf
             /\ PdfGenerator.theme_of card = theme
             /\ exists before,
                  evs = before ++ map (EvPdf pdf) (roboto_ops E)))
    /\ (forall p wf e,
          pdf_calls_return E (log w) pdf setup_ops ->
          PdfGenerator.get_font_path E "roboto" w3 = (Ok p, wf) ->
          pdf_raises E (log wf) pdf (OpAddFont "Roboto" "" (Some p) true)
            = Some e ->
          p = roboto_path E
          /\ PdfGenerator.EidCard_init E theme w
             = (Raise e,
                World (log wf ++ [EvPdf pdf (OpAddFont "Roboto" "" (Some p) true)])
                  (draws wf) (objects wf))).
Proof.
  intros E theme w Hlower pdf w3. split.
  - unfold PdfGenerator.EidCard_init.
    unfold bind at 1, new_object. fold pdf.
    set (w0 := World (log w) (draws w) (S pdf)).
    assert (Hstop : forall e evs,
      Forall (fun ev => adds_font "Helvetica" ev = false) evs ->
      exists r evs',
        (Raise e : result PdfGenerator.EidCard, extend w0 evs 0)
        = (r, World (log w ++ evs') (draws w) (S pdf))
        /\ Forall (fun ev => adds_font "Helvetica" ev = false) evs'
        /\ (forall card,
              r = Ok card ->
              PdfGenerator.default_font card = "Roboto"
              /\ PdfGenerator.obj card = pdf
              /\ PdfGenerator.theme_of card = theme
              /\ exists before,
                   evs' = before ++ map (EvPdf pdf) (roboto_ops E))).
    { intros e evs Hevs. exists (Raise e), evs.
      split; [unfold extend, w0; cbn [log draws objects];
              by rewrite Nat.add_0_r|].
      split; [exact Hevs | discriminate]. }
    unfold bind at 1. rewrite pdf_call_run.
    destruct (pdf_raises E (log w0) pdf (OpInit "A4")) as [e|];
      [apply Hstop; by repeat constructor|].
    unfold bind at 1. rewrite pdf_call_run.
    destruct (pdf_raises E _ pdf (OpSetMargins _ _ _)) as [e|];
      [rewrite extend_extend; apply Hstop; by repeat constructor|].
    unfold bind at 1. rewrite pdf_call_run.
    destruct (pdf_raises E _ pdf (OpSetAutoPageBreak _ _)) as [e|];
      [rewrite !extend_extend; apply Hstop; by repeat constructor|].
    rewrite !extend_extend. cbn [app Nat.add].
    unfold bind at 1.
    match goal with
    | |- context [PdfGenerator.get_font_path E "roboto" ?w1] =>
        destruct (get_font_path_roboto E w1 Hlower)
          as ([p|e] & fetch & -> & Hfetch & Hpath)
    end.
    2:{ rewrite extend_extend. apply Hstop.
        apply Forall_app. split; [by repeat constructor | exact Hfetch]. }
    rewrite (Hpath p eq_refl).
    fold (roboto_dir E). unfold roboto_path at 1.
    rewrite path_join_truthy. fold (roboto_path E).
    rewrite extend_extend.
    assert (Hbefore :
      Forall (fun ev => adds_font "Helvetica" ev = false)
        ([EvPdf pdf (OpInit "A4");
          EvPdf pdf (OpSetMargins (PdfGenerator.qz 20) (PdfGenerator.qz 20)
                       (PdfGenerator.qz 20));
          EvPdf pdf (OpSetAutoPageBreak true (PdfGenerator.qz 20))] ++ fetch))
      by (apply Forall_app; split; [by repeat constructor | exact Hfetch]).
    unfold bind at 1. rewrite pdf_call_run.
    destruct (pdf_raises E _ pdf (OpAddFont "Roboto" "" _ _)) as [e|].
    { rewrite extend_extend. apply Hstop.
      apply Forall_app. split; [exact Hbefore | by repeat constructor]. }
    unfold bind at 1. rewrite pdf_call_run.
    destruct (pdf_raises E _ pdf (OpAddFont "Roboto" "B" _ _)) as [e|].
    { rewrite !extend_extend. apply Hstop.
      apply Forall_app. split; [exact Hbefore | by repeat constructor]. }
    unfold bind at 1. rewrite pdf_call_run.
    destruct (pdf_raises E _ pdf (OpAddFont "Roboto" "I" _ _)) as [e|].
    { rewrite !extend_extend. apply Hstop.
      apply Forall_app. split; [exact Hbefore | by repeat constructor]. }
    rewrite !extend_extend. cbn [Nat.add]. unfold ret.
    eexists _, _. split.
    { unfold extend, w0. cbn [log draws objects]. rewrite Nat.add_0_r.
      reflexivity. }
    split.
    { apply Forall_app. split; [exact Hbefore | by repeat constructor]. }
    intros card [= <-].
    cbn [PdfGenerator.default_font PdfGenerator.obj PdfGenerator.theme_of].
    do 3 (split; [reflexivity|]). eexists. reflexivity.
  - intros p wf e (Hinit & Hmargins & Hbreak & _) Hfetch Hfont.
    cbn [app] in Hmargins, Hbreak.
    destruct (get_font_path_roboto E w3 Hlower)
      as (r & fetch & Hrun & _ & Hpath).
    rewrite Hfetch in Hrun. injection Hrun as <- ->.
    pose proof (Hpath p eq_refl) as ->. split; [reflexivity|].
    unfold PdfGenerator.EidCard_init.
    unfold bind at 1, new_object. fold pdf.
    unfold bind at 1. rewrite pdf_call_run. cbn [log]. rewrite Hinit.
    unfold bind at 1. rewrite pdf_call_run. cbn [log extend].
    rewrite Hmargins.
    unfold bind at 1. rewrite pdf_call_run. cbn [log extend].
    rewrite Hbreak.
    rewrite !extend_extend. cbn [app Nat.add].
    replace (extend (World (log w) (draws w) (S pdf))
               [EvPdf pdf (OpInit "A4");
                EvPdf pdf (OpSetMargins (PdfGenerator.qz 20)
                             (PdfGenerator.qz 20) (PdfGenerator.qz 20));
                EvPdf pdf (OpSetAutoPageBreak true (PdfGenerator.qz 20))] 0)
      with w3
      by (unfold extend, w3, setup_ops; cbn [log draws objects map];
          rewrite ?Nat.add_0_r; reflexivity).
    unfold bind at 1. rewrite Hfetch.
    fold (roboto_dir E). unfold roboto_path at 1.
    rewrite path_join_truthy. fold (roboto_path E).
    unfold bind at 1. rewrite pdf_call_run, Hfont.
    unfold extend. cbn [log draws objects]. by rewrite !Nat.add_0_r.
Qed.

Lemma EidCard_init_font_witness :
  str_lower missing_fonts "roboto" = "roboto"
  /\ pdf_calls_return missing_fonts (log world0) (objects world0) setup_ops
  /\ exists w',
       PdfGenerator.EidCard_init missing_fonts ∅ world0
       = (Raise (Exn IOError
                   "TTF Font file not found: /app/fonts/roboto/roboto.ttf"),
          w')
       /\ downloads (log w') = 3%nat
       /\ Forall (fun ev => adds_font "Helvetica" ev = false) (log w').
Proof.
  split; [reflexivity|].
  assert (Hsetup :
    pdf_calls_return missing_fonts (log world0) (objects world0) setup_ops)
    by (by repeat split).
  split; [exact Hsetup|].
  destruct (EidCard_init_font missing_fonts ∅ world0 eq_refl) as [_ Hraise].
  destruct (Hraise
              "/app/fonts/roboto/roboto.ttf"
              (PdfGenerator.get_font_path missing_fonts "roboto"
                 (World (map (EvPdf 0%nat) setup_ops) 0 1)).2
              (Exn IOError
                 "TTF Font file not found: /app/fonts/roboto/roboto.ttf")
              Hsetup) as [_ Hrun].
  - vm_compute. reflexivity.
  - reflexivity.
  - eexists. split; [exact Hrun|].
    split; [vm_compute; reflexivity|].
    apply (bool_decide_unpack _). vm_compute. exact I.
Defined.

(* ===================================================================== *)
(** * What the retry loop binds [bg_image] to                              *)
(* ===================================================================== *)

(** X22. The retry loop of [create_pdf_card] catches the exceptions of
    class [RequestException] or [IOError], and no others.  It never leaves
    [bg_image] unbound.  When the attempts before attempt [k] (0, 1 or 2)
    failed with such an exception and attempt [k] gives a picture,
    [bg_image] is that picture and no further request is made.  When
    attempt [k] raises an exception of another class, that exception ends
    the rendering at once: no sleep, no further attempt, no canvas.  When
    the third attempt fails like the first two, [bg_image] is the white
    canvas. *)
Theorem background_is_bound :
  forall E c w,
    let answer := fun k => download_answer E c (log w ++ retries c k) in
    let failed := fun k =>
      forall j, (j < k)%nat -> attempt_fails E c (log w ++ retries c j) in
    let after := fun k => extend w (retries c k ++ [download_event c]) 0 in
    (forall e,
       Main.caught e = true
       <-> exn_cls e = RequestException \/ exn_cls e = IOError)
    /\ (exists r w',
          Main.acquire_background E c w = (r, w') /\ r <> Ok None)
    /\ (forall k img,
          (k <= 2)%nat -> failed k -> answer k = Ok img ->
          Main.acquire_background E c w = (Ok (Some img), after k))
    /\ (forall k e,
          (k <= 2)%nat -> failed k -> answer k = Raise e ->
          exn_cls e <> RequestException -> exn_cls e <> IOError ->
          Main.acquire_background E c w = (Raise e, after k))
    /\ (forall e,
          failed 2%nat -> answer 2%nat = Raise e ->
          exn_cls e = RequestException \/ exn_cls e = IOError ->
          Main.acquire_background E c w
          = (Ok (Some Main.solid_background),
             extend w (retries c 2 ++ download_event c :: degradation e) 0)).
Proof.
  intros E c w answer failed after.
  assert (Hcaught : forall e,
    Main.caught e = true
    <-> exn_cls e = RequestException \/ exn_cls e = IOError).
  { intros e. unfold Main.caught, is_IOError, is_RequestException.
    rewrite !orb_true_iff, !bool_decide_eq_true. tauto. }
  assert (Hother : forall e,
    exn_cls e <> RequestException -> exn_cls e <> IOError ->
    Main.caught e = false).
  { intros e H1 H2. destruct (Main.caught e) eqn:Hc; [|reflexivity].
    apply Hcaught in Hc. tauto. }
  assert (H0 : log w ++ retries c 0 = log w) by apply app_nil_r.
  assert (H1 : log w ++ retries c 1
               = log w ++ [download_event c; EvSleep 1]) by reflexivity.
  assert (H2 : log w ++ retries c 2
               = (log w ++ [download_event c; EvSleep 1])
                 ++ [download_event c; EvSleep 1])
    by (by rewrite <- app_assoc).
  assert (Hfirst : forall k,
    (0 < k)%nat -> failed k ->
    exists e0, download_answer E c (log w) = Raise e0
               /\ Main.caught e0 = true).
  { intros k Hk Hfailed. destruct (Hfailed 0%nat Hk) as (e0 & He0 & Hc0).
    rewrite H0 in He0. eauto. }
  assert (Hsecond : forall k,
    (1 < k)%nat -> failed k ->
    exists e1,
      download_answer E c (log w ++ [download_event c; EvSleep 1]) = Raise e1
      /\ Main.caught e1 = true).
  { intros k Hk Hfailed. destruct (Hfailed 1%nat Hk) as (e1 & He1 & Hc1).
    rewrite H1 in He1. eauto. }
  unfold answer, after.
  split; [exact Hcaught|]. split; [|split; [|split]].
  - rewrite acquire_background_run.
    destruct (download_answer E c (log w)) as [img0|e0];
      [eexists _, _; split; [reflexivity | discriminate]|].
    destruct (Main.caught e0);
      [|eexists _, _; split; [reflexivity | discriminate]].
    destruct (download_answer E c _) as [img1|e1];
      [eexists _, _; split; [reflexivity | discriminate]|].
    destruct (Main.caught e1);
      [|eexists _, _; split; [reflexivity | discriminate]].
    destruct (download_answer E c _) as [img2|e2];
      [eexists _, _; split; [reflexivity | discriminate]|].
    destruct (Main.caught e2);
      eexists _, _; (split; [reflexivity | discriminate]).
  - intros k img Hk Hfailed Hans. rewrite acquire_background_run.
    destruct k as [|[|[|k]]]; [| | |lia].
    + rewrite H0 in Hans. by rewrite Hans.
    + destruct (Hfirst 1%nat) as (e0 & -> & ->); [lia | exact Hfailed|].
      rewrite H1 in Hans. by rewrite Hans.
    + destruct (Hfirst 2%nat) as (e0 & -> & ->); [lia | exact Hfailed|].
      destruct (Hsecond 2%nat) as (e1 & -> & ->); [lia | exact Hfailed|].
      rewrite H2 in Hans. by rewrite Hans.
  - intros k e Hk Hfailed Hans Hre Hio. rewrite acquire_background_run.
    pose proof (Hother e Hre Hio) as Hc.
    destruct k as [|[|[|k]]]; [| | |lia].
    + rewrite H0 in Hans. by rewrite Hans, Hc.
    + destruct (Hfirst 1%nat) as (e0 & -> & ->); [lia | exact Hfailed|].
      rewrite H1 in Hans. by rewrite Hans, Hc.
    + destruct (Hfirst 2%nat) as (e0 & -> & ->); [lia | exact Hfailed|].
      destruct (Hsecond 2%nat) as (e1 & -> & ->); [lia | exact Hfailed|].
      rewrite H2 in Hans. by rewrite Hans, Hc.
  - intros e Hfailed Hans Hcls. rewrite acquire_background_run.
    apply Hcaught in Hcls.
    destruct (Hfirst 2%nat) as (e0 & -> & ->); [lia | exact Hfailed|].
    destruct (Hsecond 2%nat) as (e1 & -> & ->); [lia | exact Hfailed|].
    rewrite H2 in Hans. by rewrite Hans, Hcls.
Qed.

Lemma background_is_bound_witness :
  download_answer oversized sample_card (log world0 ++ retries sample_card 0)
  = Raise decompression_bomb
  /\ Main.acquire_background oversized sample_card world0
     = (Raise decompression_bomb,
        extend world0 [download_event sample_card] 0).
Proof.
  split; [reflexivity|].
  destruct (background_is_bound oversized sample_card world0)
    as (_ & _ & _ & Hother & _).
  apply (Hother 0%nat); [lia | intros j Hj; lia | reflexivity
                        | discriminate | discriminate].
Defined.

(* ===================================================================== *)
(** * A theme whose colours cannot be read                                 *)
(* ===================================================================== *)

Lemma pdf_call_ok E first pdf op w :
  cooperative E first -> is_output op = false ->
  PdfGenerator.pdf_call E pdf op w
  = (Ok tt, World (log w ++ [EvPdf pdf op]) (draws w) (objects w)).
Proof.
  intros Hcoop Hop. unfold PdfGenerator.pdf_call, call_, call.
  by rewrite (coop_pdf E first Hcoop).
Qed.


